(** * Checkout and coupon reconciliation (backend/controllers/payment.js)

    A shallow embedding of the two request handlers of the payment
    controller, [createCheckoutSession] and [checkoutSuccess], and of their
    helpers [createStripeCoupon] and [createNewCoupon], followed by the
    properties of the checkout flow.

    The handlers are asynchronous JavaScript functions that talk to a
    document store (the Coupon and Order collections) and to the payment
    gateway.  A handler run is modelled as a function from a [World] to an
    outcome and a new [World]; an exception keeps the mutations made before
    it was thrown, as in the source, where [catch] turns it into a 500
    response.  Each [await] is a step of that function: the model runs one
    request at a time.

    What the model takes from outside the controller:
    - the request body is the JSON object left by the body parser, and
      [req.user._id] is set by the authentication middleware;
    - the two collections behave as the specification describes the Coupon
      and Order stores, the models not being among the sources;
    - the built-ins of the runtime that the controller calls without the
      statements depending on how they compute (the JSON codec, the
      conversions between numbers and strings) and the answers of the
      gateway are parameters, [Runtime] and [PaymentGateway];
    - Numbers are binary64 values with the operations of IEEE 754, and
      [Math.round] is defined on them. *)

From Stdlib Require Import ZArith List String Ascii Bool Lia.
From Stdlib Require Import Floats.SpecFloat.
From Stdlib Require Import DecimalString DecimalNat.
Import ListNotations.

Local Open Scope string_scope.
Local Open Scope Z_scope.

Set Warnings "-register-all".

(** ** JavaScript numbers

    A Number is an IEEE 754 binary64 value; [spec_float] has a single NaN,
    as JavaScript observes it. *)

Module Number.

Definition number := spec_float.

Definition prec : Z := 53.
Definition emax : Z := 1024.

Definition NaN : number := S754_nan.
Definition zero : number := S754_zero false.
Definition neg_zero : number := S754_zero true.

(** The Number with the value of the integer [n] (rounded to nearest when
    [n] needs more than 53 bits). *)
Definition of_Z (n : Z) : number := binary_normalize prec emax n 0 false.

Definition mul : number -> number -> number := SFmul prec emax.
Definition div : number -> number -> number := SFdiv prec emax.
Definition sub : number -> number -> number := SFsub prec emax.

(** [x >= y] and [x <= y]: false as soon as one side is NaN. *)
Definition ge (x y : number) : bool := SFleb y x.
Definition le (x y : number) : bool := SFleb x y.

Definition is_finite (x : number) : bool :=
  match x with
  | S754_zero _ | S754_finite _ _ _ => true
  | S754_infinity _ | S754_nan => false
  end.

(** [Math.round]: NaN, the infinities, the zeros and the integers are
    returned as they are; any other [x] goes to the integer closest to it,
    the one towards +infinity on a tie, that is [floor (x + 1/2)] computed
    exactly; a result of zero keeps the sign of [x]. *)
Definition round (x : number) : number :=
  match x with
  | S754_finite s m e =>
      if 0 <=? e then x
      else
        let n := (2 * cond_Zopp s (Zpos m) + 2 ^ (- e)) / 2 ^ (- e + 1) in
        if n =? 0 then S754_zero s else of_Z n
  | _ => x
  end.

End Number.

Export Number.

(** Literals of the source. *)
Definition num_1 : number := Number.of_Z 1.
Definition num_10 : number := Number.of_Z 10.
Definition num_100 : number := Number.of_Z 100.
Definition num_20000 : number := Number.of_Z 20000.

(** 0.5, a value [Math.random()] can return. *)
Definition one_half : number := S754_finite false 4503599627370496 (-53).

(** ** JavaScript values

    The values a JSON request body, a parsed JSON text or a property read can
    hold.  Objects are property lists in insertion order; a property read
    takes the first entry of that name. *)

Inductive value : Type :=
| VUndef
| VNull
| VBool (b : bool)
| VNum (n : number)
| VStr (s : string)
| VArr (items : list value)
| VObj (props : list (string * value)).

Inductive exn : Type :=
| TypeError (message : string)
| SyntaxError (message : string)
| StripeError (message : string).

Definition message (e : exn) : string :=
  match e with
  | TypeError m | SyntaxError m | StripeError m => m
  end.

(** The outcome of an expression that can throw. *)
Definition result (A : Type) : Type := (exn + A)%type.

Fixpoint lookup (k : string) (props : list (string * value)) : option value :=
  match props with
  | [] => None
  | (k', v) :: rest => if String.eqb k k' then Some v else lookup k rest
  end.

(** [o[k]] on an object literal or a parsed JSON object: a missing property
    reads as [undefined]. *)
Definition field (props : list (string * value)) (k : string) : value :=
  match lookup k props with
  | Some v => v
  | None => VUndef
  end.

(** [v.k] for the property names the controller reads ([name], [image],
    [price], [quantity], [_id], [id]): a TypeError on [undefined] and
    [null]; [undefined] on booleans, numbers, strings and arrays, whose
    prototypes have none of these names. *)
Definition get (v : value) (k : string) : result value :=
  match v with
  | VUndef => inl (TypeError "Cannot read properties of undefined")
  | VNull => inl (TypeError "Cannot read properties of null")
  | VObj props => inr (field props k)
  | VBool _ | VNum _ | VStr _ | VArr _ => inr VUndef
  end.

(** ToBoolean, the test behind [if (v)] and [v || d]. *)
Definition ToBoolean (v : value) : bool :=
  match v with
  | VUndef | VNull => false
  | VBool b => b
  | VNum (S754_zero _) | VNum S754_nan => false
  | VNum _ => true
  | VStr s => negb (String.eqb s "")
  | VArr _ | VObj _ => true
  end.

(** [a || b] *)
Definition or_else (a b : value) : value := if ToBoolean a then a else b.

Definition Array_isArray (v : value) : bool :=
  match v with
  | VArr _ => true
  | _ => false
  end.

(** ** What the model takes from the JavaScript runtime

    The conversions between strings and numbers, the conversion of an object
    or array to a primitive, the JSON codec and the process environment are
    the runtime's; the model is parametric in them. *)

Class Runtime : Type := {
  (** ToNumber on a string. *)
  StringToNumber : string -> number;
  (** ToPrimitive (hint number) on an array or an object: a primitive value,
      or a TypeError when neither [valueOf] nor [toString] yields one. *)
  ToPrimitive : value -> result value;
  (** [Number.prototype.toString(36)]. *)
  toString36 : number -> string;
  (** [JSON.stringify] on a value that has a JSON text. *)
  JSON_stringify : value -> string;
  (** [JSON.parse]: the value, or a SyntaxError. *)
  JSON_parse : string -> result value;
  (** [process.env.CLIENT_URL]. *)
  CLIENT_URL : string
}.

(** ToNumber on a primitive value. *)
Definition PrimitiveToNumber `{Runtime} (v : value) : number :=
  match v with
  | VUndef => NaN
  | VNull => zero
  | VBool b => if b then num_1 else zero
  | VNum n => n
  | VStr s => StringToNumber s
  | VArr _ | VObj _ => NaN
  end.

(** ToNumber: the operand conversion of [*] and [/]. *)
Definition ToNumber `{Runtime} (v : value) : result number :=
  match v with
  | VArr _ | VObj _ =>
      match ToPrimitive v with
      | inl e => inl e
      | inr p => inr (PrimitiveToNumber p)
      end
  | _ => inr (PrimitiveToNumber v)
  end.

(** [s.substring(start, end)] for [start <= end]; both indices are clamped
    to the length of [s]. *)
Definition substring (start end_ : nat) (s : string) : string :=
  String.substring start (end_ - start) s.

Definition upper (c : ascii) : ascii :=
  let n := nat_of_ascii c in
  if (Nat.leb 97 n && Nat.leb n 122)%bool then ascii_of_nat (n - 32) else c.

Fixpoint toUpperCase (s : string) : string :=
  match s with
  | EmptyString => EmptyString
  | String c rest => String (upper c) (toUpperCase rest)
  end.

(** ** Data model *)

(** Document and user ids are ObjectIds; the model keeps them in their
    string form, so [req.user._id.toString()] is the id itself. *)
Definition ObjectId : Type := string.

(** The id of the [n]-th document created through the model. *)
Definition ObjectId_of_nat (n : nat) : ObjectId :=
  NilEmpty.string_of_uint (Nat.to_uint n).

(** Modelled from the spec: models/cupon.js is not among the sources.  A
    Coupon has a code, an owner, a discount percentage, an expiration
    timestamp (milliseconds since the epoch) and an active flag, which a new
    coupon has set. *)
Record Coupon : Type := {
  coupon_id : ObjectId;
  code : string;
  discountPercentage : number;
  expirationDate : Z;
  isActive : bool;
  userId : ObjectId
}.

(** One entry of [Order.products]. *)
Record OrderLine : Type := {
  product : value;
  line_quantity : value;
  line_price : value
}.

(** Modelled from the spec: models/order.js is not among the sources.  An
    Order has a user, its lines, a total amount and the gateway session id;
    the store does not enforce that the session id is unique. *)
Record Order : Type := {
  order_id : ObjectId;
  user : value;
  products : list OrderLine;
  totalAmount : number;
  stripeSessionId : value
}.

(** One entry of [line_items] in the session request, with the fields of
    [price_data] and of its [product_data] side by side with [quantity]. *)
Record LineItem : Type := {
  currency : string;
  name : value;
  images : list value;
  unit_amount : number;
  quantity : value
}.

Record Metadata : Type := {
  meta_userId : string;
  meta_couponCode : value;
  meta_products : string
}.

(** The argument of [stripe.checkout.sessions.create]; [discounts] holds
    the gateway coupon id of each [{ coupon: id }] entry. *)
Record SessionParams : Type := {
  payment_method_types : list string;
  line_items : list LineItem;
  mode : string;
  success_url : string;
  cancel_url : string;
  discounts : list string;
  metadata : Metadata
}.

(** A checkout session as the gateway returns it; its metadata is a bag of
    strings. *)
Record Session : Type := {
  session_id : string;
  payment_status : string;
  amount_total : value;
  session_metadata : list (string * string)
}.

(** [session.metadata.k] *)
Definition meta (s : Session) (k : string) : value :=
  match find (fun kv => String.eqb k (fst kv)) (session_metadata s) with
  | Some kv => VStr (snd kv)
  | None => VUndef
  end.

Inductive GatewayCall : Type :=
| CouponsCreate (percent_off : number) (duration : string)
| SessionsCreate (params : SessionParams)
| SessionsRetrieve (id : value).

(** The state the handlers run in: the two collections, the sessions the
    gateway holds, the calls made to the gateway so far, the number of
    documents created, the clock ([Date.now()], in milliseconds) and the
    random source (the successive results of [Math.random()]). *)
Record World : Type := {
  coupons : list Coupon;
  orders : list Order;
  sessions : list Session;
  calls : list GatewayCall;
  created : nat;
  now : Z;
  random : nat -> number;
  drawn : nat
}.

(** What the gateway answers to the two creation calls, given the calls it
    has received before: an error, or the id of the new gateway coupon, or
    the new session. *)
Class PaymentGateway : Type := {
  coupons_create : list GatewayCall -> number -> string -> result string;
  sessions_create : list GatewayCall -> SessionParams -> result Session
}.

(** ** Effects

    A computation reads and changes the [World] and either returns or
    throws; what it changed before throwing stays changed. *)

Definition M (A : Type) : Type := World -> result A * World.

Definition ret {A : Type} (a : A) : M A := fun w => (inr a, w).

Definition throw {A : Type} (e : exn) : M A := fun w => (inl e, w).

Definition bind {A B : Type} (c : M A) (k : A -> M B) : M B :=
  fun w =>
    match c w with
    | (inl e, w') => (inl e, w')
    | (inr a, w') => k a w'
    end.

Definition lift {A : Type} (r : result A) : M A := fun w => (r, w).

Definition bind_result {A B : Type} (r : result A) (k : A -> result B) : result B :=
  match r with
  | inl e => inl e
  | inr a => k a
  end.

Notation "'let*' x ':=' c 'in' k" := (bind c (fun x => k))
  (at level 61, x pattern, c at next level, right associativity).

Notation "'let?' x ':=' c 'in' k" := (bind_result c (fun x => k))
  (at level 61, x pattern, c at next level, right associativity).

(** [array.map(f)] for an [f] that can throw: the elements are visited in
    order and the first exception ends the traversal. *)
Fixpoint map_result {A B : Type} (f : A -> result B) (l : list A) : result (list B) :=
  match l with
  | [] => inr []
  | a :: rest =>
      let? b := f a in
      let? bs := map_result f rest in
      inr (b :: bs)
  end.

Definition set_coupons (cs : list Coupon) (w : World) : World :=
  {| coupons := cs; orders := orders w; sessions := sessions w;
     calls := calls w; created := created w; now := now w;
     random := random w; drawn := drawn w |}.

Definition set_orders (os : list Order) (w : World) : World :=
  {| coupons := coupons w; orders := os; sessions := sessions w;
     calls := calls w; created := created w; now := now w;
     random := random w; drawn := drawn w |}.

Definition set_sessions (ss : list Session) (w : World) : World :=
  {| coupons := coupons w; orders := orders w; sessions := ss;
     calls := calls w; created := created w; now := now w;
     random := random w; drawn := drawn w |}.

Definition log_call (c : GatewayCall) (w : World) : World :=
  {| coupons := coupons w; orders := orders w; sessions := sessions w;
     calls := calls w ++ [c]; created := created w; now := now w;
     random := random w; drawn := drawn w |}.

Definition set_created (n : nat) (w : World) : World :=
  {| coupons := coupons w; orders := orders w; sessions := sessions w;
     calls := calls w; created := n; now := now w;
     random := random w; drawn := drawn w |}.

Definition set_drawn (n : nat) (w : World) : World :=
  {| coupons := coupons w; orders := orders w; sessions := sessions w;
     calls := calls w; created := created w; now := now w;
     random := random w; drawn := n |}.

(** The driver gives every new document an id of its own. *)
Definition new_ObjectId : M ObjectId :=
  fun w => (inr (ObjectId_of_nat (created w)), set_created (S (created w)) w).

Definition Date_now : M Z := fun w => (inr (now w), w).

Definition Math_random : M number :=
  fun w => (inr (random w (drawn w)), set_drawn (S (drawn w)) w).

(** ** The Coupon and Order collections

    Modelled from the spec: the models and the document store are not among
    the sources.  A collection is the list of its documents in insertion
    order; [findOne], [findOneAndUpdate] and [findOneAndDelete] act on the
    first document that matches the filter, and [save] inserts. *)

Record Filter : Type := {
  by_code : option value;
  by_userId : option value;
  by_isActive : option bool
}.

Definition same_string (v : value) (s : string) : bool :=
  match v with
  | VStr s' => String.eqb s' s
  | _ => false
  end.

Definition matches (f : Filter) (c : Coupon) : bool :=
  match by_code f with Some v => same_string v (code c) | None => true end
  && match by_userId f with Some v => same_string v (userId c) | None => true end
  && match by_isActive f with Some b => Bool.eqb b (isActive c) | None => true end.

Definition set_isActive (b : bool) (c : Coupon) : Coupon :=
  {| coupon_id := coupon_id c; code := code c;
     discountPercentage := discountPercentage c;
     expirationDate := expirationDate c; isActive := b; userId := userId c |}.

Fixpoint update_first (f : Filter) (b : bool) (cs : list Coupon) : list Coupon :=
  match cs with
  | [] => []
  | c :: rest =>
      if matches f c then set_isActive b c :: rest
      else c :: update_first f b rest
  end.

Fixpoint delete_first (f : Filter) (cs : list Coupon) : list Coupon :=
  match cs with
  | [] => []
  | c :: rest => if matches f c then rest else c :: delete_first f rest
  end.

Definition Coupon_findOne (f : Filter) : M (option Coupon) :=
  fun w => (inr (find (matches f) (coupons w)), w).

(** [Coupon.findOneAndUpdate(f, { isActive: b })] *)
Definition Coupon_findOneAndUpdate (f : Filter) (b : bool) : M unit :=
  fun w => (inr tt, set_coupons (update_first f b (coupons w)) w).

Definition Coupon_findOneAndDelete (f : Filter) : M unit :=
  fun w => (inr tt, set_coupons (delete_first f (coupons w)) w).

Definition Coupon_save (c : Coupon) : M unit :=
  fun w => (inr tt, set_coupons (coupons w ++ [c]) w).

Definition Order_save (o : Order) : M unit :=
  fun w => (inr tt, set_orders (orders w ++ [o]) w).

(** ** The payment gateway *)

Definition stripe_coupons_create `{PaymentGateway}
    (percent_off : number) (duration : string) : M string :=
  fun w =>
    (coupons_create (calls w) percent_off duration,
     log_call (CouponsCreate percent_off duration) w).

Definition stripe_sessions_create `{PaymentGateway} (params : SessionParams) : M Session :=
  fun w =>
    match sessions_create (calls w) params with
    | inl e => (inl e, log_call (SessionsCreate params) w)
    | inr s => (inr s, set_sessions (sessions w ++ [s]) (log_call (SessionsCreate params) w))
    end.

(** [stripe.checkout.sessions.retrieve(id)]: the session of that id, or an
    error when the gateway has none. *)
Definition stripe_sessions_retrieve (id : value) : M Session :=
  fun w =>
    (match id with
     | VStr s =>
         match find (fun x => String.eqb (session_id x) s) (sessions w) with
         | Some x => inr x
         | None => inl (StripeError "No such checkout.session")
         end
     | _ => inl (StripeError "Invalid checkout.session id")
     end,
     log_call (SessionsRetrieve id) w).

(** ** The controller *)

Record Request : Type := {
  (** [req.body], the JSON object the body parser leaves. *)
  body : list (string * value);
  (** [req.user._id], set by the route's authentication middleware. *)
  user_id : ObjectId
}.

(** [res.status(status).json(json)] *)
Record Response : Type := {
  status : Z;
  json : value
}.

(** A handler run: the response sent, if any, and the world it leaves. *)
Definition Handler : Type := World -> option Response * World.

(** [try { body } catch (error) { handler }] around a whole handler. *)
Definition try_catch (body : M (option Response)) (handler : exn -> Response) : Handler :=
  fun w =>
    match body w with
    | (inr r, w') => (r, w')
    | (inl e, w') => (Some (handler e), w')
    end.

Section Controller.

Context `{Runtime} `{PaymentGateway}.

(** The callback of the first [products.map] of [createCheckoutSession]. *)
Definition lineItem (product : value) : result LineItem :=
  let? price := get product "price" in
  let? price_number := ToNumber price in
  let amount := Number.round (Number.mul price_number num_100) in
  let? product_name := get product "name" in
  let? product_image := get product "image" in
  let? product_quantity := get product "quantity" in
  inr {| currency := "inr";
         name := product_name;
         images := [product_image];
         unit_amount := amount;
         quantity := or_else product_quantity (VNum num_1) |}.

(** The callback of the second [products.map], which builds the snapshot
    kept in the session metadata. *)
Definition snapshot (p : value) : result value :=
  let? p_id := get p "_id" in
  let? p_quantity := get p "quantity" in
  let? p_price := get p "price" in
  inr (VObj [("id", p_id); ("quantity", p_quantity); ("price", p_price)]).

(** [totalAmount -= Math.round((totalAmount * coupon.discountPercentage) / 100)] *)
Definition discount (totalAmount : number) (coupon : Coupon) : number :=
  Number.sub totalAmount
    (Number.round
       (Number.div (Number.mul totalAmount (discountPercentage coupon)) num_100)).

Definition createStripeCoupon (discountPercentage : number) : M string :=
  stripe_coupons_create discountPercentage "once".

Definition createNewCoupon (userId : ObjectId) : M Coupon :=
  let* _ := Coupon_findOneAndDelete
              {| by_code := None; by_userId := Some (VStr userId);
                 by_isActive := None |} in
  let* r := Math_random in
  let* t := Date_now in
  let* id := new_ObjectId in
  let newCoupon :=
    {| coupon_id := id;
       code := "GIFT" ++ toUpperCase (substring 2 8 (toString36 r));
       discountPercentage := num_10;
       expirationDate := t + 30 * 24 * 60 * 60 * 1000;
       isActive := true;
       userId := userId |} in
  let* _ := Coupon_save newCoupon in
  ret newCoupon.

(** Lines 45 to 57: the coupon looked up and the total after the
    discount step, from the running total [totalAmount]. *)
Definition apply_coupon (req : Request) (couponCode : value) (totalAmount : number)
    : M (option Coupon * number) :=
  if ToBoolean couponCode then
    let* coupon := Coupon_findOne
                     {| by_code := Some couponCode;
                        by_userId := Some (VStr (user_id req));
                        by_isActive := Some true |} in
    match coupon with
    | Some c => ret (Some c, discount totalAmount c)
    | None => ret (None, totalAmount)
    end
  else ret (None, totalAmount).

(** Lines 85 to 87: the reward check. *)
Definition reward (req : Request) (totalAmount : number) : M unit :=
  if Number.ge totalAmount num_20000 then
    let* _ := createNewCoupon (user_id req) in ret tt
  else ret tt.

Definition createCheckoutSession (req : Request) : Handler :=
  try_catch
    (let products := field (body req) "products" in
     let couponCode := field (body req) "couponCode" in
     match products with
     | VArr ((_ :: _) as items) =>
         let totalAmount := zero in
         let* lineItems := lift (map_result lineItem items) in
         let* (coupon, totalAmount) := apply_coupon req couponCode totalAmount in
         let* discounts :=
           match coupon with
           | Some c =>
               let* id := createStripeCoupon (discountPercentage c) in ret [id]
           | None => ret []
           end in
         let* entries := lift (map_result snapshot items) in
         let* session :=
           stripe_sessions_create
             {| payment_method_types := ["card"];
                line_items := lineItems;
                mode := "payment";
                success_url :=
                  CLIENT_URL ++ "/purchase-success?session_id={CHECKOUT_SESSION_ID}";
                cancel_url := CLIENT_URL ++ "/purchase-cancel";
                discounts := discounts;
                metadata :=
                  {| meta_userId := user_id req;
                     meta_couponCode := or_else couponCode (VStr "");
                     meta_products := JSON_stringify (VArr entries) |} |} in
         let* _ := reward req totalAmount in
         ret (Some {| status := 200;
                      json := VObj [("id", VStr (session_id session));
                                    ("totalAmount",
                                     VNum (Number.div totalAmount num_100))] |})
     | _ =>
         ret (Some {| status := 400;
                      json := VObj [("error",
                                     VStr "Invalid or empty products array")] |})
     end)
    (fun error =>
       {| status := 500;
          json := VObj [("message", VStr "Error processing checkout");
                        ("error", VStr (message error))] |}).

(** The callback of [products.map] in [checkoutSuccess]. *)
Definition orderLine (product : value) : result OrderLine :=
  let? id := get product "id" in
  let? product_quantity := get product "quantity" in
  let? product_price := get product "price" in
  inr {| product := id;
         line_quantity := product_quantity;
         line_price := product_price |}.

(** [JSON.parse(v)] applies ToString to its argument first; the metadata
    values it is given are strings or [undefined]. *)
Definition parse (v : value) : result value :=
  match v with
  | VStr s => JSON_parse s
  | _ => JSON_parse "undefined"
  end.

Definition checkoutSuccess (req : Request) : Handler :=
  try_catch
    (let sessionId := field (body req) "sessionId" in
     let* session := stripe_sessions_retrieve sessionId in
     if String.eqb (payment_status session) "paid" then
       let* _ :=
         if ToBoolean (meta session "couponCode") then
           Coupon_findOneAndUpdate
             {| by_code := Some (meta session "couponCode");
                by_userId := Some (meta session "userId");
                by_isActive := None |}
             false
         else ret tt in
       let* parsed := lift (parse (meta session "products")) in
       let* lines :=
         match parsed with
         | VArr items => lift (map_result orderLine items)
         | _ => throw (TypeError "products.map is not a function")
         end in
       let* total := lift (ToNumber (amount_total session)) in
       let* id := new_ObjectId in
       let newOrder :=
         {| order_id := id;
            user := meta session "userId";
            products := lines;
            totalAmount := Number.div total num_100;
            stripeSessionId := sessionId |} in
       let* _ := Order_save newOrder in
       ret (Some {| status := 200;
                    json := VObj [("success", VBool true);
                                  ("message",
                                   VStr "Payment successful, order created, and coupon deactivated if used.");
                                  ("orderId", VStr (order_id newOrder))] |})
     else ret None)
    (fun error =>
       {| status := 500;
          json := VObj [("message", VStr "Error processing successful checkout");
                        ("error", VStr (message error))] |}).

End Controller.

(** ** A concrete runtime, gateway and world

    Test doubles on which the handlers can be run: the runtime answers as
    JavaScript does at the values used below, and the gateway accepts every
    request and prices every session at 10000 minor units. *)

Module Demo.

(** 1/4096 *)
Definition tiny : number := S754_finite false 4503599627370496 (-64).

Definition dq : string := String (ascii_of_nat 34) EmptyString.

(** The text [[{"id":"p1","quantity":2,"price":50}]]. *)
Definition snapshot_text : string :=
  "[{" ++ dq ++ "id" ++ dq ++ ":" ++ dq ++ "p1" ++ dq ++ ","
       ++ dq ++ "quantity" ++ dq ++ ":2,"
       ++ dq ++ "price" ++ dq ++ ":50}]".

Definition snapshot_value : value :=
  VArr [VObj [("id", VStr "p1");
              ("quantity", VNum (Number.of_Z 2));
              ("price", VNum (Number.of_Z 50))]].

(** The text [[{"quantity":2,"price":50}]], in which [JSON.stringify] has
    left out an id that is [undefined]. *)
Definition unlabelled_text : string :=
  "[{" ++ dq ++ "quantity" ++ dq ++ ":2,"
       ++ dq ++ "price" ++ dq ++ ":50}]".

Definition unlabelled_value : value :=
  VArr [VObj [("quantity", VNum (Number.of_Z 2));
              ("price", VNum (Number.of_Z 50))]].

(** [(0.5).toString(36)] is [0.i] and [(1/4096).toString(36)] is
    [0.00be29]; [JSON.stringify] is given on the snapshots of the two
    carts below, which differ by the id, and [JSON.parse] on their
    texts. *)
#[export] Instance runtime : Runtime := {|
  StringToNumber := fun _ => NaN;
  ToPrimitive := fun _ => inr (VStr "[object Object]");
  toString36 := fun n => if SFeqb n one_half then "0.i" else "0.00be29";
  JSON_stringify := fun v =>
    match v with
    | VArr [VObj [("id", VUndef); _; _]] => unlabelled_text
    | _ => snapshot_text
    end;
  JSON_parse := fun s =>
    if String.eqb s snapshot_text then inr snapshot_value
    else if String.eqb s unlabelled_text then inr unlabelled_value
    else inl (SyntaxError "Unexpected token");
  CLIENT_URL := "http://localhost:5173"
|}.

Definition stored (m : Metadata) : list (string * string) :=
  ("userId", meta_userId m)
    :: match meta_couponCode m with
       | VStr (String c s) => [("couponCode", String c s)]
       | _ => []
       end
    ++ [("products", meta_products m)].

#[export] Instance gateway : PaymentGateway := {|
  coupons_create := fun _ _ _ => inr "co_1";
  sessions_create := fun seen params =>
    inr {| session_id := "cs_" ++ ObjectId_of_nat (List.length seen);
           payment_status := "unpaid";
           amount_total := VNum (Number.of_Z 10000);
           session_metadata := stored (metadata params) |}
|}.

(** A cart of one item, [{ _id: "p1", name: "Mug", image: "mug.png",
    price: 50, quantity: 2 }]. *)
Definition item : value :=
  VObj [("_id", VStr "p1"); ("name", VStr "Mug"); ("image", VStr "mug.png");
        ("price", VNum (Number.of_Z 50)); ("quantity", VNum (Number.of_Z 2))].

Definition gift : Coupon :=
  {| coupon_id := "c1"; code := "GIFTABC123"; discountPercentage := num_10;
     expirationDate := 1735689600000; isActive := true; userId := "u1" |}.

Definition world : World :=
  {| coupons := [gift]; orders := []; sessions := []; calls := [];
     created := 0; now := 1733000000000; random := fun _ => tiny;
     drawn := 0 |}.

Definition checkout (products : value) (couponCode : value) : Request :=
  {| body := [("products", products); ("couponCode", couponCode)];
     user_id := "u1" |}.

Definition success (sessionId : string) : Request :=
  {| body := [("sessionId", VStr sessionId)]; user_id := "u1" |}.

(** The gateway reports the payment of a session. *)
Definition pay (s : Session) : Session :=
  {| session_id := session_id s; payment_status := "paid";
     amount_total := amount_total s; session_metadata := session_metadata s |}.

Definition paid (w : World) : World := set_sessions (map pay (sessions w)) w.

(** A checkout of the cart with the coupon of the user, the world after
    it, and that world once the gateway has reported the payment. *)
Definition cart : Request := checkout (VArr [item]) (VStr "GIFTABC123").

Definition after_checkout : World := snd (createCheckoutSession cart world).

Definition paid_world : World := paid after_checkout.

Definition open_session : Session :=
  {| session_id := "cs_1";
     payment_status := "unpaid";
     amount_total := VNum (Number.of_Z 10000);
     session_metadata :=
       [("userId", "u1"); ("couponCode", "GIFTABC123");
        ("products", snapshot_text)] |}.

(** A cart whose only item has the quantity 0. *)
Definition free_item : list (string * value) :=
  [("_id", VStr "p2"); ("name", VStr "Pen"); ("image", VStr "pen.png");
   ("price", VNum (Number.of_Z 50)); ("quantity", VNum zero)].

Definition free_cart : Request := checkout (VArr [VObj free_item]) VUndef.

Definition success_request : Request := success "cs_1".

Definition paid_session : Session := pay open_session.

(** The entries [JSON.parse] reads from the snapshot text. *)
Definition entries : list value :=
  [VObj [("id", VStr "p1");
         ("quantity", VNum (Number.of_Z 2));
         ("price", VNum (Number.of_Z 50))]].

(** The line item built for [item]. *)
Definition descriptor : LineItem :=
  {| currency := "inr";
     name := VStr "Mug";
     images := [VStr "mug.png"];
     unit_amount := Number.of_Z 5000;
     quantity := VNum (Number.of_Z 2) |}.

(** A request without products. *)
Definition empty_cart : Request := checkout (VArr []) VUndef.

(** The same item sent with [id] in place of [_id], its checkout, and the
    world after it once paid. *)
Definition unlabelled_item : value :=
  VObj [("id", VStr "p1"); ("name", VStr "Mug"); ("image", VStr "mug.png");
        ("price", VNum (Number.of_Z 50)); ("quantity", VNum (Number.of_Z 2))].

Definition unlabelled_cart : Request := checkout (VArr [unlabelled_item]) VUndef.

Definition unlabelled_paid_world : World :=
  paid (snd (createCheckoutSession unlabelled_cart world)).

(** 19.99 and 1.005, that is the Numbers closest to them. *)
Definition price_19_99 : number := S754_finite false 5626684784446013 (-48).
Definition price_1_005 : number := S754_finite false 4526117625507348 (-52).

(** A world in which the next [Math.random()] is 0.5. *)
Definition half_world : World :=
  {| coupons := [gift]; orders := []; sessions := []; calls := [];
     created := 0; now := 1733000000000; random := fun _ => one_half;
     drawn := 0 |}.

End Demo.

(** ** Further requests and worlds *)

Module Cases.

#[local] Existing Instance Demo.runtime.
#[local] Existing Instance Demo.gateway.

(** A cart whose second entry is [null]. *)
Definition broken_cart : Request :=
  Demo.checkout (VArr [Demo.item; VNull]) VUndef.

(** A reconciliation request for a session id the gateway does not hold. *)
Definition unknown_request : Request := Demo.success "cs_404".

(** A paid session whose metadata holds no JSON text under [products],
    and a world that holds it. *)
Definition damaged_session : Session :=
  {| session_id := "cs_9";
     payment_status := "paid";
     amount_total := VNum (Number.of_Z 10000);
     session_metadata :=
       [("userId", "u1"); ("couponCode", "GIFTABC123"); ("products", "oops")] |}.

Definition damaged_world : World :=
  {| coupons := [Demo.gift]; orders := []; sessions := [damaged_session];
     calls := []; created := 0; now := 1733000000000;
     random := fun _ => Demo.tiny; drawn := 0 |}.

Definition damaged_request : Request := Demo.success "cs_9".

(** A checkout of the cart with the code of the coupon minted for [u1] in
    the concrete world. *)
Definition minted_cart : Request :=
  Demo.checkout (VArr [Demo.item]) (VStr "GIFT00BE29").

End Cases.

(** * The stores of the client

    The cart store and the user store of the client are zustand stores: a
    state object and the actions that read it with [get] and merge a
    partial state into it with [set].  The actions call the backend through
    [axios] and report through [toast].  As for the controller, one action
    runs at a time. *)

Module Browser.

(** [x + y] on Numbers. *)
Definition add : number -> number -> number := SFadd Number.prec Number.emax.

(** A request made through [axios]. *)
Record ApiCall : Type := {
  method : string;
  url : string;
  payload : value
}.

Inductive Toast : Type :=
| ToastSuccess (text : value)
| ToastError (text : value).

(** What the model takes from the browser: what the backend answers to a
    request, given the requests made before (a rejection with an error
    value, or the response object); whether two objects or arrays are the
    same object; ToString, as a template literal applies it; and the id
    [toast] returns. *)
Class Browser : Type := {
  answer : list ApiCall -> ApiCall -> value + value;
  same_reference : value -> value -> bool;
  ToString : value -> result string;
  toast_id : nat -> value
}.

(** The page: the state of a store, the toasts shown and the requests
    sent so far. *)
Record Page (S : Type) : Type := {
  store : S;
  toasts : list Toast;
  sent : list ApiCall
}.

Arguments store {S} _.
Arguments toasts {S} _.
Arguments sent {S} _.

(** An action on a store of state [S]: it returns a value or throws one. *)
Definition Act (S A : Type) : Type := Page S -> (value + A) * Page S.

Definition done {S A : Type} (a : A) : Act S A := fun pg => (inr a, pg).

Definition raise {S A : Type} (v : value) : Act S A := fun pg => (inl v, pg).

Definition and_then {S A B : Type} (c : Act S A) (k : A -> Act S B) : Act S B :=
  fun pg =>
    match c pg with
    | (inl v, pg') => (inl v, pg')
    | (inr a, pg') => k a pg'
    end.

(** [try { body } catch (error) { handler }] *)
Definition attempt {S A : Type} (body : Act S A) (handler : value -> Act S A)
    : Act S A :=
  fun pg =>
    match body pg with
    | (inl v, pg') => handler v pg'
    | (inr a, pg') => (inr a, pg')
    end.

(** The Error object of an exception of the runtime: it has a [message]
    and no [response]. *)
Definition thrown (e : exn) : value := VObj [("message", VStr (message e))].

Definition of_result {S A : Type} (r : result A) : Act S A :=
  match r with
  | inl e => raise (thrown e)
  | inr a => done a
  end.

Notation "'let!' x ':=' c 'in' k" := (and_then c (fun x => k))
  (at level 61, x pattern, c at next level, right associativity).

(** [get()] and [set(partial)]; [update] gives the state with the partial
    state merged into it. *)
Definition get_state {S : Type} : Act S S := fun pg => (inr (store pg), pg).

Definition set_state {S : Type} (update : S -> S) : Act S unit :=
  fun pg =>
    (inr tt,
     {| store := update (store pg); toasts := toasts pg; sent := sent pg |}).

Definition toast `{Browser} {S : Type} (t : Toast) : Act S value :=
  fun pg =>
    (inr (toast_id (List.length (toasts pg))),
     {| store := store pg; toasts := toasts pg ++ [t]; sent := sent pg |}).

(** [await axios.method(url, payload)]: the response, or the rejection. *)
Definition request `{Browser} {S : Type} (c : ApiCall) : Act S value :=
  fun pg =>
    (answer (sent pg) c,
     {| store := store pg; toasts := toasts pg; sent := sent pg ++ [c] |}).

(** [a === b] *)
Definition strict_equal `{Browser} (a b : value) : bool :=
  match a, b with
  | VUndef, VUndef => true
  | VNull, VNull => true
  | VBool x, VBool y => Bool.eqb x y
  | VNum x, VNum y => SFeqb x y
  | VStr x, VStr y => String.eqb x y
  | VArr _, VArr _ | VObj _, VObj _ => same_reference a b
  | _, _ => false
  end.

(** The key of the index [n] of an array or of a string. *)
Definition index_key (n : nat) : string :=
  NilEmpty.string_of_uint (Nat.to_uint n).

Fixpoint indexed {A : Type} (f : A -> value) (n : nat) (l : list A)
    : list (string * value) :=
  match l with
  | [] => []
  | a :: rest => (index_key n, f a) :: indexed f (S n) rest
  end.

Fixpoint characters (s : string) : list ascii :=
  match s with
  | EmptyString => []
  | String c rest => c :: characters rest
  end.

(** The own enumerable properties [{ ...v }] copies. *)
Definition own_props (v : value) : list (string * value) :=
  match v with
  | VObj props => props
  | VArr items => indexed (fun x => x) 0 items
  | VStr s => indexed (fun c => VStr (String c EmptyString)) 0 (characters s)
  | VUndef | VNull | VBool _ | VNum _ => []
  end.

(** [{ ...props, k: v }]: the property keeps its place when [props] has
    it, and is added at the end otherwise. *)
Fixpoint set_prop (k : string) (v : value) (props : list (string * value))
    : list (string * value) :=
  match props with
  | [] => [(k, v)]
  | (k', v') :: rest =>
      if String.eqb k k' then (k', v) :: rest else (k', v') :: set_prop k v rest
  end.

(** [q + 1]: a concatenation when [q], made primitive, is a string, an
    addition of Numbers otherwise. *)
Definition add_one `{Runtime} (q : value) : result value :=
  let? p := match q with
            | VArr _ | VObj _ => ToPrimitive q
            | _ => inr q
            end in
  match p with
  | VStr s => inr (VStr (s ++ "1"))
  | _ => inr (VNum (add (PrimitiveToNumber p) num_1))
  end.

(** [array.find(f)], [array.filter(f)] and [array.reduce(f, a)] for an [f]
    that can throw. *)
Fixpoint find_result {A : Type} (f : A -> result bool) (l : list A)
    : result (option A) :=
  match l with
  | [] => inr None
  | a :: rest =>
      let? b := f a in
      if b then inr (Some a) else find_result f rest
  end.

Fixpoint filter_result {A : Type} (f : A -> result bool) (l : list A)
    : result (list A) :=
  match l with
  | [] => inr []
  | a :: rest =>
      let? b := f a in
      let? kept := filter_result f rest in
      inr (if b then a :: kept else kept)
  end.

Fixpoint reduce_result {A B : Type} (f : B -> A -> result B) (l : list A) (b : B)
    : result B :=
  match l with
  | [] => inr b
  | a :: rest =>
      let? b' := f b a in
      reduce_result f rest b'
  end.

(** The elements of [v] when a method of arrays is called on it, and the
    TypeError otherwise. *)
Definition as_array (v : value) (method : string) : result (list value) :=
  match v with
  | VArr items => inr items
  | VUndef => inl (TypeError "Cannot read properties of undefined")
  | VNull => inl (TypeError "Cannot read properties of null")
  | _ => inl (TypeError (method ++ " is not a function"))
  end.

End Browser.

(** ** The cart store

    [useCartStore] of the client: the cart, the coupon, the totals and two
    flags.  [get] reads the properties [_id], [price], [quantity], [data],
    [coupon] and [discountPercentage] here, names no prototype of a
    primitive value or of an array has. *)

Module CartStore.

Import Browser.

Record State : Type := {
  cart : value;
  coupon : value;
  total : number;
  subtotal : number;
  isCouponApplied : bool;
  loading : bool
}.

(** The state the store is created with. *)
Definition initial : State :=
  {| cart := VArr []; coupon := VNull; total := zero; subtotal := zero;
     isCouponApplied := false; loading := false |}.

(** The partial states [set] merges. *)
Definition with_cart (c : value) (s : State) : State :=
  {| cart := c; coupon := coupon s; total := total s; subtotal := subtotal s;
     isCouponApplied := isCouponApplied s; loading := loading s |}.

Definition with_coupon (c : value) (s : State) : State :=
  {| cart := cart s; coupon := c; total := total s; subtotal := subtotal s;
     isCouponApplied := isCouponApplied s; loading := loading s |}.

Definition with_totals (sub tot : number) (s : State) : State :=
  {| cart := cart s; coupon := coupon s; total := tot; subtotal := sub;
     isCouponApplied := isCouponApplied s; loading := loading s |}.

Definition with_isCouponApplied (b : bool) (s : State) : State :=
  {| cart := cart s; coupon := coupon s; total := total s;
     subtotal := subtotal s; isCouponApplied := b; loading := loading s |}.

Definition with_loading (b : bool) (s : State) : State :=
  {| cart := cart s; coupon := coupon s; total := total s;
     subtotal := subtotal s; isCouponApplied := isCouponApplied s;
     loading := b |}.

(** The actions of the store, for statements about any one of them and
    about sequences of them. *)
Inductive Action : Type :=
| GetMyCoupon
| ApplyCoupon (code : value)
| RemoveCoupon
| GetCartItems
| ClearCart
| AddToCart (product : value)
| RemoveFromCart (productId : value)
| UpdateQuantity (productId quantity : value)
| CalculateTotals.

Section Actions.

Context `{Runtime} `{Browser}.

(** [total + item.price * item.quantity] *)
Definition line_total (total : number) (item : value) : result number :=
  let? price := get item "price" in
  let? quantity := get item "quantity" in
  let? p := ToNumber price in
  let? q := ToNumber quantity in
  inr (add total (mul p q)).

(** The subtotal and the total [calculateTotals] computes for a cart and a
    coupon. *)
Definition totals_of (cart coupon : value) : result (number * number) :=
  let? items := as_array cart "cart.reduce" in
  let? subtotal := reduce_result line_total items zero in
  if ToBoolean coupon then
    let? percentage := get coupon "discountPercentage" in
    let? d := ToNumber percentage in
    inr (subtotal, Number.sub subtotal (mul subtotal (div d num_100)))
  else inr (subtotal, subtotal).

Definition calculateTotals : Act State unit :=
  let! s := get_state in
  let! (subtotal, total) := of_result (totals_of (cart s) (coupon s)) in
  set_state (with_totals subtotal total).

Definition getMyCoupon : Act State unit :=
  let! _ := set_state (with_loading true) in
  attempt
    (let! response := request {| method := "GET"; url := "/coupon";
                                 payload := VUndef |} in
     let! data := of_result (get response "data") in
     set_state (fun s => with_loading false (with_coupon data s)))
    (fun _ =>
       let! _ := toast (ToastError (VStr "Error while loading coupon")) in
       set_state (with_loading false)).

Definition applyCoupon (code : value) : Act State unit :=
  let! _ := set_state (with_loading true) in
  attempt
    (let! response := request {| method := "POST"; url := "/coupon/validate";
                                 payload := VObj [("code", code)] |} in
     let! data := of_result (get response "data") in
     let! c := of_result (get data "coupon") in
     let! _ := set_state (fun s =>
                 with_isCouponApplied true (with_loading false (with_coupon c s))) in
     let! _ := calculateTotals in
     let! _ := toast (ToastSuccess (VStr "Coupon applied successfully")) in
     done tt)
    (fun _ =>
       let! _ := toast (ToastError (VStr "Error while applying coupon")) in
       set_state (with_loading false)).

Definition removeCoupon : Act State unit :=
  let! _ := set_state (fun s => with_isCouponApplied false (with_coupon VNull s)) in
  let! _ := calculateTotals in
  let! _ := toast (ToastSuccess (VStr "Coupon removed")) in
  done tt.

Definition getCartItems : Act State unit :=
  let! _ := set_state (with_loading true) in
  attempt
    (let! response := request {| method := "GET"; url := "/cart";
                                 payload := VUndef |} in
     let! data := of_result (get response "data") in
     let! _ := set_state (fun s => with_loading false (with_cart data s)) in
     calculateTotals)
    (fun _ =>
       let! _ := toast (ToastError (VStr "Error while loading cart")) in
       set_state (fun s => with_cart (VArr []) (with_loading false s))).

Definition clearCart : Act State unit :=
  set_state (fun s =>
    with_totals zero zero (with_coupon VNull (with_cart (VArr []) s))).

(** [item._id === product._id] *)
Definition same_product (product item : value) : result bool :=
  let? a := get item "_id" in
  let? b := get product "_id" in
  inr (strict_equal a b).

(** [{ ...item, quantity: item.quantity + 1 }] for the items of the
    product, the item itself for the others. *)
Definition one_more (product item : value) : result value :=
  let? same := same_product product item in
  if same then
    let? q := get item "quantity" in
    let? q' := add_one q in
    inr (VObj (set_prop "quantity" q' (own_props item)))
  else inr item.

(** The cart the updater of [addToCart] returns. *)
Definition added (product cart : value) : result value :=
  let? items := as_array cart "prevState.cart.find" in
  let? existingItem := find_result (same_product product) items in
  if ToBoolean (match existingItem with Some item => item | None => VUndef end)
  then
    let? items' := map_result (one_more product) items in
    inr (VArr items')
  else
    inr (VArr (items ++ [VObj (set_prop "quantity" (VNum num_1)
                                         (own_props product))])).

Definition addToCart (product : value) : Act State unit :=
  let! _ := set_state (with_loading true) in
  attempt
    (let! productId := of_result (get product "_id") in
     let! _ := request {| method := "POST"; url := "/cart";
                          payload := VObj [("productId", productId)] |} in
     let! _ := toast (ToastSuccess (VStr "Product added to cart")) in
     let! s := get_state in
     let! newCart := of_result (added product (cart s)) in
     let! _ := set_state (with_cart newCart) in
     calculateTotals)
    (fun _ =>
       let! _ := toast (ToastError (VStr "Error while adding product to cart")) in
       set_state (with_loading false)).

(** [item._id !== productId] *)
Definition other_product (productId item : value) : result bool :=
  let? a := get item "_id" in
  inr (negb (strict_equal a productId)).

(** The cart the updater of [removeFromCart] returns. *)
Definition removed (productId cart : value) : result value :=
  let? items := as_array cart "prevState.cart.filter" in
  let? kept := filter_result (other_product productId) items in
  inr (VArr kept).

Definition removeFromCart (productId : value) : Act State unit :=
  let! _ := set_state (with_loading true) in
  attempt
    (let! id := of_result (ToString productId) in
     let! _ := request {| method := "DELETE"; url := "/cart/" ++ id;
                          payload := VUndef |} in
     let! _ := toast (ToastSuccess (VStr "Product removed from cart")) in
     let! s := get_state in
     let! newCart := of_result (removed productId (cart s)) in
     let! _ := set_state (with_cart newCart) in
     calculateTotals)
    (fun _ =>
       let! _ := toast (ToastError (VStr "Error while removing product from cart")) in
       set_state (with_loading false)).

(** [{ ...item, quantity }] for the items of the product, the item itself
    for the others. *)
Definition requantified (productId quantity item : value) : result value :=
  let? a := get item "_id" in
  if strict_equal a productId then
    inr (VObj (set_prop "quantity" quantity (own_props item)))
  else inr item.

(** The cart the updater of [updateQuantity] returns. *)
Definition updated (productId quantity cart : value) : result value :=
  let? items := as_array cart "prevState.cart.map" in
  let? items' := map_result (requantified productId quantity) items in
  inr (VArr items').

Definition updateQuantity (productId quantity : value) : Act State unit :=
  if strict_equal quantity (VNum zero) then removeFromCart productId
  else
    let! _ := set_state (with_loading true) in
    attempt
      (let! id := of_result (ToString productId) in
       let! _ := request {| method := "PUT"; url := "/cart/" ++ id;
                            payload := VObj [("quantity", quantity)] |} in
       let! _ := toast (ToastSuccess (VStr "Product quantity updated")) in
       let! s := get_state in
       let! newCart := of_result (updated productId quantity (cart s)) in
       let! _ := set_state (with_cart newCart) in
       calculateTotals)
      (fun _ =>
         let! _ := toast (ToastError (VStr "Error while updating product quantity")) in
         set_state (with_loading false)).

Definition run (a : Action) : Act State unit :=
  match a with
  | GetMyCoupon => getMyCoupon
  | ApplyCoupon code => applyCoupon code
  | RemoveCoupon => removeCoupon
  | GetCartItems => getCartItems
  | ClearCart => clearCart
  | AddToCart product => addToCart product
  | RemoveFromCart productId => removeFromCart productId
  | UpdateQuantity productId quantity => updateQuantity productId quantity
  | CalculateTotals => calculateTotals
  end.

(** The page after the actions, one after the other; an action that throws
    leaves the page as it was when it threw. *)
Fixpoint run_all (actions : list Action) (pg : Page State) : Page State :=
  match actions with
  | [] => pg
  | a :: rest => run_all rest (snd (run a pg))
  end.

End Actions.

End CartStore.

(** ** The user store

    [useUserStore] of the client.  [get] reads the properties [name],
    [email], [password], [confirmPassword], [data], [user], [response] and
    [message] here.  The response interceptor installed beside the store is
    not part of the model: [answer] gives what a call settles with once the
    interceptors have run, and the [logout] the interceptor starts is one
    more action of the store. *)

Module UserStore.

Import Browser.

Record State : Type := {
  user : value;
  loading : bool;
  checkingAuth : bool
}.

(** The state the store is created with. *)
Definition initial : State :=
  {| user := VNull; loading := false; checkingAuth := true |}.

Definition with_user (u : value) (s : State) : State :=
  {| user := u; loading := loading s; checkingAuth := checkingAuth s |}.

Definition with_loading (b : bool) (s : State) : State :=
  {| user := user s; loading := b; checkingAuth := checkingAuth s |}.

Definition with_checkingAuth (b : bool) (s : State) : State :=
  {| user := user s; loading := loading s; checkingAuth := b |}.

Inductive Action : Type :=
| Signup (form : value)
| Login (form : value)
| Logout
| CheckAuth.

Section Actions.

Context `{Browser}.

(** The handler of [signup] and of [login]: it reads
    [error.response.data] twice, for the toast and for the value
    returned. *)
Definition report (error : value) : Act State value :=
  let! _ := set_state (with_loading false) in
  let! response := of_result (get error "response") in
  let! data := of_result (get response "data") in
  let! message := of_result (get data "message") in
  let! _ := toast (ToastError (or_else message (VStr "An error occurred"))) in
  let! response' := of_result (get error "response") in
  of_result (get response' "data").

Definition signup (form : value) : Act State value :=
  let! name := of_result (get form "name") in
  let! email := of_result (get form "email") in
  let! password := of_result (get form "password") in
  let! confirmPassword := of_result (get form "confirmPassword") in
  let! _ := set_state (with_loading true) in
  if negb (strict_equal password confirmPassword) then
    let! _ := set_state (with_loading false) in
    toast (ToastError (VStr "Passwords do not match"))
  else
    attempt
      (let! _ := set_state (with_loading true) in
       let! response :=
         request {| method := "POST"; url := "/auth/signup";
                    payload := VObj [("name", name); ("email", email);
                                     ("password", password);
                                     ("confirmPassword", confirmPassword)] |} in
       let! data := of_result (get response "data") in
       let! u := of_result (get data "user") in
       let! _ := set_state (fun s => with_loading false (with_user u s)) in
       done data)
      report.

Definition login (form : value) : Act State value :=
  let! email := of_result (get form "email") in
  let! password := of_result (get form "password") in
  let! _ := set_state (with_loading true) in
  attempt
    (let! response :=
       request {| method := "POST"; url := "/auth/login";
                  payload := VObj [("email", email);
                                   ("password", password)] |} in
     let! data := of_result (get response "data") in
     let! u := of_result (get data "user") in
     let! _ := set_state (fun s => with_loading false (with_user u s)) in
     done data)
    report.

(** [v?.k] *)
Definition get_optional (v : value) (k : string) : result value :=
  match v with
  | VUndef | VNull => inr VUndef
  | _ => get v k
  end.

Definition logout : Act State value :=
  attempt
    (let! _ := request {| method := "POST"; url := "/auth/logout";
                          payload := VUndef |} in
     let! _ := set_state (with_user VNull) in
     done VUndef)
    (fun error =>
       let! response := of_result (get error "response") in
       let! data := of_result (get_optional response "data") in
       let! message := of_result (get_optional data "message") in
       let! _ := toast (ToastError
                   (or_else message (VStr "An error occurred during logout"))) in
       done VUndef).

Definition checkAuth : Act State value :=
  let! s := get_state in
  if checkingAuth s then done VUndef
  else
    let! _ := set_state (with_checkingAuth true) in
    attempt
      (let! response := request {| method := "POST";
                                   url := "/auth/refresh-token";
                                   payload := VUndef |} in
       let! _ := set_state (with_checkingAuth false) in
       of_result (get response "data"))
      (fun error =>
         let! _ := set_state (fun s =>
                     with_checkingAuth false (with_user VNull s)) in
         raise error).

Definition run (a : Action) : Act State value :=
  match a with
  | Signup form => signup form
  | Login form => login form
  | Logout => logout
  | CheckAuth => checkAuth
  end.

Fixpoint run_all (actions : list Action) (pg : Page State) : Page State :=
  match actions with
  | [] => pg
  | a :: rest => run_all rest (snd (run a pg))
  end.

End Actions.

End UserStore.

(** ** The product store

    [useProductStore] of the client.  [get] reads the properties [data],
    [products], [status], [id], [isFeatured], [response] and [error]
    here.  [deleteProduct] calls [getProducts] without waiting for it:
    [getProducts] runs up to its first [await], and the rest of it runs
    when its request has settled, after [deleteProduct] has returned. *)

Module ProductStore.

Import Browser.

Record State : Type := {
  products : value;
  loading : bool;
  error : value
}.

(** The state the store is created with. *)
Definition initial : State :=
  {| products := VArr []; loading := false; error := VNull |}.

Definition with_products (p : value) (s : State) : State :=
  {| products := p; loading := loading s; error := error s |}.

Definition with_loading (b : bool) (s : State) : State :=
  {| products := products s; loading := b; error := error s |}.

Definition with_error (e : value) (s : State) : State :=
  {| products := products s; loading := loading s; error := e |}.

Definition num_200 : number := Number.of_Z 200.

Section Actions.

Context `{Browser}.

(** [error.response.data.error] *)
Definition reason (error : value) : result value :=
  let? response := get error "response" in
  let? data := get response "data" in
  get data "error".

(** [setProduct] returns an object and sets nothing. *)
Definition setProduct (products : value) : Act State value :=
  done (VObj [("set", products)]).

(** [set({ products: response.data.products, loading: false })] *)
Definition keep (response : value) : Act State unit :=
  let! data := of_result (get response "data") in
  let! loaded := of_result (get data "products") in
  set_state (fun s => with_loading false (with_products loaded s)).

(** The handler of [getProducts], [fetchProductsByCategory] and
    [fetchFeaturedProducts]. *)
Definition fetch_failed (error : value) : Act State unit :=
  let! _ := set_state (fun s =>
              with_loading false
                (with_error (VStr "Failed to fetch products") s)) in
  let! e := of_result (reason error) in
  let! _ := toast (ToastError (or_else e (VStr "Failed to fetch products"))) in
  done tt.

(** The body shared by [getProducts], [fetchProductsByCategory] and
    [fetchFeaturedProducts]: the products of the answer replace those of
    the store. *)
Definition load (path : result string) : Act State unit :=
  let! _ := set_state (with_loading true) in
  attempt
    (let! address := of_result path in
     let! response := request {| method := "GET"; url := address;
                                 payload := VUndef |} in
     keep response)
    fetch_failed.

Definition getProducts : Act State unit := load (inr "/products").

Definition fetchProductsByCategory (cat : value) : Act State unit :=
  load (let? c := ToString cat in inr ("/products/category/" ++ c)).

Definition fetchFeaturedProducts : Act State unit :=
  load (inr "/products/featured").

(** The elements [[...v]] spreads: those of an array, the characters of a
    string, and a TypeError on a value that cannot be iterated. *)
Definition spread (v : value) : result (list value) :=
  match v with
  | VArr items => inr items
  | VStr s => inr (map (fun c => VStr (String c EmptyString)) (characters s))
  | _ => inl (TypeError "prevState.products is not iterable")
  end.

Definition addProduct (product : value) : Act State unit :=
  let! _ := set_state (with_loading true) in
  attempt
    (let! res := request {| method := "POST"; url := "/products";
                            payload := product |} in
     let! s := get_state in
     let! items := of_result (spread (products s)) in
     let! data := of_result (get res "data") in
     set_state (fun s =>
       with_loading false (with_products (VArr (items ++ [data])) s)))
    (fun error =>
       let! e := of_result (reason error) in
       let! _ := toast (ToastError e) in
       set_state (with_loading false)).

(** A call of [getProducts] that is not awaited, in two parts.

    [getProducts_called] is what runs at the call, up to the first
    [await]: the loading flag is set and the request is made.  Its value
    is what the request settles with, a rejection or a response, which
    nothing has waited for yet.

    [getProducts_resumed] is the rest of [getProducts], which runs once
    the request has settled; what it throws reaches no one. *)
Definition getProducts_called : Act State (value + value) :=
  let! _ := set_state (with_loading true) in
  fun pg =>
    let c := {| method := "GET"; url := "/products"; payload := VUndef |} in
    (inr (answer (sent pg) c),
     {| store := store pg; toasts := toasts pg; sent := sent pg ++ [c] |}).

Definition getProducts_resumed (settled : value + value) : Act State unit :=
  attempt
    (let! response := (fun pg => (settled, pg)) in
     keep response)
    fetch_failed.

(** [deleteProduct]: its value is the request of the [getProducts] it has
    called and not awaited, if it has called it; the promise of the source
    resolves with [undefined]. *)
Definition deleteProduct (id : value) : Act State (option (value + value)) :=
  let! _ := set_state (with_loading true) in
  attempt
    (let! path := of_result (ToString id) in
     let! _ := request {| method := "DELETE"; url := "/products/" ++ path;
                          payload := VUndef |} in
     let! pending := getProducts_called in
     done (Some pending))
    (fun error =>
       let! e := of_result (reason error) in
       let! _ := toast (ToastError (or_else e (VStr "Failed to delete product"))) in
       done None).

(** [{ ...product, isFeatured: !product.isFeatured }] for the products of
    the id, the product itself for the others. *)
Definition toggled (id product : value) : result value :=
  let? a := get product "id" in
  if strict_equal a id then
    let? featured := get product "isFeatured" in
    inr (VObj (set_prop "isFeatured" (VBool (negb (ToBoolean featured)))
                        (own_props product)))
  else inr product.

Definition toggleFeaturedProduct (id : value) : Act State unit :=
  attempt
    (let! path := of_result (ToString id) in
     let! response := request {| method := "PATCH"; url := "/products/" ++ path;
                                 payload := VUndef |} in
     let! status := of_result (get response "status") in
     if strict_equal status (VNum num_200) then
       let! s := get_state in
       let! items := of_result (as_array (products s) "state.products.map") in
       let! items' := of_result (map_result (toggled id) items) in
       set_state (with_products (VArr items'))
     else done tt)
    (fun error =>
       let! e := of_result (reason error) in
       let! _ := toast (ToastError (or_else e (VStr "Failed to toggle featured"))) in
       done tt).

End Actions.

End ProductStore.

(** ** A concrete browser

    Test doubles on which the stores can be run: a backend that accepts
    every request and answers with an empty [data], and one that rejects
    every request with the status 500. *)

Module Shop.

Import Browser.

Definition accepted : value :=
  VObj [("data", VObj []); ("status", VNum (Number.of_Z 200))].

Definition rejected : value :=
  VObj [("message", VStr "Request failed with status code 500");
        ("response", VObj [("data", VObj [("message", VStr "Server error")]);
                           ("status", VNum (Number.of_Z 500))])].

Definition text (v : value) : result string :=
  match v with
  | VStr s => inr s
  | VUndef => inr "undefined"
  | VNull => inr "null"
  | VBool b => inr (if b then "true" else "false")
  | VNum _ => inr "NaN"
  | VArr _ | VObj _ => inr "[object Object]"
  end.

#[export] Instance online : Browser := {|
  answer := fun _ _ => inr accepted;
  same_reference := fun _ _ => false;
  ToString := text;
  toast_id := fun n => VStr (index_key (S n))
|}.

#[export] Instance offline : Browser := {|
  answer := fun _ _ => inl rejected;
  same_reference := fun _ _ => false;
  ToString := text;
  toast_id := fun n => VStr (index_key (S n))
|}.

(** A product that is not in the cart below. *)
Definition pen : value :=
  VObj [("_id", VStr "p2"); ("name", VStr "Pen"); ("image", VStr "pen.png");
        ("price", VNum (Number.of_Z 3))].

(** A page whose cart holds the one item of the concrete world. *)
Definition page : Page CartStore.State :=
  {| store := {| CartStore.cart := VArr [Demo.item];
                 CartStore.coupon := VNull;
                 CartStore.total := Number.of_Z 100;
                 CartStore.subtotal := Number.of_Z 100;
                 CartStore.isCouponApplied := false;
                 CartStore.loading := false |};
     toasts := [];
     sent := [] |}.

(** The page on which the user store is created. *)
Definition start : Page UserStore.State :=
  {| store := UserStore.initial; toasts := []; sent := [] |}.

(** A page of the product store with one product that is not featured. *)
Definition plain : value :=
  VObj [("id", VStr "p1"); ("name", VStr "Mug"); ("isFeatured", VBool false)].

Definition shelf : Page ProductStore.State :=
  {| store := {| ProductStore.products := VArr [plain];
                 ProductStore.loading := false;
                 ProductStore.error := VNull |};
     toasts := [];
     sent := [] |}.

(** A form whose two passwords differ. *)
Definition mistyped : value :=
  VObj [("name", VStr "Ann"); ("email", VStr "ann@example.com");
        ("password", VStr "secret"); ("confirmPassword", VStr "secert")].

End Shop.

(** ** Predicates of the statements *)

(** The products field of a request is not an array, or is an empty one. *)
Definition invalid_products (v : value) : Prop :=
  Array_isArray v = false \/ v = VArr [].

(** [w] holds the checkout session [s] under the id [id]. *)
Definition holds_session (w : World) (id : string) (s : Session) : Prop :=
  find (fun x => String.eqb (session_id x) id) (sessions w) = Some s.

(** A value whose properties can be read. *)
Definition readable (v : value) : Prop := v <> VUndef /\ v <> VNull.

(** A cart line item: an object whose price converts to a number. *)
Definition cart_item `{Runtime} (v : value) : Prop :=
  exists props n, v = VObj props /\ ToNumber (field props "price") = inr n.

(** The coupons of the ledger that [u] owns. *)
Definition owned_by (u : ObjectId) (cs : list Coupon) : list Coupon :=
  filter (fun c => String.eqb (userId c) u) cs.

(** The ledger invariant: at most one coupon per user. *)
Definition one_coupon_per_user (cs : list Coupon) : Prop :=
  forall u, (List.length (owned_by u cs) <= 1)%nat.

(** Every coupon of the ledger has a finite discount percentage (the data
    model keeps it between 0 and 100). *)
Definition finite_discounts (cs : list Coupon) : Prop :=
  Forall (fun c => Number.is_finite (discountPercentage c) = true) cs.

(** The filter [{ userId }] of [createNewCoupon]. *)
Definition of_user (u : ObjectId) : Filter :=
  {| by_code := None; by_userId := Some (VStr u); by_isActive := None |}.

(** The filter [{ code, userId }] of [checkoutSuccess]. *)
Definition of_code_and_user (c u : value) : Filter :=
  {| by_code := Some c; by_userId := Some u; by_isActive := None |}.

(** The order line [l] holds the id, quantity and price read from the
    snapshot entry [e]. *)
Definition reads_line (e : value) (l : OrderLine) : Prop :=
  get e "id" = inr (product l)
  /\ get e "quantity" = inr (line_quantity l)
  /\ get e "price" = inr (line_price l).

(** The body of the 200 response of [checkoutSuccess]. *)
Definition order_created (id : ObjectId) : Response :=
  {| status := 200;
     json := VObj [("success", VBool true);
                   ("message",
                    VStr "Payment successful, order created, and coupon deactivated if used.");
                   ("orderId", VStr id)] |}.

(** The coupon step of [checkoutSuccess] on the ledger. *)
Definition deactivated (s : Session) (cs : list Coupon) : list Coupon :=
  if ToBoolean (meta s "couponCode") then
    update_first (of_code_and_user (meta s "couponCode") (meta s "userId")) false cs
  else cs.

(** The responses of [createCheckoutSession]. *)
Definition products_rejected : Response :=
  {| status := 400;
     json := VObj [("error", VStr "Invalid or empty products array")] |}.

Definition checkout_failed (e : exn) : Response :=
  {| status := 500;
     json := VObj [("message", VStr "Error processing checkout");
                   ("error", VStr (message e))] |}.

Definition session_created (s : Session) (totalAmount : number) : Response :=
  {| status := 200;
     json := VObj [("id", VStr (session_id s));
                   ("totalAmount", VNum (Number.div totalAmount num_100))] |}.

(** The coupon [createCheckoutSession] finds for the request, if any. *)
Definition coupon_found (req : Request) (w : World) : option Coupon :=
  if ToBoolean (field (body req) "couponCode") then
    find (matches {| by_code := Some (field (body req) "couponCode");
                     by_userId := Some (VStr (user_id req));
                     by_isActive := Some true |})
         (coupons w)
  else None.

(** The running total of [createCheckoutSession] after the discount step:
    it starts at 0 and no line item is added to it before. *)
Definition total_after_discount (coupon : option Coupon) : number :=
  match coupon with
  | Some c => discount zero c
  | None => zero
  end.

(** The coupon [createNewCoupon] mints for [u] in the world [w]. *)
Definition minted `{Runtime} (u : ObjectId) (w : World) : Coupon :=
  {| coupon_id := ObjectId_of_nat (created w);
     code := "GIFT" ++ toUpperCase (substring 2 8 (toString36 (random w (drawn w))));
     discountPercentage := num_10;
     expirationDate := now w + 30 * 24 * 60 * 60 * 1000;
     isActive := true;
     userId := u |}.

(** The descriptor [d] built for the cart item [p]: its unit amount is the
    price times 100, rounded, and its quantity is the item's quantity when
    that is truthy, else 1. *)
Definition describes `{Runtime} (p : value) (d : LineItem) : Prop :=
  exists props n,
    p = VObj props
    /\ ToNumber (field props "price") = inr n
    /\ unit_amount d = Number.round (Number.mul n num_100)
    /\ quantity d =
         (if ToBoolean (field props "quantity") then field props "quantity"
          else VNum num_1).

(** The quantity the specification gives a descriptor: the item's quantity
    when the item has one, else 1. *)
Definition quantity_when_present (q : value) : value :=
  match q with
  | VUndef => VNum num_1
  | _ => q
  end.

(** A Number greater than 0, as the quantity of a cart line item is. *)
Definition positive (q : value) : Prop :=
  exists n, q = VNum n /\ SFltb zero n = true.

(** A cart line item of the data model: an object whose price converts to
    a number and whose quantity is absent or positive. *)
Definition cart_line_item `{Runtime} (v : value) : Prop :=
  exists props n,
    v = VObj props
    /\ ToNumber (field props "price") = inr n
    /\ (field props "quantity" = VUndef \/ positive (field props "quantity")).

(** The descriptor [d] the specification asks for the cart item [p]: its
    unit amount is the price times 100, rounded, and its quantity is the
    item's quantity when the item has one, else 1. *)
Definition descriptor_of `{Runtime} (p : value) (d : LineItem) : Prop :=
  exists props n,
    p = VObj props
    /\ ToNumber (field props "price") = inr n
    /\ unit_amount d = Number.round (Number.mul n num_100)
    /\ quantity d = quantity_when_present (field props "quantity").

(** The snapshot entry [e] written for the product [p]. *)
Definition snapshot_of (p e : value) : Prop :=
  exists id q pr,
    e = VObj [("id", id); ("quantity", q); ("price", pr)]
    /\ get p "_id" = inr id
    /\ get p "quantity" = inr q
    /\ get p "price" = inr pr.

(** The entry [e'] read back from the JSON text of the entry [e] has the id
    of [e]. *)
Definition id_survives (e e' : value) : Prop :=
  readable e' /\ get e' "id" = get e "id".

(** The order line [l] refers to the [_id] of the submitted product [p],
    and to [undefined] when [p] is an object without [_id]. *)
Definition references_id (p : value) (l : OrderLine) : Prop :=
  get p "_id" = inr (product l)
  /\ forall props, p = VObj props -> lookup "_id" props = None -> product l = VUndef.

(** Computations that leave the coupon ledger as it was, and how they
    compose. *)
Definition keeps_ledger {A : Type} (c : M A) : Prop :=
  forall w : World, coupons (snd (c w)) = coupons w.

(** Computations that leave the ledger as it was or deactivate one
    coupon. *)
Definition deactivates_at_most {A : Type} (c : M A) : Prop :=
  forall w : World,
    coupons (snd (c w)) = coupons w
    \/ exists f, coupons (snd (c w)) = update_first f false (coupons w).

Create HintDb ledger.

Section Outcomes.

Context `{Runtime} `{PaymentGateway}.

(** The session request [createCheckoutSession] sends. *)
Definition session_request (req : Request) (lineItems : list LineItem)
    (ds : list string) (entries : list value) : SessionParams :=
  {| payment_method_types := ["card"];
     line_items := lineItems;
     mode := "payment";
     success_url :=
       CLIENT_URL ++ "/purchase-success?session_id={CHECKOUT_SESSION_ID}";
     cancel_url := CLIENT_URL ++ "/purchase-cancel";
     discounts := ds;
     metadata :=
       {| meta_userId := user_id req;
          meta_couponCode := or_else (field (body req) "couponCode") (VStr "");
          meta_products := JSON_stringify (VArr entries) |} |}.

(** The last steps of [createCheckoutSession], from the session creation,
    when the total does not reach the reward threshold. *)
Definition session_step (req : Request) (lineItems : list LineItem)
    (ds : list string) (entries : list value) (t : number) (w : World)
    : option Response * World :=
  let params := session_request req lineItems ds entries in
  match sessions_create (calls w) params with
  | inl e => (Some (checkout_failed e), log_call (SessionsCreate params) w)
  | inr s =>
      (Some (session_created s t),
       set_sessions (sessions w ++ [s]) (log_call (SessionsCreate params) w))
  end.

End Outcomes.

(** ** Predicates of the further statements *)

(** A products entry whose properties cannot be read. *)
Definition unreadable (v : value) : Prop := v = VNull \/ v = VUndef.

(** The gateway coupon creations among the calls [cs], each with its
    percentage and its duration. *)
Definition coupon_requests (cs : list GatewayCall) : list (number * string) :=
  flat_map (fun c => match c with
                     | CouponsCreate p d => [(p, d)]
                     | _ => []
                     end) cs.

(** The 500 response of [checkoutSuccess]. *)
Definition reconciliation_failed (e : exn) : Response :=
  {| status := 500;
     json := VObj [("message", VStr "Error processing successful checkout");
                   ("error", VStr (message e))] |}.

(** Lines 127 and 130 to 134 of [checkoutSuccess]: the order lines read
    from the metadata of the session. *)
Definition order_lines `{Runtime} (s : Session) : result (list OrderLine) :=
  let? parsed := parse (meta s "products") in
  match parsed with
  | VArr items => map_result orderLine items
  | _ => inl (TypeError "products.map is not a function")
  end.

(** The coupon ledger [checkoutSuccess] leaves: the coupon step is run
    when the session is found and paid, whatever happens afterwards. *)
Definition ledger_after_reconciliation (req : Request) (w : World) : list Coupon :=
  match field (body req) "sessionId" with
  | VStr id =>
      match find (fun x => String.eqb (session_id x) id) (sessions w) with
      | Some s =>
          if String.eqb (payment_status s) "paid" then deactivated s (coupons w)
          else coupons w
      | None => coupons w
      end
  | _ => coupons w
  end.

(** What the gateway is charged for the product [p], the line item [d],
    against what the snapshot entry [e] records of it. *)
Definition charged_and_recorded (p : value) (d : LineItem) (e : value) : Prop :=
  forall props,
    p = VObj props ->
    get e "quantity" = inr (field props "quantity")
    /\ get e "price" = inr (field props "price")
    /\ quantity d =
         (if ToBoolean (field props "quantity") then field props "quantity"
          else VNum num_1)
    /\ (ToBoolean (field props "quantity") = false ->
        quantity d = VNum num_1 /\ get e "quantity" <> inr (quantity d)).

(** The run of [checkoutSuccess], step by step: the retrieval is logged;
    on a paid session the coupon step is run, then the order lines are read
    and the total is converted, an exception ending the run with a 500; at
    last the Order is inserted. *)
Definition reconciliation `{Runtime} (req : Request) (w : World)
    : option Response * World :=
  let sessionId := field (body req) "sessionId" in
  let w1 := log_call (SessionsRetrieve sessionId) w in
  match fst (stripe_sessions_retrieve sessionId w) with
  | inl e => (Some (reconciliation_failed e), w1)
  | inr s =>
      if String.eqb (payment_status s) "paid" then
        let w2 := set_coupons (deactivated s (coupons w)) w1 in
        match order_lines s with
        | inl e => (Some (reconciliation_failed e), w2)
        | inr lines =>
            match ToNumber (amount_total s) with
            | inl e => (Some (reconciliation_failed e), w2)
            | inr total =>
                (Some (order_created (ObjectId_of_nat (created w))),
                 set_orders
                   (orders w ++
                      [{| order_id := ObjectId_of_nat (created w);
                          user := meta s "userId";
                          products := lines;
                          totalAmount := Number.div total num_100;
                          stripeSessionId := sessionId |}])
                   (set_created (S (created w)) w2))
            end
        end
      else (None, w1)
  end.

(** ** Predicates of the statements on the stores *)

(** The id of a cart item: the [_id] of an object that holds a string
    there. *)
Definition id_of (item : value) : option string :=
  match item with
  | VObj props =>
      match field props "_id" with
      | VStr id => Some id
      | _ => None
      end
  | _ => None
  end.

Fixpoint ids_of_items (items : list value) : option (list string) :=
  match items with
  | [] => Some []
  | item :: rest =>
      match id_of item, ids_of_items rest with
      | Some id, Some ids => Some (id :: ids)
      | _, _ => None
      end
  end.

(** The ids of a cart that is an array of items with ids, in its order. *)
Definition ids_of (cart : value) : option (list string) :=
  match cart with
  | VArr items => ids_of_items items
  | _ => None
  end.

(** The cart is an array of items with ids, no two of the same id. *)
Definition unique_ids (cart : value) : Prop :=
  exists ids, ids_of cart = Some ids /\ NoDup ids.

(** The first item of the id [id]. *)
Fixpoint item_with (id : string) (items : list value) : option value :=
  match items with
  | [] => None
  | item :: rest =>
      match id_of item with
      | Some id' => if String.eqb id id' then Some item else item_with id rest
      | None => item_with id rest
      end
  end.

(** An action that changes the cart on the client only: it does not load
    the cart from the backend, and the product it adds has an id. *)
Definition local_action (a : CartStore.Action) : Prop :=
  match a with
  | CartStore.GetCartItems => False
  | CartStore.AddToCart product => id_of product <> None
  | _ => True
  end.

(** [item'] is [item] with the quantity [q]. *)
Definition with_quantity (q : value) (item item' : value) : Prop :=
  get item' "quantity" = inr q
  /\ forall k, k <> "quantity" -> get item' k = get item k.

Definition is_success (t : Browser.Toast) : Prop :=
  match t with
  | Browser.ToastSuccess _ => True
  | Browser.ToastError _ => False
  end.

(** The action on [pg] ended on [pg'] without an error toast. *)
Definition quiet {S : Type} (pg pg' : Browser.Page S) : Prop :=
  exists shown,
    Browser.toasts pg' = (Browser.toasts pg ++ shown)%list
    /\ Forall is_success shown.

(** The totals of the state are those of its cart and coupon. *)
Definition totals_match `{Runtime} (s : CartStore.State) : Prop :=
  CartStore.totals_of (CartStore.cart s) (CartStore.coupon s)
  = inr (CartStore.subtotal s, CartStore.total s).

(** The backend rejects whatever is requested on the page. *)
Definition backend_down `{Browser.Browser} {S : Type} (pg : Browser.Page S) : Prop :=
  forall c, exists error, Browser.answer (Browser.sent pg) c = inl error.

(** The actions of the cart store that change the cart through the
    backend. *)
Definition mutation (a : CartStore.Action) : bool :=
  match a with
  | CartStore.AddToCart _ | CartStore.RemoveFromCart _
  | CartStore.UpdateQuantity _ _ => true
  | _ => false
  end.

(** The actions of the cart store that load from the backend. *)
Definition fetch (a : CartStore.Action) : bool :=
  match a with
  | CartStore.GetMyCoupon | CartStore.ApplyCoupon _
  | CartStore.GetCartItems => true
  | _ => false
  end.

(** The state an action leaves when the backend rejects its request. *)
Definition after_rejection (a : CartStore.Action) (s : CartStore.State)
    : CartStore.State :=
  match a with
  | CartStore.GetCartItems =>
      CartStore.with_cart (VArr []) (CartStore.with_loading false s)
  | _ => CartStore.with_loading false s
  end.

(** The requests sent between [pg] and [pg']. *)
Definition sent_between {S : Type} (pg pg' : Browser.Page S)
    (calls : list Browser.ApiCall) : Prop :=
  Browser.sent pg' = (Browser.sent pg ++ calls)%list.

(** A request for a token refresh. *)
Definition refreshes (c : Browser.ApiCall) : Prop :=
  Browser.url c = "/auth/refresh-token".

(** A product the toggle of [id] can undo: an object whose [isFeatured]
    is a boolean when its [id] is the one toggled. *)
Definition flagged `{Browser.Browser} (id item : value) : Prop :=
  exists props,
    item = VObj props
    /\ (Browser.strict_equal (field props "id") id = true ->
        exists b, lookup "isFeatured" props = Some (VBool b)).

(** A response of the status 200. *)
Definition ok_200 (response : value) : Prop :=
  get response "status" = inr (VNum ProductStore.num_200).

(** ** Properties *)

Section Properties.

Context `{Runtime} `{PaymentGateway}.

(** The run of [createCheckoutSession] on a products field that is not a
    non-empty array. *)
Lemma createCheckoutSession_invalid_products_run :
  forall (req : Request) (w : World),
    invalid_products (field (body req) "products") ->
    createCheckoutSession req w = (Some products_rejected, w).
Proof.
  intros req w [Hnot | Hempty]; unfold createCheckoutSession, try_catch.
  - destruct (field (body req) "products"); try reflexivity.
    discriminate Hnot.
  - rewrite Hempty. reflexivity.
Qed.

(** C7. A request whose products field is not an array, or is an empty
    array, is answered with status 400 and the validation error, and the
    world is left as it was: no call reached the gateway and neither
    collection changed. *)
Theorem createCheckoutSession_invalid_products :
  forall (req : Request) (w : World),
    invalid_products (field (body req) "products") ->
    createCheckoutSession req w =
      (Some {| status := 400;
               json := VObj [("error", VStr "Invalid or empty products array")] |},
       w).
Proof.
  intros req w Hinvalid. unfold createCheckoutSession, try_catch.
  destruct Hinvalid as [Hnot | Hempty].
  - destruct (field (body req) "products") as [| | b | n | str | items | props];
      simpl in Hnot; try discriminate Hnot; reflexivity.
  - rewrite Hempty. reflexivity.
Qed.

(** The retrieval of a session the gateway holds. *)
Lemma retrieve_held :
  forall (w : World) (id : string) (s : Session),
    holds_session w id s ->
    stripe_sessions_retrieve (VStr id) w =
      (inr s, log_call (SessionsRetrieve (VStr id)) w).
Proof.
  intros w id s Hs. unfold stripe_sessions_retrieve.
  unfold holds_session in Hs. rewrite Hs. reflexivity.
Qed.

(** C8. When the gateway session of the given id has a payment status
    other than [paid], [checkoutSuccess] sends no response, creates no
    Order and changes no coupon: the world differs only by the logged
    retrieval. *)
Theorem checkoutSuccess_not_paid :
  forall (req : Request) (w : World) (id : string) (s : Session),
    field (body req) "sessionId" = VStr id ->
    holds_session w id s ->
    payment_status s <> "paid" ->
    checkoutSuccess req w = (None, log_call (SessionsRetrieve (VStr id)) w)
    /\ orders (snd (checkoutSuccess req w)) = orders w
    /\ coupons (snd (checkoutSuccess req w)) = coupons w.
Proof.
  intros req w id s Hid Hs Hstatus.
  assert (Hrun : checkoutSuccess req w =
                 (None, log_call (SessionsRetrieve (VStr id)) w)).
  { unfold checkoutSuccess, try_catch, bind. rewrite Hid.
    rewrite (retrieve_held w id s Hs).
    destruct (String.eqb_spec (payment_status s) "paid") as [Heq | Hneq].
    - contradiction.
    - reflexivity. }
  rewrite Hrun. repeat split; reflexivity.
Qed.

Lemma orderLine_readable :
  forall e : value,
    readable e -> exists l, orderLine e = inr l /\ reads_line e l.
Proof.
  intros e [Hu Hn]. unfold orderLine, reads_line.
  destruct e; try contradiction; simpl; eexists; split; try reflexivity;
    simpl; repeat split.
Qed.

Lemma map_orderLine_readable :
  forall items : list value,
    Forall readable items ->
    exists lines,
      map_result orderLine items = inr lines /\ Forall2 reads_line items lines.
Proof.
  induction items as [| e items IH]; intros Hall.
  - exists []. split; [reflexivity | constructor].
  - inversion Hall as [| ? ? He Hrest]; subst.
    destruct (orderLine_readable e He) as [l [Hl Hreads]].
    destruct (IH Hrest) as [lines [Hlines Hall2]].
    exists (l :: lines). split.
    + simpl. rewrite Hl. simpl. rewrite Hlines. reflexivity.
    + constructor; assumption.
Qed.

(** The run of [checkoutSuccess] on a paid session whose metadata holds a
    parseable snapshot. *)
Lemma checkoutSuccess_paid_run :
  forall (req : Request) (w : World) (id : string) (s : Session)
         (items : list value) (lines : list OrderLine) (total : number),
    field (body req) "sessionId" = VStr id ->
    holds_session w id s ->
    payment_status s = "paid" ->
    parse (meta s "products") = inr (VArr items) ->
    map_result orderLine items = inr lines ->
    ToNumber (amount_total s) = inr total ->
    checkoutSuccess req w =
      (Some (order_created (ObjectId_of_nat (created w))),
       set_orders
         (orders w ++
            [{| order_id := ObjectId_of_nat (created w);
                user := meta s "userId";
                products := lines;
                totalAmount := Number.div total num_100;
                stripeSessionId := VStr id |}])
         (set_created (S (created w))
            (set_coupons (deactivated s (coupons w))
               (log_call (SessionsRetrieve (VStr id)) w)))).
Proof.
  intros req w id s items lines total Hid Hs Hpaid Hparse Hlines Htotal.
  unfold checkoutSuccess, try_catch, bind. rewrite Hid.
  rewrite (retrieve_held w id s Hs). rewrite Hpaid. simpl String.eqb.
  unfold deactivated, Coupon_findOneAndUpdate, lift, new_ObjectId, Order_save, ret.
  rewrite Hparse, Hlines, Htotal.
  destruct (ToBoolean (meta s "couponCode")); simpl.
  - reflexivity.
  - unfold set_coupons, log_call, set_created, set_orders. simpl. reflexivity.
Qed.

Lemma matches_set_isActive :
  forall (f : Filter) (b : bool) (c : Coupon),
    by_isActive f = None ->
    matches f (set_isActive b c) = matches f c.
Proof.
  intros f b c Hf. unfold matches. rewrite Hf. reflexivity.
Qed.

(** [findOneAndUpdate] with a filter that does not look at [isActive]: the
    document found before is found again, with the flag set. *)
Lemma update_first_found :
  forall (f : Filter) (b : bool) (cs : list Coupon) (c : Coupon),
    by_isActive f = None ->
    find (matches f) cs = Some c ->
    find (matches f) (update_first f b cs) = Some (set_isActive b c).
Proof.
  intros f b cs c Hf. induction cs as [| c0 cs IH]; simpl; intros Hfind.
  - discriminate Hfind.
  - destruct (matches f c0) eqn:Hm.
    + injection Hfind as <-. simpl.
      rewrite (matches_set_isActive f b c0 Hf), Hm. reflexivity.
    + simpl. rewrite Hm. apply IH. exact Hfind.
Qed.

(** C1. For a session id whose gateway session is paid and carries a
    non-empty coupon code [X], a user [u] and a product snapshot,
    [checkoutSuccess] answers 200 with [success: true] and the id of a new
    Order; the coupon matched by [{code: X, userId: u}] is now inactive;
    the Order appended to the collection has user [u], one line per
    snapshot entry holding that entry's id, quantity and price, the total
    [amount_total / 100] and the session id. *)
Theorem checkoutSuccess_paid_with_coupon :
  forall (req : Request) (w : World) (id : string) (s : Session)
         (X : string) (u : string) (items : list value) (total : number),
    field (body req) "sessionId" = VStr id ->
    holds_session w id s ->
    payment_status s = "paid" ->
    meta s "couponCode" = VStr X ->
    X <> "" ->
    meta s "userId" = VStr u ->
    parse (meta s "products") = inr (VArr items) ->
    Forall readable items ->
    ToNumber (amount_total s) = inr total ->
    exists (lines : list OrderLine) (newOrder : Order),
      Forall2 reads_line items lines
      /\ newOrder =
           {| order_id := ObjectId_of_nat (created w);
              user := VStr u;
              products := lines;
              totalAmount := Number.div total num_100;
              stripeSessionId := VStr id |}
      /\ fst (checkoutSuccess req w) = Some (order_created (order_id newOrder))
      /\ orders (snd (checkoutSuccess req w)) = (orders w ++ [newOrder])%list
      /\ coupons (snd (checkoutSuccess req w)) =
           update_first (of_code_and_user (VStr X) (VStr u)) false (coupons w)
      /\ (forall c : Coupon,
             find (matches (of_code_and_user (VStr X) (VStr u))) (coupons w) = Some c ->
             find (matches (of_code_and_user (VStr X) (VStr u)))
                  (coupons (snd (checkoutSuccess req w)))
               = Some (set_isActive false c)).
Proof.
  intros req w id s X u items total Hid Hs Hpaid HX Hne Hu Hparse Hread Htotal.
  destruct (map_orderLine_readable items Hread) as [lines [Hlines Hall2]].
  assert (Hcoupons : deactivated s (coupons w) =
                     update_first (of_code_and_user (VStr X) (VStr u)) false (coupons w)).
  { unfold deactivated. rewrite HX, Hu. simpl.
    destruct (String.eqb_spec X "") as [Heq | _]; [contradiction | reflexivity]. }
  rewrite (checkoutSuccess_paid_run req w id s items lines total
             Hid Hs Hpaid Hparse Hlines Htotal).
  rewrite Hu, Hcoupons. simpl.
  eexists. eexists. split; [exact Hall2 |]. split; [reflexivity |].
  split; [reflexivity |]. split; [reflexivity |]. split; [reflexivity |].
  intros c Hfind. apply update_first_found; [reflexivity | exact Hfind].
Qed.

Lemma ObjectId_of_nat_inj :
  forall n m : nat, ObjectId_of_nat n = ObjectId_of_nat m -> n = m.
Proof.
  intros n m Heq. unfold ObjectId_of_nat in Heq.
  assert (Hu : Some (Nat.to_uint n) = Some (Nat.to_uint m)).
  { rewrite <- (NilEmpty.usu (Nat.to_uint n)), <- (NilEmpty.usu (Nat.to_uint m)).
    now rewrite Heq. }
  injection Hu as Hu.
  rewrite <- (DecimalNat.Unsigned.of_to n), <- (DecimalNat.Unsigned.of_to m).
  now rewrite Hu.
Qed.

(** C2. [checkoutSuccess] is not idempotent: run twice on the id of a paid
    session (with its product snapshot), it answers 200 both times and
    appends two Orders that carry the same session id under two different
    order ids; nothing looks for an Order of that session before the
    insert. *)
Theorem checkoutSuccess_twice_two_orders :
  forall (req : Request) (w : World) (id : string) (s : Session)
         (items : list value) (total : number),
    field (body req) "sessionId" = VStr id ->
    holds_session w id s ->
    payment_status s = "paid" ->
    parse (meta s "products") = inr (VArr items) ->
    Forall readable items ->
    ToNumber (amount_total s) = inr total ->
    let first := checkoutSuccess req w in
    let second := checkoutSuccess req (snd first) in
    exists o1 o2 : Order,
      orders (snd second) = (orders w ++ [o1; o2])%list
      /\ stripeSessionId o1 = VStr id
      /\ stripeSessionId o2 = VStr id
      /\ order_id o1 <> order_id o2
      /\ fst first = Some (order_created (order_id o1))
      /\ fst second = Some (order_created (order_id o2)).
Proof.
  intros req w id s items total Hid Hs Hpaid Hparse Hread Htotal first second.
  destruct (map_orderLine_readable items Hread) as [lines [Hlines _]].
  pose proof (checkoutSuccess_paid_run req w id s items lines total
                Hid Hs Hpaid Hparse Hlines Htotal) as Hfirst.
  fold first in Hfirst.
  assert (Hs1 : holds_session (snd first) id s).
  { rewrite Hfirst. exact Hs. }
  pose proof (checkoutSuccess_paid_run req (snd first) id s items lines total
                Hid Hs1 Hpaid Hparse Hlines Htotal) as Hsecond.
  fold second in Hsecond.
  rewrite Hsecond. rewrite Hfirst. simpl.
  eexists. eexists. split.
  - rewrite <- app_assoc. simpl. reflexivity.
  - simpl. repeat split.
    intros Heq. apply ObjectId_of_nat_inj in Heq. lia.
Qed.

Lemma discount_zero :
  forall c : Coupon,
    Number.is_finite (discountPercentage c) = true -> discount zero c = zero.
Proof.
  intros c Hfin. unfold discount.
  destruct (discountPercentage c) as [sg | sg | | sg m e];
    try discriminate Hfin; destruct sg; reflexivity.
Qed.

Lemma discount_zero_below_threshold :
  forall c : Coupon, Number.ge (discount zero c) num_20000 = false.
Proof.
  intros c. unfold discount.
  destruct (discountPercentage c) as [sg | sg | | sg m e];
    try reflexivity; destruct sg; reflexivity.
Qed.

(** The run of [createCheckoutSession] on a non-empty array of products
    from which the line items and the snapshot could be built. *)
Lemma createCheckoutSession_run :
  forall (req : Request) (w : World) (items : list value)
         (lineItems : list LineItem) (entries : list value),
    field (body req) "products" = VArr items ->
    items <> [] ->
    map_result lineItem items = inr lineItems ->
    map_result snapshot items = inr entries ->
    createCheckoutSession req w =
      match coupon_found req w with
      | Some c =>
          let w1 := log_call (CouponsCreate (discountPercentage c) "once") w in
          match coupons_create (calls w) (discountPercentage c) "once" with
          | inl e => (Some (checkout_failed e), w1)
          | inr id => session_step req lineItems [id] entries (discount zero c) w1
          end
      | None => session_step req lineItems [] entries zero w
      end.
Proof.
  intros req w items lineItems entries Hproducts Hne Hlines Hentries.
  unfold createCheckoutSession, try_catch, bind. rewrite Hproducts.
  destruct items as [| p items]; [contradiction |].
  unfold lift at 1. rewrite Hlines.
  unfold apply_coupon, coupon_found, Coupon_findOne, bind, ret.
  destruct (ToBoolean (field (body req) "couponCode")).
  - destruct (find _ (coupons w)) as [c |].
    + unfold createStripeCoupon, stripe_coupons_create.
      destruct (coupons_create (calls w) (discountPercentage c) "once") as [e | id].
      * reflexivity.
      * unfold lift. rewrite Hentries.
        unfold session_step, stripe_sessions_create, session_request. simpl calls.
        destruct (sessions_create _ _) as [e | s]; [reflexivity |].
        unfold reward. rewrite discount_zero_below_threshold. reflexivity.
    + unfold lift. rewrite Hentries.
      unfold session_step, stripe_sessions_create, session_request.
      destruct (sessions_create _ _) as [e | s]; reflexivity.
  - unfold lift. rewrite Hentries.
    unfold session_step, stripe_sessions_create, session_request.
    destruct (sessions_create _ _) as [e | s]; reflexivity.
Qed.

Lemma lineItem_readable :
  forall (p : value) (d : LineItem), lineItem p = inr d -> readable p.
Proof.
  intros p d Hd. split; intros ->; discriminate Hd.
Qed.

Lemma snapshot_readable :
  forall p : value, readable p -> exists e, snapshot p = inr e.
Proof.
  intros p [Hu Hn]. unfold snapshot.
  destruct p; try contradiction; simpl; eexists; reflexivity.
Qed.

Lemma map_result_inr_inv :
  forall (A B : Type) (f : A -> result B) (a : A) (l : list A) (bs : list B),
    map_result f (a :: l) = inr bs ->
    exists b bs', f a = inr b /\ map_result f l = inr bs' /\ bs = b :: bs'.
Proof.
  intros A B f a l bs Hmap. simpl in Hmap.
  destruct (f a) as [e | b]; [discriminate Hmap |]. simpl in Hmap.
  destruct (map_result f l) as [e | bs']; [discriminate Hmap |]. simpl in Hmap.
  injection Hmap as <-. exists b, bs'. repeat split.
Qed.

(** The second traversal of the products cannot throw when the first did
    not. *)
Lemma snapshot_after_lineItems :
  forall (items : list value) (lineItems : list LineItem),
    map_result lineItem items = inr lineItems ->
    exists entries, map_result snapshot items = inr entries.
Proof.
  induction items as [| p items IH]; intros lineItems Hmap.
  - exists []. reflexivity.
  - destruct (map_result_inr_inv _ _ _ _ _ _ Hmap) as [d [ds [Hd [Hds _]]]].
    destruct (snapshot_readable p (lineItem_readable p d Hd)) as [e He].
    destruct (IH ds Hds) as [entries Hentries].
    exists (e :: entries). simpl. rewrite He. simpl. rewrite Hentries. reflexivity.
Qed.

(** An exception in the first traversal ends the handler before any
    effect. *)
Lemma createCheckoutSession_lineItems_throw :
  forall (req : Request) (w : World) (items : list value) (e : exn),
    field (body req) "products" = VArr items ->
    map_result lineItem items = inl e ->
    createCheckoutSession req w = (Some (checkout_failed e), w).
Proof.
  intros req w items e Hproducts Hmap.
  unfold createCheckoutSession, try_catch, bind. rewrite Hproducts.
  destruct items as [| p items]; [discriminate Hmap |].
  unfold lift at 1. rewrite Hmap. reflexivity.
Qed.

(** The three shapes of a products field. *)
Lemma products_cases :
  forall v : value,
    invalid_products v \/ exists items, v = VArr items /\ items <> [].
Proof.
  intros v. destruct v as [| | b | n | str | items | props];
    try (left; left; reflexivity).
  destruct items as [| p items].
  - left. right. reflexivity.
  - right. exists (p :: items). split; [reflexivity | discriminate].
Qed.

(** Whatever the request, [createCheckoutSession] leaves both collections,
    the document count and the random source as they were, and a 200
    response carries the id of a session and the total after the discount
    step. *)
Lemma createCheckoutSession_frame :
  forall (req : Request) (w : World),
    let run := createCheckoutSession req w in
    coupons (snd run) = coupons w
    /\ orders (snd run) = orders w
    /\ created (snd run) = created w
    /\ drawn (snd run) = drawn w
    /\ (forall r : Response,
          fst run = Some r -> status r = 200 ->
          exists s,
            r = session_created s (total_after_discount (coupon_found req w))).
Proof.
  intros req w run. subst run.
  destruct (products_cases (field (body req) "products"))
    as [Hinvalid | [items [Hproducts Hne]]].
  - rewrite (createCheckoutSession_invalid_products_run req w Hinvalid). simpl.
    repeat split. intros r Hr Hstatus. injection Hr as <-. discriminate Hstatus.
  - destruct (map_result lineItem items) as [e | lineItems] eqn:Hlines.
    + rewrite (createCheckoutSession_lineItems_throw req w items e Hproducts Hlines).
      simpl. repeat split. intros r Hr Hstatus. injection Hr as <-.
      discriminate Hstatus.
    + destruct (snapshot_after_lineItems items lineItems Hlines) as [entries Hentries].
      rewrite (createCheckoutSession_run req w items lineItems entries
                 Hproducts Hne Hlines Hentries).
      unfold session_step.
      destruct (coupon_found req w) as [c |]; simpl.
      * destruct (coupons_create _ _ _) as [e | id]; simpl.
        { repeat split. intros r Hr Hstatus. injection Hr as <-.
          discriminate Hstatus. }
        destruct (sessions_create _ _) as [e | s]; simpl; repeat split;
          intros r Hr Hstatus; injection Hr as <-;
          [discriminate Hstatus | exists s; reflexivity].
      * destruct (sessions_create _ _) as [e | s]; simpl; repeat split;
          intros r Hr Hstatus; injection Hr as <-;
          [discriminate Hstatus | exists s; reflexivity].
Qed.

Lemma coupon_found_in :
  forall (req : Request) (w : World) (c : Coupon),
    coupon_found req w = Some c -> In c (coupons w).
Proof.
  intros req w c. unfold coupon_found.
  destruct (ToBoolean _); [| discriminate].
  intros Hfind. apply find_some in Hfind. exact (proj1 Hfind).
Qed.

(** The discount step of [createCheckoutSession], run on the total 0 it
    is given. *)
Lemma apply_coupon_run :
  forall (req : Request) (w : World),
    apply_coupon req (field (body req) "couponCode") zero w =
      (inr (coupon_found req w, total_after_discount (coupon_found req w)), w).
Proof.
  intros req w. unfold apply_coupon, coupon_found, Coupon_findOne, bind, ret.
  destruct (ToBoolean _); [| reflexivity].
  destruct (find _ _); reflexivity.
Qed.

Lemma total_after_discount_zero :
  forall (req : Request) (w : World),
    finite_discounts (coupons w) ->
    total_after_discount (coupon_found req w) = zero.
Proof.
  intros req w Hfin. destruct (coupon_found req w) as [c |] eqn:Hc.
  - apply (discount_zero c).
    unfold finite_discounts in Hfin. rewrite Forall_forall in Hfin.
    apply Hfin. exact (coupon_found_in req w c Hc).
  - reflexivity.
Qed.

(** C3. The discount subtraction is applied to a running total that is
    still 0, so it leaves the total at 0, and every 200 response of
    [createCheckoutSession] reports a [totalAmount] of 0, whatever the
    products and the coupon (its discount percentage being a finite
    number). *)
Theorem createCheckoutSession_total_is_zero :
  forall (req : Request) (w : World),
    finite_discounts (coupons w) ->
    apply_coupon req (field (body req) "couponCode") zero w =
      (inr (coupon_found req w, zero), w)
    /\ (forall r : Response,
          fst (createCheckoutSession req w) = Some r ->
          status r = 200 ->
          get (json r) "totalAmount" = inr (VNum zero)).
Proof.
  intros req w Hfin. split.
  - rewrite apply_coupon_run, (total_after_discount_zero req w Hfin). reflexivity.
  - intros r Hr Hstatus.
    destruct (createCheckoutSession_frame req w) as [_ [_ [_ [_ Hresp]]]].
    destruct (Hresp r Hr Hstatus) as [s ->].
    rewrite (total_after_discount_zero req w Hfin). reflexivity.
Qed.

Lemma total_after_discount_below_threshold :
  forall coupon : option Coupon,
    Number.ge (total_after_discount coupon) num_20000 = false.
Proof.
  intros [c |]; unfold total_after_discount.
  - apply discount_zero_below_threshold.
  - reflexivity.
Qed.

(** C4. At the reward check the total is at most 0 (the discount
    percentage of the coupon found being a finite number) and in any case
    not 20000 or more, so the check fails and [createNewCoupon] is not
    invoked: [createCheckoutSession] leaves the coupon ledger as it was,
    creates no document and draws no random number. *)
Theorem createCheckoutSession_never_rewards :
  forall (req : Request) (w : World),
    let total := total_after_discount (coupon_found req w) in
    apply_coupon req (field (body req) "couponCode") zero w =
      (inr (coupon_found req w, total), w)
    /\ (finite_discounts (coupons w) -> Number.le total zero = true)
    /\ Number.ge total num_20000 = false
    /\ (forall w0 : World, reward req total w0 = (inr tt, w0))
    /\ coupons (snd (createCheckoutSession req w)) = coupons w
    /\ created (snd (createCheckoutSession req w)) = created w
    /\ drawn (snd (createCheckoutSession req w)) = drawn w.
Proof.
  intros req w total.
  pose proof (total_after_discount_below_threshold (coupon_found req w)) as Hge.
  fold total in Hge.
  destruct (createCheckoutSession_frame req w) as [Hc [_ [Hn [Hd _]]]].
  split; [apply apply_coupon_run |].
  split.
  { intros Hfin. subst total.
    rewrite (total_after_discount_zero req w Hfin). reflexivity. }
  split; [exact Hge |].
  split; [intros w0; unfold reward; rewrite Hge; reflexivity |].
  repeat split; assumption.
Qed.

(** The run of [createNewCoupon]: the first coupon of the user is
    deleted, then the minted one is inserted. *)
Lemma createNewCoupon_run :
  forall (u : ObjectId) (w : World),
    createNewCoupon u w =
      (inr (minted u w),
       set_coupons (delete_first (of_user u) (coupons w) ++ [minted u w])
         (set_created (S (created w)) (set_drawn (S (drawn w)) w))).
Proof.
  intros u w. reflexivity.
Qed.

Lemma matches_of_user :
  forall (u : ObjectId) (c : Coupon),
    matches (of_user u) c = String.eqb (userId c) u.
Proof.
  intros u c. unfold matches, of_user. simpl.
  rewrite andb_true_r. apply String.eqb_sym.
Qed.

Lemma owned_by_app :
  forall (u : ObjectId) (cs ds : list Coupon),
    owned_by u (cs ++ ds) = (owned_by u cs ++ owned_by u ds)%list.
Proof.
  intros u cs ds. unfold owned_by. apply filter_app.
Qed.

(** Under the ledger invariant, [findOneAndDelete({ userId })] leaves the
    user without a coupon. *)
Lemma delete_first_owner :
  forall (u : ObjectId) (cs : list Coupon),
    (List.length (owned_by u cs) <= 1)%nat ->
    owned_by u (delete_first (of_user u) cs) = [].
Proof.
  intros u. induction cs as [| c cs IH]; simpl; intros Hlen.
  - reflexivity.
  - rewrite matches_of_user.
    destruct (String.eqb (userId c) u) eqn:Hc; simpl in *.
    + destruct (owned_by u cs) as [| c' rest]; [reflexivity |].
      simpl in Hlen. lia.
    + rewrite Hc. apply IH. exact Hlen.
Qed.

Lemma delete_first_others :
  forall (u v : ObjectId) (cs : list Coupon),
    u <> v ->
    owned_by v (delete_first (of_user u) cs) = owned_by v cs.
Proof.
  intros u v cs Huv. induction cs as [| c cs IH]; simpl.
  - reflexivity.
  - rewrite matches_of_user.
    destruct (String.eqb_spec (userId c) u) as [Hc | Hc]; simpl.
    + destruct (String.eqb_spec (userId c) v) as [Hv | Hv]; [| reflexivity].
      congruence.
    + rewrite IH. reflexivity.
Qed.

Lemma update_first_owners :
  forall (f : Filter) (b : bool) (u : ObjectId) (cs : list Coupon),
    List.length (owned_by u (update_first f b cs)) = List.length (owned_by u cs).
Proof.
  intros f b u. induction cs as [| c cs IH]; simpl.
  - reflexivity.
  - destruct (matches f c); simpl.
    + destruct (String.eqb (userId c) u); reflexivity.
    + destruct (String.eqb (userId c) u); simpl; now rewrite IH.
Qed.

Lemma keeps_ledger_bind :
  forall (A B : Type) (c : M A) (k : A -> M B),
    keeps_ledger c -> (forall a, keeps_ledger (k a)) -> keeps_ledger (bind c k).
Proof.
  intros A B c k Hc Hk w. unfold bind. specialize (Hc w).
  destruct (c w) as [[e | a] w1]; simpl in *; [exact Hc |].
  rewrite (Hk a w1). exact Hc.
Qed.

Lemma keeps_ledger_ret :
  forall (A : Type) (a : A), keeps_ledger (ret a).
Proof. intros A a w. reflexivity. Qed.

Lemma keeps_ledger_throw :
  forall (A : Type) (e : exn), keeps_ledger (@throw A e).
Proof. intros A e w. reflexivity. Qed.

Lemma keeps_ledger_lift :
  forall (A : Type) (r : result A), keeps_ledger (lift r).
Proof. intros A r w. reflexivity. Qed.

Lemma keeps_ledger_new_ObjectId : keeps_ledger new_ObjectId.
Proof. intros w. reflexivity. Qed.

Lemma keeps_ledger_Order_save :
  forall o : Order, keeps_ledger (Order_save o).
Proof. intros o w. reflexivity. Qed.

Lemma keeps_ledger_retrieve :
  forall id : value, keeps_ledger (stripe_sessions_retrieve id).
Proof. intros id w. reflexivity. Qed.

Lemma deactivates_after :
  forall (A B : Type) (c : M A) (k : A -> M B),
    keeps_ledger c -> (forall a, deactivates_at_most (k a)) ->
    deactivates_at_most (bind c k).
Proof.
  intros A B c k Hc Hk w. unfold bind. specialize (Hc w).
  destruct (c w) as [[e | a] w1]; simpl in *; [left; exact Hc |].
  rewrite <- Hc. apply Hk.
Qed.

Lemma deactivates_before :
  forall (A B : Type) (c : M A) (k : A -> M B),
    deactivates_at_most c -> (forall a, keeps_ledger (k a)) ->
    deactivates_at_most (bind c k).
Proof.
  intros A B c k Hc Hk w. unfold bind. specialize (Hc w).
  destruct (c w) as [[e | a] w1]; simpl in *; [exact Hc |].
  rewrite (Hk a w1). exact Hc.
Qed.

Lemma deactivates_findOneAndUpdate :
  forall f : Filter, deactivates_at_most (Coupon_findOneAndUpdate f false).
Proof. intros f w. right. exists f. reflexivity. Qed.

Lemma keeps_then_deactivates :
  forall (A : Type) (c : M A), keeps_ledger c -> deactivates_at_most c.
Proof. intros A c Hc w. left. apply Hc. Qed.

Lemma try_catch_world :
  forall (b : M (option Response)) (h : exn -> Response) (w : World),
    snd (try_catch b h w) = snd (b w).
Proof.
  intros b h w. unfold try_catch. destruct (b w) as [[e | r] w']; reflexivity.
Qed.

#[local] Hint Resolve keeps_ledger_ret keeps_ledger_throw keeps_ledger_lift
  keeps_ledger_new_ObjectId keeps_ledger_Order_save keeps_ledger_retrieve
  deactivates_findOneAndUpdate : ledger.

(** The ledger after [checkoutSuccess]: as it was, or with one coupon
    deactivated. *)
Lemma checkoutSuccess_ledger :
  forall (req : Request) (w : World),
    coupons (snd (checkoutSuccess req w)) = coupons w
    \/ exists f, coupons (snd (checkoutSuccess req w)) =
                   update_first f false (coupons w).
Proof.
  intros req w. unfold checkoutSuccess. rewrite try_catch_world.
  revert w. apply deactivates_after; [auto with ledger |].
  intros s. destruct (String.eqb (payment_status s) "paid");
    [| apply keeps_then_deactivates; auto with ledger].
  apply deactivates_before.
  - destruct (ToBoolean (meta s "couponCode"));
      [| apply keeps_then_deactivates]; auto with ledger.
  - intros _. apply keeps_ledger_bind; [auto with ledger |].
    intros parsed. apply keeps_ledger_bind.
    + destruct parsed; auto with ledger.
    + intros lines. apply keeps_ledger_bind; [auto with ledger |].
      intros total. apply keeps_ledger_bind; [auto with ledger |].
      intros id. apply keeps_ledger_bind; auto with ledger.
Qed.

(** The ledger invariant survives the replacement made by
    [createNewCoupon], after which the user owns the minted coupon only. *)
Lemma createNewCoupon_ledger :
  forall (u : ObjectId) (w : World),
    one_coupon_per_user (coupons w) ->
    owned_by u (coupons (snd (createNewCoupon u w))) = [minted u w]
    /\ one_coupon_per_user (coupons (snd (createNewCoupon u w))).
Proof.
  intros u w Hinv. rewrite createNewCoupon_run. simpl.
  assert (Hnew : owned_by u [minted u w] = [minted u w]).
  { unfold owned_by. simpl. now rewrite String.eqb_refl. }
  split.
  - rewrite owned_by_app, (delete_first_owner u (coupons w) (Hinv u)), Hnew.
    reflexivity.
  - intros v. rewrite owned_by_app.
    destruct (String.eqb_spec u v) as [<- | Huv].
    + rewrite (delete_first_owner u (coupons w) (Hinv u)), Hnew. simpl. lia.
    + rewrite (delete_first_others u v (coupons w) Huv).
      assert (Hnone : owned_by v [minted u w] = []).
      { unfold owned_by. simpl.
        destruct (String.eqb_spec u v); [contradiction | reflexivity]. }
      rewrite Hnone, app_nil_r. apply Hinv.
Qed.

(** C5. The reward check of [createCheckoutSession], on the total [t] it
    is given, creates a coupon exactly when [t >= 20000]; it then deletes
    the coupon the user had and inserts the minted one, which becomes the
    only coupon of the user; otherwise it changes nothing.  A ledger with
    at most one coupon per user stays so through the reward check,
    through [createCheckoutSession] and through [checkoutSuccess]. *)
Theorem reward_iff_threshold_one_coupon_per_user :
  forall (req : Request) (t : number) (w : World),
    one_coupon_per_user (coupons w) ->
    let w' := snd (reward req t w) in
    (Number.ge t num_20000 = true <-> created w' = S (created w))
    /\ (Number.ge t num_20000 = true ->
        coupons w' =
          (delete_first (of_user (user_id req)) (coupons w)
             ++ [minted (user_id req) w])%list
        /\ owned_by (user_id req) (coupons w') = [minted (user_id req) w])
    /\ (Number.ge t num_20000 = false -> w' = w)
    /\ one_coupon_per_user (coupons w')
    /\ (Number.ge (total_after_discount (coupon_found req w)) num_20000 = true <->
        created (snd (createCheckoutSession req w)) = S (created w))
    /\ one_coupon_per_user (coupons (snd (createCheckoutSession req w)))
    /\ one_coupon_per_user (coupons (snd (checkoutSuccess req w))).
Proof.
  intros req t w Hinv w'. subst w'. unfold reward.
  destruct (createNewCoupon_ledger (user_id req) w Hinv) as [Hown Hinv'].
  destruct (createCheckoutSession_frame req w) as [Hcheckout [_ [Hcreated _]]].
  assert (Hnever : Number.ge (total_after_discount (coupon_found req w)) num_20000
                   = true <->
                   created (snd (createCheckoutSession req w)) = S (created w)).
  { rewrite Hcreated, total_after_discount_below_threshold. split.
    - discriminate.
    - intros Hs. lia. }
  assert (Hsuccess : one_coupon_per_user (coupons (snd (checkoutSuccess req w)))).
  { destruct (checkoutSuccess_ledger req w) as [-> | [f ->]]; [exact Hinv |].
    intros u. rewrite update_first_owners. apply Hinv. }
  rewrite Hcheckout.
  destruct (Number.ge t num_20000).
  - unfold bind. rewrite createNewCoupon_run in Hown, Hinv' |- *.
    simpl in Hown, Hinv' |- *.
    split; [split; reflexivity |].
    split; [intros _; split; [reflexivity | exact Hown] |].
    split; [discriminate |].
    split; [exact Hinv' |].
    split; [exact Hnever |].
    split; [exact Hinv | exact Hsuccess].
  - simpl.
    split; [split; [discriminate | intros Hs; lia] |].
    split; [discriminate |].
    split; [reflexivity |].
    split; [exact Hinv |].
    split; [exact Hnever |].
    split; [exact Hinv | exact Hsuccess].
Qed.

Lemma lineItem_cart_item :
  forall p : value,
    cart_item p -> exists d, lineItem p = inr d /\ describes p d.
Proof.
  intros p [props [n [-> Hn]]]. unfold lineItem. simpl. rewrite Hn. simpl.
  eexists. split; [reflexivity |].
  exists props, n. repeat split. exact Hn.
Qed.

Lemma map_lineItem_cart_items :
  forall items : list value,
    Forall cart_item items ->
    exists lineItems,
      map_result lineItem items = inr lineItems
      /\ Forall2 describes items lineItems.
Proof.
  induction items as [| p items IH]; intros Hall.
  - exists []. split; [reflexivity | constructor].
  - inversion Hall as [| ? ? Hp Hrest]; subst.
    destruct (lineItem_cart_item p Hp) as [d [Hd Hdesc]].
    destruct (IH Hrest) as [ds [Hds Hall2]].
    exists (d :: ds). split.
    + simpl. rewrite Hd. simpl. rewrite Hds. reflexivity.
    + constructor; assumption.
Qed.

(** The gateway calls [createCheckoutSession] makes once the line items
    and the snapshot are built: at most one session creation, which
    carries them and which every 200 response follows. *)
Lemma createCheckoutSession_calls :
  forall (req : Request) (w : World) (items : list value)
         (lineItems : list LineItem) (entries : list value),
    field (body req) "products" = VArr items ->
    items <> [] ->
    map_result lineItem items = inr lineItems ->
    map_result snapshot items = inr entries ->
    exists made : list GatewayCall,
      calls (snd (createCheckoutSession req w)) = (calls w ++ made)%list
      /\ (forall params,
            In (SessionsCreate params) made ->
            line_items params = lineItems
            /\ meta_products (metadata params) = JSON_stringify (VArr entries))
      /\ (forall r,
            fst (createCheckoutSession req w) = Some r -> status r = 200 ->
            exists params, In (SessionsCreate params) made).
Proof.
  intros req w items lineItems entries Hproducts Hne Hlines Hentries.
  rewrite (createCheckoutSession_run req w items lineItems entries
             Hproducts Hne Hlines Hentries).
  unfold session_step.
  destruct (coupon_found req w) as [c |]; simpl.
  - destruct (coupons_create _ _ _) as [e | id]; simpl.
    + exists [CouponsCreate (discountPercentage c) "once"].
      split; [reflexivity |]. split.
      * intros params [Hin | []]. discriminate Hin.
      * intros r Hr Hstatus. injection Hr as <-. discriminate Hstatus.
    + exists [CouponsCreate (discountPercentage c) "once";
              SessionsCreate (session_request req lineItems [id] entries)].
      split.
      * destruct (sessions_create _ _); simpl; rewrite <- app_assoc; reflexivity.
      * split.
        { intros params [Hin | [Hin | []]]; [discriminate Hin |].
          injection Hin as <-. split; reflexivity. }
        { intros r _ _. eexists. right. left. reflexivity. }
  - exists [SessionsCreate (session_request req lineItems [] entries)].
    split.
    + destruct (sessions_create _ _); reflexivity.
    + split.
      * intros params [Hin | []]. injection Hin as <-. split; reflexivity.
      * intros r _ _. eexists. left. reflexivity.
Qed.

(** For a non-empty array of N objects whose prices convert to numbers,
    [createCheckoutSession] builds exactly N line-item descriptors, which
    every session creation it makes carries; the descriptor of item i has
    [unit_amount = Math.round(price * 100)] and the quantity
    [product.quantity || 1]. *)
Lemma createCheckoutSession_descriptors :
  forall (req : Request) (w : World) (items : list value),
    field (body req) "products" = VArr items ->
    items <> [] ->
    Forall cart_item items ->
    exists (lineItems : list LineItem) (made : list GatewayCall),
      map_result lineItem items = inr lineItems
      /\ List.length lineItems = List.length items
      /\ Forall2 describes items lineItems
      /\ calls (snd (createCheckoutSession req w)) = (calls w ++ made)%list
      /\ (forall params,
            In (SessionsCreate params) made -> line_items params = lineItems)
      /\ (forall r,
            fst (createCheckoutSession req w) = Some r -> status r = 200 ->
            exists params, In (SessionsCreate params) made).
Proof.
  intros req w items Hproducts Hne Hcart.
  destruct (map_lineItem_cart_items items Hcart) as [lineItems [Hlines Hdesc]].
  destruct (snapshot_after_lineItems items lineItems Hlines) as [entries Hentries].
  destruct (createCheckoutSession_calls req w items lineItems entries
              Hproducts Hne Hlines Hentries) as [made [Hcalls [Hcarry Hmade]]].
  exists lineItems, made.
  split; [exact Hlines |].
  split; [symmetry; exact (Forall2_length Hdesc) |].
  split; [exact Hdesc |].
  split; [exact Hcalls |].
  split; [| exact Hmade].
  intros params Hin. exact (proj1 (Hcarry params Hin)).
Qed.

Lemma positive_truthy :
  forall q : value, positive q -> ToBoolean q = true.
Proof.
  intros q [n [-> Hpos]].
  destruct n as [s | s | | s m e]; simpl in *; try reflexivity; discriminate.
Qed.

Lemma cart_line_item_cart_item :
  forall p : value, cart_line_item p -> cart_item p.
Proof.
  intros p [props [n [Hp [Hn _]]]]. exists props, n. auto.
Qed.

Lemma descriptor_of_cart_line_item :
  forall (p : value) (d : LineItem),
    cart_line_item p -> describes p d -> descriptor_of p d.
Proof.
  intros p d [props [n [Hp [Hn Hq]]]] [props' [n' [Hp' [Hn' [Hamount Hquantity]]]]].
  subst p. injection Hp' as <-.
  exists props, n'. split; [reflexivity |]. split; [exact Hn' |].
  split; [exact Hamount |].
  rewrite Hquantity. destruct Hq as [Habsent | Hpositive].
  - rewrite Habsent. reflexivity.
  - rewrite (positive_truthy _ Hpositive).
    destruct Hpositive as [k [-> _]]. reflexivity.
Qed.

(** Once the line items are built, [createCheckoutSession] asks the
    gateway for a session, unless the gateway has refused the coupon it
    was asked for before. *)
Lemma createCheckoutSession_asks_for_session :
  forall (req : Request) (w : World) (items : list value)
         (lineItems : list LineItem) (entries : list value),
    field (body req) "products" = VArr items ->
    items <> [] ->
    map_result lineItem items = inr lineItems ->
    map_result snapshot items = inr entries ->
    (exists params,
        In (SessionsCreate params) (calls (snd (createCheckoutSession req w)))
        /\ line_items params = lineItems)
    \/ (exists c e,
           coupon_found req w = Some c
           /\ coupons_create (calls w) (discountPercentage c) "once" = inl e).
Proof.
  intros req w items lineItems entries Hproducts Hne Hlines Hentries.
  rewrite (createCheckoutSession_run req w items lineItems entries
             Hproducts Hne Hlines Hentries).
  unfold session_step.
  destruct (coupon_found req w) as [c |]; simpl.
  - destruct (coupons_create _ _ _) as [e | id] eqn:Hcoupon; simpl.
    + right. eauto.
    + left. exists (session_request req lineItems [id] entries).
      split; [| reflexivity].
      destruct (sessions_create _ _); simpl; rewrite !in_app_iff; simpl;
        tauto.
  - left. exists (session_request req lineItems [] entries).
    split; [| reflexivity].
    destruct (sessions_create _ _); simpl; rewrite !in_app_iff; simpl;
      tauto.
Qed.

(** C6. For a non-empty array of N cart line items (objects with a price
    and a quantity that is absent or positive), [createCheckoutSession]
    builds exactly N line-item descriptors; the descriptor of item i has
    [unit_amount = Math.round(price * 100)] and the item's quantity when
    the item has one, else 1.  The handler then asks the gateway for a
    session with these descriptors, unless the gateway has refused the
    coupon; no other session is asked for, and every 200 response follows
    such a request. *)
Theorem createCheckoutSession_line_items :
  forall (req : Request) (w : World) (items : list value),
    field (body req) "products" = VArr items ->
    items <> [] ->
    Forall cart_line_item items ->
    exists (lineItems : list LineItem) (made : list GatewayCall),
      map_result lineItem items = inr lineItems
      /\ List.length lineItems = List.length items
      /\ Forall2 descriptor_of items lineItems
      /\ calls (snd (createCheckoutSession req w)) = (calls w ++ made)%list
      /\ (forall params,
            In (SessionsCreate params) made -> line_items params = lineItems)
      /\ ((exists params,
              In (SessionsCreate params)
                 (calls (snd (createCheckoutSession req w)))
              /\ line_items params = lineItems)
          \/ (exists c e,
                 coupon_found req w = Some c
                 /\ coupons_create (calls w) (discountPercentage c) "once"
                    = inl e))
      /\ (forall r,
            fst (createCheckoutSession req w) = Some r -> status r = 200 ->
            exists params, In (SessionsCreate params) made).
Proof.
  intros req w items Hproducts Hne Hcart.
  assert (Hobjects : Forall cart_item items).
  { eapply Forall_impl; [| exact Hcart]. exact cart_line_item_cart_item. }
  destruct (map_lineItem_cart_items items Hobjects) as [lineItems [Hlines Hdesc]].
  destruct (snapshot_after_lineItems items lineItems Hlines) as [entries Hentries].
  destruct (createCheckoutSession_calls req w items lineItems entries
              Hproducts Hne Hlines Hentries) as [made [Hcalls [Hcarry Hmade]]].
  exists lineItems, made.
  split; [exact Hlines |].
  split; [symmetry; exact (Forall2_length Hdesc) |].
  split.
  { clear - Hcart Hdesc. induction Hdesc as [| p d ps ds Hpd Hrest IH].
    - constructor.
    - inversion Hcart as [| ? ? Hp Hps]; subst.
      constructor; [exact (descriptor_of_cart_line_item p d Hp Hpd) | auto]. }
  split; [exact Hcalls |].
  split; [intros params Hin; exact (proj1 (Hcarry params Hin)) |].
  split; [| exact Hmade].
  exact (createCheckoutSession_asks_for_session req w items lineItems entries
           Hproducts Hne Hlines Hentries).
Qed.

Lemma toUpperCase_length :
  forall str : string, String.length (toUpperCase str) = String.length str.
Proof.
  induction str as [| c str IH]; simpl; [reflexivity | now rewrite IH].
Qed.

Lemma substring_length_le :
  forall (n m : nat) (str : string),
    (String.length (String.substring n m str) <= m)%nat.
Proof.
  intros n m str. revert n m.
  induction str as [| c str IH]; intros n m.
  - destruct n, m; simpl; lia.
  - destruct n as [| n].
    + destruct m as [| m]; simpl; [lia |]. specialize (IH 0%nat m). lia.
    + simpl. apply IH.
Qed.

Lemma substring_length_exact :
  forall (n m : nat) (str : string),
    (n + m <= String.length str)%nat ->
    String.length (String.substring n m str) = m.
Proof.
  intros n m str. revert n m.
  induction str as [| c str IH]; intros n m Hlen.
  - simpl in Hlen. assert (n = 0%nat) by lia. assert (m = 0%nat) by lia.
    subst. reflexivity.
  - destruct n as [| n].
    + destruct m as [| m]; simpl; [reflexivity |].
      rewrite (IH 0%nat m); [reflexivity | simpl in Hlen; lia].
    + simpl. apply IH. simpl in Hlen. lia.
Qed.

(** What [createNewCoupon] always gives the minted coupon: the owner, a
    discount of 10, an expiration 30 days after the clock reading, and a
    code made of [GIFT] and at most six characters, six when the base-36
    rendering of the random draw has at least eight characters. *)
Lemma createNewCoupon_fields :
  forall (u : ObjectId) (w : World),
    exists suffix : string,
      fst (createNewCoupon u w) = inr (minted u w)
      /\ userId (minted u w) = u
      /\ discountPercentage (minted u w) = Number.of_Z 10
      /\ expirationDate (minted u w) = now w + 2592000000
      /\ code (minted u w) = "GIFT" ++ suffix
      /\ (String.length suffix <= 6)%nat
      /\ ((8 <= String.length (toString36 (random w (drawn w))))%nat ->
          String.length suffix = 6%nat).
Proof.
  intros u w.
  exists (toUpperCase (substring 2 8 (toString36 (random w (drawn w))))).
  rewrite createNewCoupon_run, toUpperCase_length. unfold substring. simpl.
  repeat split.
  - apply (substring_length_le 2 6).
  - intros Hlen. apply (substring_length_exact 2 6). simpl. lia.
Qed.

(** C9. When [Math.random()] returns 0.5, whose base-36 rendering is
    [0.i], the coupon [createNewCoupon] mints has the code [GIFTI]: one
    character after [GIFT], not six.  Its owner, discount and expiration
    are as the contract says. *)
Theorem createNewCoupon_short_code :
  forall (u : ObjectId) (w : World),
    random w (drawn w) = one_half ->
    toString36 one_half = "0.i" ->
    exists c : Coupon,
      fst (createNewCoupon u w) = inr c
      /\ code c = "GIFTI"
      /\ String.length (code c) <> (4 + 6)%nat
      /\ userId c = u
      /\ discountPercentage c = Number.of_Z 10
      /\ expirationDate c = now w + 2592000000.
Proof.
  intros u w Hdraw Hrender. exists (minted u w).
  rewrite createNewCoupon_run. unfold minted. simpl.
  rewrite Hdraw, Hrender. simpl.
  repeat split. discriminate.
Qed.

Lemma snapshot_spec :
  forall p e : value, snapshot p = inr e -> snapshot_of p e.
Proof.
  intros p e. unfold snapshot, snapshot_of.
  destruct p; simpl; intros He; try discriminate He;
    injection He as <-; do 3 eexists; repeat split.
Qed.

Lemma map_snapshot_spec :
  forall (items entries : list value),
    map_result snapshot items = inr entries ->
    Forall2 snapshot_of items entries.
Proof.
  induction items as [| p items IH]; intros entries Hmap.
  - injection Hmap as <-. constructor.
  - destruct (map_result_inr_inv _ _ _ _ _ _ Hmap) as [e [es [He [Hes ->]]]].
    constructor; [exact (snapshot_spec p e He) | exact (IH es Hes)].
Qed.

Lemma snapshot_of_id :
  forall p e : value, snapshot_of p e -> get e "id" = get p "_id".
Proof.
  intros p e [id [q [pr [-> [Hid _]]]]]. rewrite Hid. reflexivity.
Qed.

(** From the submitted products to the order lines, through the snapshot
    and its JSON text. *)
Lemma references_through_snapshot :
  forall (items entries parsed : list value) (lines : list OrderLine),
    Forall2 snapshot_of items entries ->
    Forall2 id_survives entries parsed ->
    Forall2 reads_line parsed lines ->
    Forall2 references_id items lines.
Proof.
  intros items entries parsed lines Hsnap. revert parsed lines.
  induction Hsnap as [| p e items entries Hpe _ IH]; intros parsed lines Hkeep Hread.
  - inversion Hkeep; subst. inversion Hread; subst. constructor.
  - inversion Hkeep as [| ? e' ? parsed' Hee' Hkeep']; subst.
    inversion Hread as [| ? l ? lines' Hel Hread']; subst.
    constructor; [| exact (IH parsed' lines' Hkeep' Hread')].
    destruct Hee' as [_ Hid]. destruct Hel as [Hl _].
    assert (Hp : get p "_id" = inr (product l)).
    { rewrite <- (snapshot_of_id p e Hpe), <- Hid. exact Hl. }
    split; [exact Hp |].
    intros props -> Hnone. simpl in Hp. unfold field in Hp. rewrite Hnone in Hp.
    injection Hp as Hp. symmetry. exact Hp.
Qed.

(** C10. The snapshot entry of each submitted product takes its id from
    the product's [_id] (an [id] field is not read), and every session
    creation carries the JSON text of that snapshot.  When a paid session
    holds that text and [JSON.parse] reads it back with the ids written,
    the Order [checkoutSuccess] creates has one line per submitted product,
    whose product id is the [_id] of that product, and [undefined] when the
    product has no [_id]. *)
Theorem order_products_reference_submitted_ids :
  forall (req : Request) (w : World) (items : list value)
         (lineItems : list LineItem),
    field (body req) "products" = VArr items ->
    items <> [] ->
    map_result lineItem items = inr lineItems ->
    exists (entries : list value) (made : list GatewayCall),
      map_result snapshot items = inr entries
      /\ Forall2 (fun p e => get e "id" = get p "_id") items entries
      /\ calls (snd (createCheckoutSession req w)) = (calls w ++ made)%list
      /\ (forall params,
            In (SessionsCreate params) made ->
            meta_products (metadata params) = JSON_stringify (VArr entries))
      /\ (forall (req' : Request) (w' : World) (id : string) (s : Session)
                 (parsed : list value) (total : number),
            field (body req') "sessionId" = VStr id ->
            holds_session w' id s ->
            payment_status s = "paid" ->
            meta s "products" = VStr (JSON_stringify (VArr entries)) ->
            JSON_parse (JSON_stringify (VArr entries)) = inr (VArr parsed) ->
            Forall2 id_survives entries parsed ->
            ToNumber (amount_total s) = inr total ->
            exists o : Order,
              orders (snd (checkoutSuccess req' w')) = (orders w' ++ [o])%list
              /\ Forall2 references_id items (products o)).
Proof.
  intros req w items lineItems Hproducts Hne Hlines.
  destruct (snapshot_after_lineItems items lineItems Hlines) as [entries Hentries].
  pose proof (map_snapshot_spec items entries Hentries) as Hsnap.
  destruct (createCheckoutSession_calls req w items lineItems entries
              Hproducts Hne Hlines Hentries) as [made [Hcalls [Hcarry _]]].
  exists entries, made.
  split; [exact Hentries |].
  split; [exact (Forall2_impl _ snapshot_of_id Hsnap) |].
  split; [exact Hcalls |].
  split; [intros params Hin; exact (proj2 (Hcarry params Hin)) |].
  intros req' w' id s parsed total Hid Hs Hpaid Hmeta Hjson Hkeep Htotal.
  assert (Hreadable : Forall readable parsed).
  { clear - Hkeep. induction Hkeep as [| e e' ? ? [Hr _] _ IH]; constructor; assumption. }
  destruct (map_orderLine_readable parsed Hreadable) as [lines [Hmap Hread]].
  assert (Hparse : parse (meta s "products") = inr (VArr parsed)).
  { rewrite Hmeta. exact Hjson. }
  rewrite (checkoutSuccess_paid_run req' w' id s parsed lines total
             Hid Hs Hpaid Hparse Hmap Htotal).
  eexists. split; [reflexivity |]. simpl.
  exact (references_through_snapshot items entries parsed lines Hsnap Hkeep Hread).
Qed.

End Properties.

(** ** Further properties of the controller *)

Section Further.

Context `{Runtime} `{PaymentGateway}.

Lemma same_string_eq :
  forall (v : value) (str : string), same_string v str = true -> v = VStr str.
Proof.
  intros v str Hsame. destruct v; try discriminate Hsame.
  simpl in Hsame. apply String.eqb_eq in Hsame. now subst.
Qed.

Lemma coupon_found_spec :
  forall (req : Request) (w : World),
    match coupon_found req w with
    | Some c =>
        In c (coupons w)
        /\ isActive c = true
        /\ userId c = user_id req
        /\ field (body req) "couponCode" = VStr (code c)
        /\ code c <> ""
    | None =>
        forall c : Coupon,
          In c (coupons w) ->
          field (body req) "couponCode" = VStr (code c) ->
          code c <> "" ->
          userId c = user_id req ->
          isActive c = false
    end.
Proof.
  intros req w. unfold coupon_found.
  destruct (ToBoolean (field (body req) "couponCode")) eqn:Htruthy.
  - destruct (find _ (coupons w)) as [c |] eqn:Hfind.
    + apply find_some in Hfind. destruct Hfind as [Hin Hmatch].
      unfold matches in Hmatch. simpl in Hmatch.
      apply andb_true_iff in Hmatch. destruct Hmatch as [Hmatch Hactive].
      apply andb_true_iff in Hmatch. destruct Hmatch as [Hcode Huser].
      apply same_string_eq in Hcode. apply String.eqb_eq in Huser.
      split; [exact Hin |].
      split; [destruct (isActive c); [reflexivity | discriminate Hactive] |].
      split; [symmetry; exact Huser |].
      split; [exact Hcode |].
      intros Hempty. rewrite Hcode, Hempty in Htruthy. discriminate Htruthy.
    + intros c Hin Hcode Hne Huser.
      pose proof (find_none _ _ Hfind c Hin) as Hmatch.
      unfold matches in Hmatch. simpl in Hmatch.
      rewrite Hcode, Huser in Hmatch. simpl in Hmatch.
      rewrite !String.eqb_refl in Hmatch. simpl in Hmatch.
      destruct (isActive c); [discriminate Hmatch | reflexivity].
  - intros c Hin Hcode Hne Huser. exfalso.
    rewrite Hcode in Htruthy. simpl in Htruthy.
    destruct (String.eqb_spec (code c) ""); [contradiction | discriminate Htruthy].
Qed.

(** X1. The coupon step of [createCheckoutSession] never throws and leaves
    the world as it was.  The coupon it applies is one of the ledger that
    is active, belongs to the requesting user and has the submitted
    (non-empty) code; when it applies none, every coupon of the user with
    the submitted code is inactive. *)
Theorem apply_coupon_active_owned :
  forall (req : Request) (w : World),
    exists (found : option Coupon) (t : number),
      apply_coupon req (field (body req) "couponCode") zero w = (inr (found, t), w)
      /\ match found with
         | Some c =>
             In c (coupons w)
             /\ isActive c = true
             /\ userId c = user_id req
             /\ field (body req) "couponCode" = VStr (code c)
             /\ code c <> ""
         | None =>
             forall c : Coupon,
               In c (coupons w) ->
               field (body req) "couponCode" = VStr (code c) ->
               code c <> "" ->
               userId c = user_id req ->
               isActive c = false
         end.
Proof.
  intros req w.
  exists (coupon_found req w), (total_after_discount (coupon_found req w)).
  split; [apply apply_coupon_run | apply coupon_found_spec].
Qed.

Lemma coupon_requests_app :
  forall cs ds : list GatewayCall,
    coupon_requests (cs ++ ds) = (coupon_requests cs ++ coupon_requests ds)%list.
Proof.
  intros cs ds. unfold coupon_requests. apply flat_map_app.
Qed.

(** X2. Once the line items are built, [createCheckoutSession] asks the
    gateway for a coupon exactly once when it found a coupon to apply, with
    the percentage of that coupon and the duration [once], and not at all
    when it found none. *)
Theorem createCheckoutSession_coupon_requests :
  forall (req : Request) (w : World) (items : list value)
         (lineItems : list LineItem),
    field (body req) "products" = VArr items ->
    items <> [] ->
    map_result lineItem items = inr lineItems ->
    exists made : list GatewayCall,
      calls (snd (createCheckoutSession req w)) = (calls w ++ made)%list
      /\ coupon_requests made =
           match coupon_found req w with
           | Some c => [(discountPercentage c, "once")]
           | None => []
           end.
Proof.
  intros req w items lineItems Hproducts Hne Hlines.
  destruct (snapshot_after_lineItems items lineItems Hlines) as [entries Hentries].
  rewrite (createCheckoutSession_run req w items lineItems entries
             Hproducts Hne Hlines Hentries).
  unfold session_step.
  destruct (coupon_found req w) as [c |]; simpl.
  - destruct (coupons_create _ _ _) as [e | id]; simpl.
    + exists [CouponsCreate (discountPercentage c) "once"]. split; reflexivity.
    + exists [CouponsCreate (discountPercentage c) "once";
              SessionsCreate (session_request req lineItems [id] entries)].
      split; [| reflexivity].
      destruct (sessions_create _ _); simpl; rewrite <- app_assoc; reflexivity.
  - exists [SessionsCreate (session_request req lineItems [] entries)].
    split; [| reflexivity].
    destruct (sessions_create _ _); reflexivity.
Qed.

Lemma lineItem_unreadable :
  forall p : value, unreadable p -> exists e, lineItem p = inl e.
Proof.
  intros p [-> | ->]; eexists; reflexivity.
Qed.

Lemma map_lineItem_unreadable :
  forall items : list value,
    Exists unreadable items -> exists e, map_result lineItem items = inl e.
Proof.
  induction items as [| p items IH]; intros Hex.
  - inversion Hex.
  - simpl. destruct (lineItem p) as [e | d] eqn:Hp.
    + exists e. reflexivity.
    + simpl. inversion Hex as [? ? Hbad | ? ? Hrest]; subst.
      * destruct (lineItem_unreadable p Hbad) as [e He]. congruence.
      * destruct (IH Hrest) as [e He]. exists e. rewrite He. reflexivity.
Qed.

(** X3. A products array that holds [null] or [undefined] is answered with
    status 500 and the message of the exception, before any effect: no
    call reaches the gateway and the world is left as it was. *)
Theorem createCheckoutSession_unreadable_item :
  forall (req : Request) (w : World) (items : list value),
    field (body req) "products" = VArr items ->
    Exists unreadable items ->
    exists e : exn,
      createCheckoutSession req w =
        (Some {| status := 500;
                 json := VObj [("message", VStr "Error processing checkout");
                               ("error", VStr (message e))] |},
         w).
Proof.
  intros req w items Hproducts Hex.
  destruct (map_lineItem_unreadable items Hex) as [e He].
  exists e.
  exact (createCheckoutSession_lineItems_throw req w items e Hproducts He).
Qed.

(** X4. [createCheckoutSession] always answers, with 200, 400 or 500; it
    stores a session exactly when it answers 200, and the 200 response
    carries the id of that session; it never writes an Order. *)
Theorem createCheckoutSession_outcomes :
  forall (req : Request) (w : World),
    orders (snd (createCheckoutSession req w)) = orders w
    /\ ((exists s : Session,
           fst (createCheckoutSession req w) =
             Some (session_created s (total_after_discount (coupon_found req w)))
           /\ sessions (snd (createCheckoutSession req w)) =
                (sessions w ++ [s])%list)
        \/ ((fst (createCheckoutSession req w) = Some products_rejected
             \/ exists e, fst (createCheckoutSession req w) = Some (checkout_failed e))
            /\ sessions (snd (createCheckoutSession req w)) = sessions w)).
Proof.
  intros req w.
  split; [exact (proj1 (proj2 (createCheckoutSession_frame req w))) |].
  destruct (products_cases (field (body req) "products"))
    as [Hinvalid | [items [Hproducts Hne]]].
  - rewrite (createCheckoutSession_invalid_products_run req w Hinvalid).
    right. split; [left |]; reflexivity.
  - destruct (map_result lineItem items) as [e | lineItems] eqn:Hlines.
    + rewrite (createCheckoutSession_lineItems_throw req w items e Hproducts Hlines).
      right. split; [right; exists e |]; reflexivity.
    + destruct (snapshot_after_lineItems items lineItems Hlines) as [entries Hentries].
      rewrite (createCheckoutSession_run req w items lineItems entries
                 Hproducts Hne Hlines Hentries).
      unfold session_step.
      destruct (coupon_found req w) as [c |]; simpl.
      * destruct (coupons_create _ _ _) as [e | id]; simpl.
        { right. split; [right; exists e |]; reflexivity. }
        destruct (sessions_create _ _) as [e | s]; simpl.
        { right. split; [right; exists e |]; reflexivity. }
        left. exists s. split; reflexivity.
      * destruct (sessions_create _ _) as [e | s]; simpl.
        { right. split; [right; exists e |]; reflexivity. }
        left. exists s. split; reflexivity.
Qed.

(** [checkoutSuccess] runs as [reconciliation] describes. *)
Lemma checkoutSuccess_reconciliation :
  forall (req : Request) (w : World),
    checkoutSuccess req w = reconciliation req w.
Proof.
  intros req w. unfold checkoutSuccess, reconciliation, try_catch, bind.
  unfold stripe_sessions_retrieve at 1. simpl fst.
  destruct (match field (body req) "sessionId" with VStr _ => _ | _ => _ end)
    as [e | s]; [reflexivity |].
  destruct (String.eqb (payment_status s) "paid"); [| reflexivity].
  unfold order_lines, deactivated, Coupon_findOneAndUpdate, lift, throw,
    new_ObjectId, Order_save, ret, bind_result.
  destruct (ToBoolean (meta s "couponCode")).
  - destruct (parse (meta s "products")) as [e | parsed]; [reflexivity |].
    destruct parsed as [| | b | n | str | items | props]; try reflexivity.
    destruct (map_result orderLine items) as [e | lines]; [reflexivity |].
    destruct (ToNumber (amount_total s)) as [e | total]; reflexivity.
  - destruct (parse (meta s "products")) as [e | parsed]; [reflexivity |].
    destruct parsed as [| | b | n | str | items | props]; try reflexivity.
    destruct (map_result orderLine items) as [e | lines]; [reflexivity |].
    destruct (ToNumber (amount_total s)) as [e | total]; reflexivity.
Qed.

Lemma checkoutSuccess_one_retrieval_run :
  forall (req : Request) (w : World),
    calls (snd (checkoutSuccess req w)) =
      (calls w ++ [SessionsRetrieve (field (body req) "sessionId")])%list
    /\ sessions (snd (checkoutSuccess req w)) = sessions w.
Proof.
  intros req w. rewrite checkoutSuccess_reconciliation. unfold reconciliation.
  destruct (fst (stripe_sessions_retrieve _ w)) as [e | s]; [split; reflexivity |].
  destruct (String.eqb (payment_status s) "paid"); [| split; reflexivity].
  destruct (order_lines s) as [e | lines]; [split; reflexivity |].
  destruct (ToNumber (amount_total s)) as [e | total]; split; reflexivity.
Qed.

(** X5. Whatever the request, [checkoutSuccess] makes exactly one call to
    the gateway, the retrieval of the session id it was given, and leaves
    the sessions of the gateway as they were. *)
Theorem checkoutSuccess_one_retrieval :
  forall (req : Request) (w : World),
    calls (snd (checkoutSuccess req w)) =
      (calls w ++ [SessionsRetrieve (field (body req) "sessionId")])%list
    /\ sessions (snd (checkoutSuccess req w)) = sessions w.
Proof.
  intros req w. rewrite checkoutSuccess_reconciliation. unfold reconciliation.
  destruct (fst (stripe_sessions_retrieve _ w)) as [e | s]; [split; reflexivity |].
  destruct (String.eqb (payment_status s) "paid"); [| split; reflexivity].
  destruct (order_lines s) as [e | lines]; [split; reflexivity |].
  destruct (ToNumber (amount_total s)) as [e | total]; split; reflexivity.
Qed.

(** X6. [checkoutSuccess] inserts an Order exactly when it answers 200:
    then one Order is appended, it carries the session id of the request
    and the response carries its id; otherwise the Order collection is as
    it was and the response is a 500 or is not sent. *)
Theorem checkoutSuccess_order_iff_ok :
  forall (req : Request) (w : World),
    (exists o : Order,
       fst (checkoutSuccess req w) = Some (order_created (order_id o))
       /\ orders (snd (checkoutSuccess req w)) = (orders w ++ [o])%list
       /\ stripeSessionId o = field (body req) "sessionId")
    \/ (orders (snd (checkoutSuccess req w)) = orders w
        /\ (fst (checkoutSuccess req w) = None
            \/ exists e, fst (checkoutSuccess req w) = Some (reconciliation_failed e))).
Proof.
  intros req w. rewrite checkoutSuccess_reconciliation. unfold reconciliation.
  destruct (fst (stripe_sessions_retrieve _ w)) as [e | s].
  { right. split; [reflexivity | right; exists e; reflexivity]. }
  destruct (String.eqb (payment_status s) "paid").
  2: { right. split; [reflexivity | left; reflexivity]. }
  destruct (order_lines s) as [e | lines].
  { right. split; [reflexivity | right; exists e; reflexivity]. }
  destruct (ToNumber (amount_total s)) as [e | total].
  { right. split; [reflexivity | right; exists e; reflexivity]. }
  left.
  exists {| order_id := ObjectId_of_nat (created w);
            user := meta s "userId";
            products := lines;
            totalAmount := Number.div total num_100;
            stripeSessionId := field (body req) "sessionId" |}.
  split; [reflexivity |]. split; reflexivity.
Qed.

(** X7. When the gateway holds no session of the given id, [checkoutSuccess]
    answers 500 with the message of the gateway error; both collections
    are as they were. *)
Theorem checkoutSuccess_unknown_session :
  forall (req : Request) (w : World) (id : string),
    field (body req) "sessionId" = VStr id ->
    find (fun x => String.eqb (session_id x) id) (sessions w) = None ->
    exists e : exn,
      fst (checkoutSuccess req w) =
        Some {| status := 500;
                json := VObj [("message",
                               VStr "Error processing successful checkout");
                              ("error", VStr (message e))] |}
      /\ orders (snd (checkoutSuccess req w)) = orders w
      /\ coupons (snd (checkoutSuccess req w)) = coupons w.
Proof.
  intros req w id Hid Hnone. rewrite checkoutSuccess_reconciliation.
  unfold reconciliation, stripe_sessions_retrieve. rewrite Hid. simpl fst.
  rewrite Hnone. eexists. repeat split.
Qed.

(** X8. When the session is paid but its order lines cannot be read (the
    snapshot does not parse, is not an array or holds [null]),
    [checkoutSuccess] answers 500 without inserting an Order, after the
    coupon step has been run: the coupon matched by the code and the user
    of the metadata is already inactive. *)
Theorem checkoutSuccess_unreadable_snapshot :
  forall (req : Request) (w : World) (id : string) (s : Session) (e : exn),
    field (body req) "sessionId" = VStr id ->
    holds_session w id s ->
    payment_status s = "paid" ->
    order_lines s = inl e ->
    fst (checkoutSuccess req w) = Some (reconciliation_failed e)
    /\ orders (snd (checkoutSuccess req w)) = orders w
    /\ coupons (snd (checkoutSuccess req w)) = deactivated s (coupons w)
    /\ (forall (X u : string) (c : Coupon),
          meta s "couponCode" = VStr X ->
          X <> "" ->
          meta s "userId" = VStr u ->
          find (matches (of_code_and_user (VStr X) (VStr u))) (coupons w) = Some c ->
          find (matches (of_code_and_user (VStr X) (VStr u)))
               (coupons (snd (checkoutSuccess req w)))
            = Some (set_isActive false c)).
Proof.
  intros req w id s e Hid Hs Hpaid Hlines.
  rewrite checkoutSuccess_reconciliation. unfold reconciliation.
  rewrite Hid, (retrieve_held w id s Hs). cbn [fst].
  rewrite Hpaid, String.eqb_refl. cbv zeta. rewrite Hlines.
  split; [reflexivity |]. split; [reflexivity |]. split; [reflexivity |].
  intros X u c HX Hne Hu Hfind.
  unfold deactivated. rewrite HX, Hu. simpl.
  destruct (String.eqb_spec X "") as [Heq | _]; [contradiction |]. simpl.
  apply update_first_found; [reflexivity | exact Hfind].
Qed.

Lemma checkoutSuccess_ledger_exact :
  forall (req : Request) (w : World),
    coupons (snd (checkoutSuccess req w)) = ledger_after_reconciliation req w.
Proof.
  intros req w. rewrite checkoutSuccess_reconciliation.
  unfold reconciliation, ledger_after_reconciliation, stripe_sessions_retrieve.
  simpl fst.
  destruct (field (body req) "sessionId") as [| | b | n | id | items | props];
    try reflexivity.
  destruct (find _ (sessions w)) as [s |]; [| reflexivity].
  destruct (String.eqb (payment_status s) "paid"); [| reflexivity].
  destruct (order_lines s) as [e | lines]; [reflexivity |].
  destruct (ToNumber (amount_total s)) as [e | total]; reflexivity.
Qed.

Lemma set_isActive_twice :
  forall (b : bool) (c : Coupon), set_isActive b (set_isActive b c) = set_isActive b c.
Proof.
  intros b c. reflexivity.
Qed.

Lemma update_first_twice :
  forall (f : Filter) (b : bool) (cs : list Coupon),
    by_isActive f = None ->
    update_first f b (update_first f b cs) = update_first f b cs.
Proof.
  intros f b cs Hf. induction cs as [| c cs IH]; simpl.
  - reflexivity.
  - destruct (matches f c) eqn:Hm; simpl.
    + rewrite (matches_set_isActive f b c Hf), Hm. reflexivity.
    + rewrite Hm, IH. reflexivity.
Qed.

Lemma deactivated_twice :
  forall (s : Session) (cs : list Coupon),
    deactivated s (deactivated s cs) = deactivated s cs.
Proof.
  intros s cs. unfold deactivated.
  destruct (ToBoolean (meta s "couponCode")); [| reflexivity].
  apply update_first_twice. reflexivity.
Qed.

(** X9. On the coupon ledger [checkoutSuccess] is idempotent: a second run
    of the same request leaves the ledger as the first run left it. *)
Theorem checkoutSuccess_ledger_idempotent :
  forall (req : Request) (w : World),
    coupons (snd (checkoutSuccess req (snd (checkoutSuccess req w)))) =
      coupons (snd (checkoutSuccess req w)).
Proof.
  intros req w.
  rewrite (checkoutSuccess_ledger_exact req (snd (checkoutSuccess req w))).
  unfold ledger_after_reconciliation at 1.
  rewrite (proj2 (checkoutSuccess_one_retrieval_run req w)).
  rewrite !(checkoutSuccess_ledger_exact req w).
  unfold ledger_after_reconciliation.
  destruct (field (body req) "sessionId") as [| | b | n | id | items | props];
    try reflexivity.
  destruct (find _ (sessions w)) as [s |]; [| reflexivity].
  destruct (String.eqb (payment_status s) "paid"); [| reflexivity].
  apply deactivated_twice.
Qed.

Lemma update_first_pointwise :
  forall (f : Filter) (cs : list Coupon),
    Forall2 (fun c c' => c' = c \/ c' = set_isActive false c)
            cs (update_first f false cs).
Proof.
  intros f. induction cs as [| c cs IH]; simpl.
  - constructor.
  - destruct (matches f c).
    + constructor; [right; reflexivity |].
      clear IH. induction cs as [| c0 cs IH0]; constructor; [left; reflexivity | exact IH0].
    + constructor; [left; reflexivity | exact IH].
Qed.

Lemma Forall2_same :
  forall cs : list Coupon,
    Forall2 (fun c c' => c' = c \/ c' = set_isActive false c) cs cs.
Proof.
  induction cs as [| c cs IH]; constructor; [left; reflexivity | exact IH].
Qed.

(** X10. [checkoutSuccess] never creates, deletes, reorders or activates a
    coupon: each coupon of the ledger is afterwards as it was, or as it was
    with [isActive] set to [false]. *)
Theorem checkoutSuccess_only_deactivates :
  forall (req : Request) (w : World),
    Forall2 (fun c c' => c' = c \/ c' = set_isActive false c)
            (coupons w) (coupons (snd (checkoutSuccess req w))).
Proof.
  intros req w.
  destruct (checkoutSuccess_ledger req w) as [-> | [f ->]].
  - apply Forall2_same.
  - apply update_first_pointwise.
Qed.

Lemma owned_by_nil_not_owned :
  forall (u : ObjectId) (cs : list Coupon) (c : Coupon),
    owned_by u cs = [] -> In c cs -> String.eqb (userId c) u = false.
Proof.
  intros u cs c Hnil Hin. unfold owned_by in Hnil.
  destruct (String.eqb (userId c) u) eqn:Hc; [| reflexivity].
  assert (Hf : In c (filter (fun c0 => String.eqb (userId c0) u) cs)).
  { apply filter_In. split; assumption. }
  rewrite Hnil in Hf. contradiction.
Qed.

Lemma find_none_of_user :
  forall (f : Filter) (u : ObjectId) (cs : list Coupon),
    by_userId f = Some (VStr u) ->
    owned_by u cs = [] ->
    find (matches f) cs = None.
Proof.
  intros f u cs Hf Hnil.
  destruct (find (matches f) cs) as [c |] eqn:Hfind; [| reflexivity].
  apply find_some in Hfind. destruct Hfind as [Hin Hmatch].
  pose proof (owned_by_nil_not_owned u cs c Hnil Hin) as Hc.
  unfold matches in Hmatch. rewrite Hf in Hmatch. simpl in Hmatch.
  rewrite String.eqb_sym, Hc in Hmatch.
  rewrite andb_false_r in Hmatch. discriminate Hmatch.
Qed.

(** After the deactivation by code and user, a ledger with at most one
    coupon of the user holds no active coupon of that code and user. *)
Lemma update_first_none_active :
  forall (X u : string) (cs : list Coupon),
    (List.length (owned_by u cs) <= 1)%nat ->
    find (matches {| by_code := Some (VStr X); by_userId := Some (VStr u);
                     by_isActive := Some true |})
         (update_first (of_code_and_user (VStr X) (VStr u)) false cs) = None.
Proof.
  intros X u. induction cs as [| c cs IH]; intros Hlen.
  - reflexivity.
  - simpl. destruct (matches (of_code_and_user (VStr X) (VStr u)) c) eqn:Hm.
    + assert (Hu : String.eqb (userId c) u = true).
      { unfold matches in Hm. simpl in Hm.
        apply andb_true_iff in Hm. destruct Hm as [Hm _].
        apply andb_true_iff in Hm. destruct Hm as [_ Hm].
        rewrite String.eqb_sym. exact Hm. }
      simpl. unfold matches at 1. simpl.
      rewrite andb_false_r.
      apply (find_none_of_user _ u); [reflexivity |].
      unfold owned_by in Hlen |- *. simpl in Hlen. rewrite Hu in Hlen.
      simpl in Hlen.
      destruct (filter _ cs) as [| c' rest]; [reflexivity | simpl in Hlen; lia].
    + simpl.
      assert (Hm' : matches {| by_code := Some (VStr X); by_userId := Some (VStr u);
                               by_isActive := Some true |} c = false).
      { unfold matches in Hm |- *. simpl in Hm |- *.
        rewrite andb_true_r in Hm. rewrite Hm. reflexivity. }
      rewrite Hm'. apply IH.
      unfold owned_by in Hlen |- *. simpl in Hlen.
      destruct (String.eqb (userId c) u); simpl in Hlen; lia.
Qed.

(** X11. A coupon used for a paid session is not applied again: when the
    ledger has at most one coupon per user, after [checkoutSuccess] on a
    paid session with the coupon code [X] and the user [u], a checkout of
    [u] with the code [X] finds no coupon. *)
Theorem used_coupon_not_found_again :
  forall (req : Request) (w : World) (id : string) (s : Session)
         (X u : string) (checkout : Request),
    field (body req) "sessionId" = VStr id ->
    holds_session w id s ->
    payment_status s = "paid" ->
    meta s "couponCode" = VStr X ->
    X <> "" ->
    meta s "userId" = VStr u ->
    one_coupon_per_user (coupons w) ->
    user_id checkout = u ->
    field (body checkout) "couponCode" = VStr X ->
    apply_coupon checkout (field (body checkout) "couponCode") zero
                 (snd (checkoutSuccess req w)) =
      (inr (None, zero), snd (checkoutSuccess req w)).
Proof.
  intros req w id s X u checkout Hid Hs Hpaid HX Hne Hu Hinv Huser Hcode.
  rewrite apply_coupon_run.
  assert (Hnone : coupon_found checkout (snd (checkoutSuccess req w)) = None).
  { unfold coupon_found. rewrite Hcode, Huser.
    rewrite (checkoutSuccess_ledger_exact req w).
    unfold ledger_after_reconciliation. rewrite Hid.
    unfold holds_session in Hs. rewrite Hs, Hpaid, String.eqb_refl.
    unfold deactivated. rewrite HX, Hu.
    simpl ToBoolean.
    destruct (String.eqb_spec X "") as [Heq | _]; [contradiction |]. simpl negb.
    cbv iota. apply update_first_none_active. apply Hinv. }
  rewrite Hnone. reflexivity.
Qed.

Lemma find_app_none :
  forall (A : Type) (f : A -> bool) (l l' : list A),
    find f l = None -> find f (l ++ l') = find f l'.
Proof.
  intros A f l l'. induction l as [| a l IH]; simpl.
  - reflexivity.
  - destruct (f a); [discriminate | exact IH].
Qed.

(** X12. A minted coupon can be applied: when the ledger has at most one
    coupon per user, after [createNewCoupon] for [u] a checkout of [u] with
    the code of the minted coupon finds that coupon, and discounts the
    total 0 to 0. *)
Theorem minted_coupon_is_found :
  forall (u : ObjectId) (w : World) (checkout : Request),
    one_coupon_per_user (coupons w) ->
    user_id checkout = u ->
    field (body checkout) "couponCode" = VStr (code (minted u w)) ->
    apply_coupon checkout (field (body checkout) "couponCode") zero
                 (snd (createNewCoupon u w)) =
      (inr (Some (minted u w), zero), snd (createNewCoupon u w)).
Proof.
  intros u w checkout Hinv Huser Hcode.
  rewrite apply_coupon_run.
  assert (Hfound : coupon_found checkout (snd (createNewCoupon u w)) =
                   Some (minted u w)).
  { unfold coupon_found. rewrite Hcode, Huser, createNewCoupon_run.
    simpl ToBoolean. simpl negb. cbv iota. simpl coupons.
    rewrite find_app_none.
    - simpl. unfold matches. simpl. rewrite !String.eqb_refl. reflexivity.
    - apply (find_none_of_user _ u); [reflexivity |].
      apply delete_first_owner. apply Hinv. }
  rewrite Hfound. reflexivity.
Qed.

(** X13. [createNewCoupon] for [u] touches nothing but the coupons of [u]:
    the coupons of any other user, the Orders, the sessions and the calls
    made to the gateway are as they were; it creates one document and
    draws one random number. *)
Theorem createNewCoupon_frame :
  forall (u v : ObjectId) (w : World),
    u <> v ->
    owned_by v (coupons (snd (createNewCoupon u w))) = owned_by v (coupons w)
    /\ orders (snd (createNewCoupon u w)) = orders w
    /\ sessions (snd (createNewCoupon u w)) = sessions w
    /\ calls (snd (createNewCoupon u w)) = calls w
    /\ created (snd (createNewCoupon u w)) = S (created w)
    /\ drawn (snd (createNewCoupon u w)) = S (drawn w).
Proof.
  intros u v w Huv. rewrite createNewCoupon_run. simpl.
  rewrite owned_by_app, (delete_first_others u v (coupons w) Huv).
  assert (Hnone : owned_by v [minted u w] = []).
  { unfold owned_by. simpl.
    destruct (String.eqb_spec u v); [contradiction | reflexivity]. }
  rewrite Hnone, app_nil_r. repeat split.
Qed.

Lemma Forall2_combine :
  forall (A B C : Type) (R1 : A -> B -> Prop) (R2 : A -> C -> Prop)
         (l : list A) (bs : list B) (cs : list C),
    Forall2 R1 l bs ->
    Forall2 R2 l cs ->
    Forall2 (fun a bc => R1 a (fst bc) /\ R2 a (snd bc)) l (combine bs cs).
Proof.
  intros A B C R1 R2 l bs cs H1. revert cs.
  induction H1 as [| a b l bs Hab _ IH]; intros cs H2.
  - inversion H2; subst. constructor.
  - inversion H2 as [| ? c ? cs' Hac H2']; subst. simpl.
    constructor; [split; assumption | exact (IH cs' H2')].
Qed.

Lemma truthy_one : ToBoolean (VNum num_1) = true.
Proof. reflexivity. Qed.

(** X14. What is charged and what is recorded can differ: for each cart
    item the snapshot entry has the quantity and the price of the request
    as they were sent, while the line item of the gateway has the quantity
    [quantity || 1]; for an item whose quantity is missing, 0 or otherwise
    falsy, the gateway is asked for one unit and the snapshot does not say
    one.  Every session creation carries both lists. *)
Theorem charged_quantity_and_snapshot :
  forall (req : Request) (w : World) (items : list value),
    field (body req) "products" = VArr items ->
    items <> [] ->
    Forall cart_item items ->
    exists (lineItems : list LineItem) (entries : list value)
           (made : list GatewayCall),
      calls (snd (createCheckoutSession req w)) = (calls w ++ made)%list
      /\ (forall params,
            In (SessionsCreate params) made ->
            line_items params = lineItems
            /\ meta_products (metadata params) = JSON_stringify (VArr entries))
      /\ Forall2 (fun p de => charged_and_recorded p (fst de) (snd de))
                 items (combine lineItems entries).
Proof.
  intros req w items Hproducts Hne Hcart.
  destruct (map_lineItem_cart_items items Hcart) as [lineItems [Hlines Hdesc]].
  destruct (snapshot_after_lineItems items lineItems Hlines) as [entries Hentries].
  pose proof (map_snapshot_spec items entries Hentries) as Hsnap.
  destruct (createCheckoutSession_calls req w items lineItems entries
              Hproducts Hne Hlines Hentries) as [made [Hcalls [Hcarry _]]].
  exists lineItems, entries, made.
  split; [exact Hcalls |]. split; [exact Hcarry |].
  apply (Forall2_impl _ (R1 := fun p de => describes p (fst de) /\ snapshot_of p (snd de))).
  2: exact (Forall2_combine _ _ _ _ _ _ _ _ Hdesc Hsnap).
  intros p [d e] [[props [n [-> [_ [_ Hq]]]]] [id [q [pr [-> [_ [Hquantity Hprice]]]]]]].
  simpl fst in *. simpl snd in *.
  intros props' Heq. injection Heq as <-.
  simpl in Hquantity, Hprice. injection Hquantity as <-. injection Hprice as <-.
  split; [reflexivity |]. split; [reflexivity |].
  split; [exact Hq |].
  intros Hfalsy. rewrite Hfalsy in Hq. split; [exact Hq |].
  rewrite Hq. intros Heq. injection Heq as Heq.
  change (field props "quantity" = VNum num_1) in Heq.
  rewrite Heq, truthy_one in Hfalsy. discriminate Hfalsy.
Qed.

End Further.

(** ** The cart store *)

Section CartProperties.

Import Browser.
Import CartStore.

Context `{Runtime} `{Browser}.

Ltac run_action :=
  unfold run, addToCart, removeFromCart, updateQuantity, getMyCoupon,
         applyCoupon, removeCoupon, getCartItems, clearCart, calculateTotals,
         and_then, attempt, set_state, of_result, request, toast, get_state,
         raise, done;
  cbn [fst snd store toasts sent].

(** *** Objects *)

Lemma lookup_set_prop_other (k k' : string) (v : value) (props : list (string * value)) :
  k' <> k -> lookup k' (set_prop k v props) = lookup k' props.
Proof.
  intros Hne. induction props as [| [a b] rest IH]; simpl.
  - destruct (String.eqb k' k) eqn:E; [apply String.eqb_eq in E; congruence | reflexivity].
  - destruct (String.eqb k a) eqn:Eka; simpl.
    + apply String.eqb_eq in Eka. subst a.
      destruct (String.eqb k' k) eqn:E;
        [apply String.eqb_eq in E; congruence | reflexivity].
    + destruct (String.eqb k' a); auto.
Qed.

Lemma lookup_set_prop_same (k : string) (v : value) (props : list (string * value)) :
  lookup k (set_prop k v props) = Some v.
Proof.
  induction props as [| [a b] rest IH]; simpl.
  - now rewrite String.eqb_refl.
  - destruct (String.eqb k a) eqn:Eka; simpl; rewrite Eka; auto.
Qed.

Lemma with_quantity_set_prop (q : value) (props : list (string * value)) :
  with_quantity q (VObj props) (VObj (set_prop "quantity" q props)).
Proof.
  split.
  - simpl. unfold field. now rewrite lookup_set_prop_same.
  - intros k Hk. simpl. unfold field. now rewrite lookup_set_prop_other.
Qed.

(** *** Ids *)

Lemma id_of_inv (item : value) (id : string) :
  id_of item = Some id ->
  exists props, item = VObj props /\ field props "_id" = VStr id.
Proof.
  destruct item as [| | b | n | s | items | props]; simpl; try discriminate.
  destruct (field props "_id") eqn:E; try discriminate.
  intros Heq. injection Heq as <-. eauto.
Qed.

Lemma id_of_set_quantity (q : value) (item : value) (id : string) :
  id_of item = Some id ->
  id_of (VObj (set_prop "quantity" q (own_props item))) = Some id.
Proof.
  intros Hid. destruct (id_of_inv _ _ Hid) as (props & -> & Hfield).
  simpl. unfold field in *. rewrite lookup_set_prop_other by discriminate.
  destruct (lookup "_id" props) as [v |]; [| discriminate].
  now rewrite Hfield.
Qed.

Lemma ids_of_items_cons (item : value) (items : list value) (ids : list string) :
  ids_of_items (item :: items) = Some ids ->
  exists id rest,
    ids = id :: rest /\ id_of item = Some id /\ ids_of_items items = Some rest.
Proof.
  simpl. destruct (id_of item) as [id |]; [| discriminate].
  destruct (ids_of_items items) as [rest |]; [| discriminate].
  intros Heq. injection Heq as <-. eauto.
Qed.

Lemma ids_of_items_app (items : list value) (ids : list string) (item : value) (id : string) :
  ids_of_items items = Some ids ->
  id_of item = Some id ->
  ids_of_items (items ++ [item])%list = Some (ids ++ [id])%list.
Proof.
  revert ids. induction items as [| x items IH]; intros ids Hids Hid.
  - injection Hids as <-. simpl. now rewrite Hid.
  - destruct (ids_of_items_cons _ _ _ Hids) as (i & rest & -> & Hx & Hrest).
    simpl. rewrite Hx, (IH rest Hrest Hid). reflexivity.
Qed.

Lemma item_with_absent (pid : string) (items : list value) (ids : list string) :
  ids_of_items items = Some ids ->
  (item_with pid items = None <-> ~ In pid ids).
Proof.
  revert ids. induction items as [| x items IH]; intros ids Hids.
  - injection Hids as <-. simpl. tauto.
  - destruct (ids_of_items_cons _ _ _ Hids) as (i & rest & -> & Hx & Hrest).
    simpl. rewrite Hx. destruct (String.eqb pid i) eqn:E.
    + apply String.eqb_eq in E. subst i. split; [discriminate | tauto].
    + apply String.eqb_neq in E. rewrite (IH rest Hrest).
      split; [intros Hn [Heq | Hin]; congruence || tauto | tauto].
Qed.

Lemma item_with_id (pid : string) (items : list value) (item : value) :
  item_with pid items = Some item -> id_of item = Some pid.
Proof.
  induction items as [| x items IH]; simpl; [discriminate |].
  destruct (id_of x) as [i |] eqn:Hx; auto.
  destruct (String.eqb pid i) eqn:E; auto.
  apply String.eqb_eq in E. subst i. intros Heq. now injection Heq as <-.
Qed.

Lemma get_id (item : value) (id : string) :
  id_of item = Some id -> get item "_id" = inr (VStr id).
Proof.
  intros Hid. destruct (id_of_inv _ _ Hid) as (props & -> & Hfield).
  simpl. now rewrite Hfield.
Qed.

(** *** The three updaters *)

Lemma same_product_ids (product item : value) (pid id : string) :
  id_of product = Some pid ->
  id_of item = Some id ->
  same_product product item = inr (String.eqb pid id).
Proof.
  intros Hp Hi.
  destruct (id_of_inv _ _ Hp) as (pprops & -> & Hpf).
  destruct (id_of_inv _ _ Hi) as (props & -> & Hf).
  unfold same_product. simpl. rewrite Hpf, Hf. simpl.
  now rewrite String.eqb_sym.
Qed.

Lemma find_same_product (product : value) (pid : string) (items : list value) (ids : list string) :
  id_of product = Some pid ->
  ids_of_items items = Some ids ->
  find_result (same_product product) items = inr (item_with pid items).
Proof.
  intros Hp. revert ids. induction items as [| x items IH]; intros ids Hids.
  - reflexivity.
  - destruct (ids_of_items_cons _ _ _ Hids) as (i & rest & -> & Hx & Hrest).
    simpl. rewrite (same_product_ids _ _ _ _ Hp Hx), Hx. simpl.
    destruct (String.eqb pid i); eauto.
Qed.

Lemma map_result_ids (f : value -> result value) (items items' : list value) (ids : list string) :
  (forall item item' id,
      f item = inr item' -> id_of item = Some id -> id_of item' = Some id) ->
  map_result f items = inr items' ->
  ids_of_items items = Some ids ->
  ids_of_items items' = Some ids.
Proof.
  intros Hf. revert items' ids.
  induction items as [| x items IH]; intros items' ids Hmap Hids.
  - injection Hmap as <-. exact Hids.
  - destruct (ids_of_items_cons _ _ _ Hids) as (i & rest & -> & Hx & Hrest).
    simpl in Hmap. destruct (f x) as [e | x'] eqn:Hfx; [discriminate |].
    simpl in Hmap.
    destruct (map_result f items) as [e | xs'] eqn:Hxs; [discriminate |].
    injection Hmap as <-. simpl.
    now rewrite (Hf _ _ _ Hfx Hx), (IH xs' rest eq_refl Hrest).
Qed.

Lemma one_more_id (product item item' : value) (id : string) :
  one_more product item = inr item' ->
  id_of item = Some id ->
  id_of item' = Some id.
Proof.
  unfold one_more. intros Hone Hid.
  destruct (same_product product item) as [e | [|]]; simpl in Hone;
    try discriminate.
  - destruct (get item "quantity") as [e | q]; [discriminate |]. simpl in Hone.
    destruct (add_one q) as [e | q']; [discriminate |].
    injection Hone as <-. now apply id_of_set_quantity.
  - now injection Hone as <-.
Qed.

Lemma requantified_id (productId quantity item item' : value) (id : string) :
  requantified productId quantity item = inr item' ->
  id_of item = Some id ->
  id_of item' = Some id.
Proof.
  unfold requantified. intros Hre Hid.
  destruct (get item "_id") as [e | a]; [discriminate |]. simpl in Hre.
  destruct (strict_equal a productId); injection Hre as <-; auto.
  now apply id_of_set_quantity.
Qed.

Lemma filter_result_ids (f : value -> result bool) (items kept : list value) (ids : list string) :
  filter_result f items = inr kept ->
  ids_of_items items = Some ids ->
  exists ids',
    ids_of_items kept = Some ids'
    /\ (forall id, In id ids' -> In id ids)
    /\ (NoDup ids -> NoDup ids').
Proof.
  revert kept ids. induction items as [| x items IH]; intros kept ids Hf Hids.
  - injection Hf as <-. injection Hids as <-. exists []. auto.
  - destruct (ids_of_items_cons _ _ _ Hids) as (i & rest & -> & Hx & Hrest).
    simpl in Hf. destruct (f x) as [e | b]; [discriminate |]. simpl in Hf.
    destruct (filter_result f items) as [e | kept'] eqn:Hk; [discriminate |].
    injection Hf as <-.
    destruct (IH kept' rest eq_refl Hrest) as (ids' & Hids' & Hsub & Hnd).
    destruct b.
    + exists (i :: ids'). simpl. rewrite Hx, Hids'. split; [reflexivity |].
      split.
      * intros id [-> | Hin]; simpl; auto.
      * intros Hno. inversion Hno as [| ? ? Hni Hrestnd]; subst.
        constructor; auto.
    + exists ids'. split; [exact Hids' |]. split.
      * intros id Hin. simpl. auto.
      * intros Hno. inversion Hno; auto.
Qed.

Lemma added_unique (product c c' : value) :
  id_of product <> None ->
  unique_ids c ->
  added product c = inr c' ->
  unique_ids c'.
Proof.
  intros Hp (ids & Hids & Hnd) Hadd.
  destruct (id_of product) as [pid |] eqn:Hpid; [| congruence].
  destruct c as [| | b | n | s | items | props]; try discriminate.
  simpl in Hids. unfold added in Hadd. simpl in Hadd.
  rewrite (find_same_product _ _ _ _ Hpid Hids) in Hadd. simpl in Hadd.
  destruct (item_with pid items) as [item |] eqn:Hitem.
  - destruct (id_of_inv _ _ (item_with_id _ _ _ Hitem)) as (props & -> & _).
    simpl in Hadd.
    destruct (map_result (one_more product) items) as [e | items'] eqn:Hmap;
      [discriminate |].
    injection Hadd as <-. exists ids. split; [| exact Hnd].
    simpl. eapply map_result_ids; eauto. intros. eapply one_more_id; eauto.
  - simpl in Hadd. injection Hadd as <-.
    exists (ids ++ [pid])%list. split.
    + simpl. apply ids_of_items_app; [exact Hids |].
      now apply id_of_set_quantity.
    + apply (item_with_absent pid items ids Hids) in Hitem.
      apply NoDup_app; [exact Hnd | constructor; [simpl; tauto | constructor] |].
      intros x Hin [<- | []]. auto.
Qed.

Lemma removed_unique (productId c c' : value) :
  unique_ids c ->
  removed productId c = inr c' ->
  unique_ids c'.
Proof.
  intros (ids & Hids & Hnd) Hrem.
  destruct c as [| | b | n | s | items | props]; try discriminate.
  simpl in Hids. unfold removed in Hrem. simpl in Hrem.
  destruct (filter_result (other_product productId) items) as [e | kept] eqn:Hk;
    [discriminate |].
  injection Hrem as <-.
  destruct (filter_result_ids _ _ _ _ Hk Hids) as (ids' & Hids' & _ & Hnd').
  exists ids'. auto.
Qed.

Lemma updated_unique (productId quantity c c' : value) :
  unique_ids c ->
  updated productId quantity c = inr c' ->
  unique_ids c'.
Proof.
  intros (ids & Hids & Hnd) Hup.
  destruct c as [| | b | n | s | items | props]; try discriminate.
  simpl in Hids. unfold updated in Hup. simpl in Hup.
  destruct (map_result (requantified productId quantity) items)
    as [e | items'] eqn:Hmap; [discriminate |].
  injection Hup as <-. exists ids. split; [| exact Hnd].
  simpl. eapply map_result_ids; eauto. intros. eapply requantified_id; eauto.
Qed.

(** *** The cart after an action *)

Lemma addToCart_cart (product : value) (pg : Page State) :
  cart (store (snd (addToCart product pg))) = cart (store pg)
  \/ added product (cart (store pg))
     = inr (cart (store (snd (addToCart product pg)))).
Proof.
  run_action.
  destruct (get product "_id") as [e | pid]; cbn; auto.
  destruct (answer _ _) as [e | r]; cbn; auto.
  destruct (added product _) as [e | c] eqn:Hadd; cbn; auto.
  destruct (totals_of _ _) as [e | [sub tot]]; cbn; auto.
Qed.

Lemma removeFromCart_cart (productId : value) (pg : Page State) :
  cart (store (snd (removeFromCart productId pg))) = cart (store pg)
  \/ removed productId (cart (store pg))
     = inr (cart (store (snd (removeFromCart productId pg)))).
Proof.
  run_action.
  destruct (ToString productId) as [e | id]; cbn; auto.
  destruct (answer _ _) as [e | r]; cbn; auto.
  destruct (removed productId _) as [e | c] eqn:Hrem; cbn; auto.
  destruct (totals_of _ _) as [e | [sub tot]]; cbn; auto.
Qed.

Lemma updateQuantity_cart (productId quantity : value) (pg : Page State) :
  cart (store (snd (updateQuantity productId quantity pg))) = cart (store pg)
  \/ removed productId (cart (store pg))
     = inr (cart (store (snd (updateQuantity productId quantity pg))))
  \/ updated productId quantity (cart (store pg))
     = inr (cart (store (snd (updateQuantity productId quantity pg)))).
Proof.
  unfold updateQuantity. destruct (strict_equal quantity (VNum zero)).
  - destruct (removeFromCart_cart productId pg); auto.
  - run_action.
    destruct (ToString productId) as [e | id]; cbn; auto.
    destruct (answer _ _) as [e | r]; cbn; auto.
    destruct (updated productId quantity _) as [e | c] eqn:Hup; cbn; auto.
    destruct (totals_of _ _) as [e | [sub tot]]; cbn; auto.
Qed.

Lemma run_keeps_unique_ids (a : Action) (pg : Page State) :
  local_action a ->
  unique_ids (cart (store pg)) ->
  unique_ids (cart (store (snd (run a pg)))).
Proof.
  intros Hlocal Huniq.
  destruct a as [| code | | | | product | productId | productId quantity |]; simpl in Hlocal.
  - run_action. destruct (answer _ _) as [e | r]; cbn; auto.
    destruct (get r "data"); cbn; auto.
  - run_action. destruct (answer _ _) as [e | r]; cbn; auto.
    destruct (get r "data") as [e | d]; cbn; auto.
    destruct (get d "coupon"); cbn; auto.
    destruct (totals_of _ _) as [e | [sub tot]]; cbn; auto.
  - run_action. destruct (totals_of _ _) as [e | [sub tot]]; cbn; auto.
  - contradiction.
  - run_action. exists []. split; [reflexivity | constructor].
  - destruct (addToCart_cart product pg) as [Heq | Hadd]; simpl.
    + now rewrite Heq.
    + eapply added_unique; eauto.
  - destruct (removeFromCart_cart productId pg) as [Heq | Hrem]; simpl.
    + now rewrite Heq.
    + eapply removed_unique; eauto.
  - destruct (updateQuantity_cart productId quantity pg) as [Heq | [Hrem | Hup]];
      simpl.
    + now rewrite Heq.
    + eapply removed_unique; eauto.
    + eapply updated_unique; eauto.
  - run_action. destruct (totals_of _ _) as [e | [sub tot]]; cbn; auto.
Qed.

(** X15. Whatever sequence of actions of the cart store runs, as long as
    none of them loads the cart from the backend and every product added
    has an id: a cart whose items have ids, no two the same, is still such
    a cart afterwards; failed requests and exceptions included. *)
Theorem cart_ids_stay_unique (actions : list Action) (pg : Page State) :
  Forall local_action actions ->
  unique_ids (cart (store pg)) ->
  unique_ids (cart (store (run_all actions pg))).
Proof.
  intros Hlocal. revert pg.
  induction Hlocal as [| a rest Ha Hrest IH]; intros pg Huniq.
  - exact Huniq.
  - simpl. apply IH. now apply run_keeps_unique_ids.
Qed.

(** *** What an accepted change does to the cart *)

Lemma one_more_absent (product : value) (pid : string) (items : list value) (ids : list string) :
  id_of product = Some pid ->
  ids_of_items items = Some ids ->
  ~ In pid ids ->
  map_result (one_more product) items = inr items.
Proof.
  intros Hp. revert ids. induction items as [| x items IH]; intros ids Hids Hni.
  - reflexivity.
  - destruct (ids_of_items_cons _ _ _ Hids) as (i & rest & -> & Hx & Hrest).
    simpl. unfold one_more at 1. rewrite (same_product_ids _ _ _ _ Hp Hx).
    destruct (String.eqb pid i) eqn:E.
    + apply String.eqb_eq in E. subst i. exfalso. apply Hni. now left.
    + simpl. rewrite (IH rest Hrest); [reflexivity |].
      intros Hin. apply Hni. now right.
Qed.

Lemma add_one_number (q : number) :
  add_one (VNum q) = inr (VNum (add q num_1)).
Proof. reflexivity. Qed.

Lemma one_more_present (product : value) (pid : string) (items : list value)
    (ids : list string) (item : value) (q : number) :
  id_of product = Some pid ->
  ids_of_items items = Some ids ->
  NoDup ids ->
  item_with pid items = Some item ->
  get item "quantity" = inr (VNum q) ->
  exists items' item',
    map_result (one_more product) items = inr items'
    /\ item_with pid items' = Some item'
    /\ with_quantity (VNum (add q num_1)) item item'
    /\ forall id, id <> pid -> item_with id items' = item_with id items.
Proof.
  intros Hp. revert ids.
  induction items as [| x items IH]; intros ids Hids Hnd Hitem Hq.
  - discriminate.
  - destruct (ids_of_items_cons _ _ _ Hids) as (i & rest & -> & Hx & Hrest).
    inversion Hnd as [| ? ? Hni Hnd']; subst.
    simpl in Hitem. rewrite Hx in Hitem.
    simpl. unfold one_more at 1. rewrite (same_product_ids _ _ _ _ Hp Hx).
    destruct (String.eqb pid i) eqn:E.
    + apply String.eqb_eq in E. subst i. injection Hitem as ->.
      rewrite Hq. cbn [bind_result]. rewrite add_one_number. cbn [bind_result].
      rewrite (one_more_absent _ _ _ _ Hp Hrest Hni). cbn [bind_result].
      exists (VObj (set_prop "quantity" (VNum (add q num_1)) (own_props item)) :: items),
             (VObj (set_prop "quantity" (VNum (add q num_1)) (own_props item))).
      split; [reflexivity |].
      pose proof (id_of_set_quantity (VNum (add q num_1)) _ _ Hx) as Hid'.
      split; [| split].
      * cbn [item_with]. rewrite Hid', String.eqb_refl. reflexivity.
      * destruct (id_of_inv _ _ Hx) as (props & -> & _).
        apply with_quantity_set_prop.
      * intros id Hne. cbn [item_with]. rewrite Hid', Hx.
        apply String.eqb_neq in Hne. now rewrite Hne.
    + simpl.
      destruct (IH rest Hrest Hnd' Hitem Hq) as (items' & item' & Hmap & Hw & Hwq & Hothers).
      rewrite Hmap. simpl. exists (x :: items'), item'.
      split; [reflexivity |]. split; [| split].
      * simpl. now rewrite Hx, E.
      * exact Hwq.
      * intros id Hne. simpl. rewrite Hx.
        destruct (String.eqb id i); auto.
Qed.

Lemma requantified_on (pid : string) (quantity item : value) (i : string) :
  id_of item = Some i ->
  requantified (VStr pid) quantity item
  = inr (if String.eqb i pid
         then VObj (set_prop "quantity" quantity (own_props item))
         else item).
Proof.
  intros Hx. destruct (id_of_inv _ _ Hx) as (props & -> & Hfield).
  unfold requantified. simpl get. rewrite Hfield. simpl.
  now destruct (String.eqb i pid).
Qed.

Lemma other_product_on (pid : string) (item : value) (i : string) :
  id_of item = Some i ->
  other_product (VStr pid) item = inr (negb (String.eqb i pid)).
Proof.
  intros Hx. destruct (id_of_inv _ _ Hx) as (props & -> & Hfield).
  unfold other_product. simpl get. now rewrite Hfield.
Qed.

Lemma requantified_items (pid : string) (quantity : value) (items : list value) (ids : list string) :
  ids_of_items items = Some ids ->
  exists items',
    map_result (requantified (VStr pid) quantity) items = inr items'
    /\ (forall id, id <> pid -> item_with id items' = item_with id items)
    /\ (forall item,
           item_with pid items = Some item ->
           exists item',
             item_with pid items' = Some item'
             /\ with_quantity quantity item item').
Proof.
  revert ids. induction items as [| x items IH]; intros ids Hids.
  - exists []. repeat split; auto. discriminate.
  - destruct (ids_of_items_cons _ _ _ Hids) as (i & rest & -> & Hx & Hrest).
    destruct (IH rest Hrest) as (items' & Hmap & Hothers & Hsame).
    cbn [map_result]. rewrite Hmap, (requantified_on _ _ _ _ Hx).
    cbn [bind_result].
    destruct (String.eqb i pid) eqn:E.
    + apply String.eqb_eq in E. subst i.
      pose proof (id_of_set_quantity quantity _ _ Hx) as Hid'.
      eexists. split; [reflexivity |]. split.
      * intros id Hne. cbn [item_with]. rewrite Hid', Hx.
        rewrite (proj2 (String.eqb_neq _ _) Hne). auto.
      * intros item Hitem. cbn [item_with] in *. rewrite Hx in Hitem.
        rewrite String.eqb_refl in Hitem. injection Hitem as <-.
        rewrite Hid', String.eqb_refl. eexists. split; [reflexivity |].
        destruct (id_of_inv _ _ Hx) as (props & -> & _).
        apply with_quantity_set_prop.
    + eexists. split; [reflexivity |]. split.
      * intros id Hne. cbn [item_with]. rewrite Hx.
        destruct (String.eqb id i); auto.
      * intros item Hitem. cbn [item_with] in Hitem |- *.
        rewrite Hx in Hitem |- *.
        rewrite String.eqb_sym, E in Hitem. rewrite String.eqb_sym, E. auto.
Qed.

Lemma removed_items (pid : string) (items : list value) (ids : list string) :
  ids_of_items items = Some ids ->
  exists kept,
    filter_result (other_product (VStr pid)) items = inr kept
    /\ ids_of_items kept
       = Some (filter (fun id => negb (String.eqb id pid)) ids)
    /\ item_with pid kept = None
    /\ forall id, id <> pid -> item_with id kept = item_with id items.
Proof.
  revert ids. induction items as [| x items IH]; intros ids Hids.
  - injection Hids as <-. exists []. repeat split; auto.
  - destruct (ids_of_items_cons _ _ _ Hids) as (i & rest & -> & Hx & Hrest).
    destruct (IH rest Hrest) as (kept & Hfilter & Hkept & Hgone & Hothers).
    cbn [filter_result filter]. rewrite Hfilter, (other_product_on _ _ _ Hx).
    cbn [bind_result].
    destruct (String.eqb i pid) eqn:E; cbn [negb].
    + apply String.eqb_eq in E. subst i.
      exists kept. repeat split; auto.
      intros id Hne. cbn [item_with]. rewrite Hx.
      rewrite (proj2 (String.eqb_neq _ _) Hne). auto.
    + eexists. split; [reflexivity |]. cbn [ids_of_items item_with].
      rewrite Hx, Hkept, String.eqb_sym, E. repeat split; auto.
      intros id Hne. destruct (String.eqb id i); auto.
Qed.

(** *** The run of an accepted change *)

Lemma addToCart_accepted (product productId : value) (pg : Page State)
    (response c : value) :
  get product "_id" = inr productId ->
  answer (sent pg) {| method := "POST"; url := "/cart";
                      payload := VObj [("productId", productId)] |}
  = inr response ->
  added product (cart (store pg)) = inr c ->
  cart (store (snd (addToCart product pg))) = c.
Proof.
  intros Hget Hanswer Hadded.
  run_action. rewrite Hget. cbn. rewrite Hanswer. cbn. rewrite Hadded. cbn.
  destruct (totals_of _ _) as [e | [sub tot]]; reflexivity.
Qed.

Lemma removeFromCart_accepted (productId : value) (path : string) (pg : Page State)
    (response c : value) :
  ToString productId = inr path ->
  answer (sent pg) {| method := "DELETE"; url := "/cart/" ++ path;
                      payload := VUndef |}
  = inr response ->
  removed productId (cart (store pg)) = inr c ->
  cart (store (snd (removeFromCart productId pg))) = c
  /\ sent_between pg (snd (removeFromCart productId pg))
       [{| method := "DELETE"; url := "/cart/" ++ path; payload := VUndef |}].
Proof.
  intros Hpath Hanswer Hremoved. unfold sent_between.
  run_action. rewrite Hpath. cbn -[append]. rewrite Hanswer. cbn -[append].
  rewrite Hremoved. cbn -[append].
  destruct (totals_of _ _) as [e | [sub tot]]; split; reflexivity.
Qed.

Lemma updateQuantity_accepted (productId quantity : value) (path : string)
    (pg : Page State) (response c : value) :
  strict_equal quantity (VNum zero) = false ->
  ToString productId = inr path ->
  answer (sent pg) {| method := "PUT"; url := "/cart/" ++ path;
                      payload := VObj [("quantity", quantity)] |}
  = inr response ->
  updated productId quantity (cart (store pg)) = inr c ->
  cart (store (snd (updateQuantity productId quantity pg))) = c.
Proof.
  intros Hq Hpath Hanswer Hupdated. unfold updateQuantity. rewrite Hq.
  run_action. rewrite Hpath. cbn -[append]. rewrite Hanswer. cbn -[append].
  rewrite Hupdated. cbn -[append].
  destruct (totals_of _ _) as [e | [sub tot]]; reflexivity.
Qed.

(** X16. addToCart, when the backend accepts the request, on a cart whose
    items have ids, for a product whose id is not among them: the cart is
    the old cart followed by one item of that id, which is the product
    with the quantity 1. *)
Theorem addToCart_new_product (product : value) (pid : string) (pg : Page State)
    (items : list value) (ids : list string) (response : value) :
  cart (store pg) = VArr items ->
  ids_of_items items = Some ids ->
  id_of product = Some pid ->
  ~ In pid ids ->
  answer (sent pg) {| method := "POST"; url := "/cart";
                      payload := VObj [("productId", VStr pid)] |}
  = inr response ->
  exists item,
    cart (store (snd (addToCart product pg))) = VArr (items ++ [item])
    /\ id_of item = Some pid
    /\ with_quantity (VNum num_1) product item.
Proof.
  intros Hcart Hids Hp Hni Hanswer.
  apply (item_with_absent pid items ids Hids) in Hni.
  exists (VObj (set_prop "quantity" (VNum num_1) (own_props product))).
  split; [| split].
  - apply (addToCart_accepted _ _ _ _ _ (get_id _ _ Hp) Hanswer).
    rewrite Hcart. unfold added. cbn [as_array bind_result].
    now rewrite (find_same_product _ _ _ _ Hp Hids), Hni.
  - now apply id_of_set_quantity.
  - destruct (id_of_inv _ _ Hp) as (pprops & -> & _).
    apply with_quantity_set_prop.
Qed.

(** X17. addToCart, when the backend accepts the request, on a cart whose
    items have ids, no two the same, for a product whose id is in the
    cart with a Number as quantity: the ids of the cart and their order
    are unchanged, the item of that id has its quantity raised by one and
    its other properties unchanged, and the other items are unchanged. *)
Theorem addToCart_existing_product (product : value) (pid : string) (pg : Page State)
    (items : list value) (ids : list string) (item : value) (q : number)
    (response : value) :
  cart (store pg) = VArr items ->
  ids_of_items items = Some ids ->
  NoDup ids ->
  id_of product = Some pid ->
  item_with pid items = Some item ->
  get item "quantity" = inr (VNum q) ->
  answer (sent pg) {| method := "POST"; url := "/cart";
                      payload := VObj [("productId", VStr pid)] |}
  = inr response ->
  exists items' item',
    cart (store (snd (addToCart product pg))) = VArr items'
    /\ ids_of_items items' = Some ids
    /\ item_with pid items' = Some item'
    /\ with_quantity (VNum (add q num_1)) item item'
    /\ forall id, id <> pid -> item_with id items' = item_with id items.
Proof.
  intros Hcart Hids Hnd Hp Hitem Hq Hanswer.
  destruct (one_more_present _ _ _ _ _ _ Hp Hids Hnd Hitem Hq)
    as (items' & item' & Hmap & Hw & Hwq & Hothers).
  exists items', item'. split; [| split; [| auto]].
  - apply (addToCart_accepted _ _ _ _ _ (get_id _ _ Hp) Hanswer).
    destruct (id_of_inv _ _ (item_with_id _ _ _ Hitem)) as (props & Hobj & _).
    assert (Htruthy : ToBoolean item = true) by now rewrite Hobj.
    rewrite Hcart. unfold added. cbn [as_array bind_result].
    rewrite (find_same_product _ _ _ _ Hp Hids), Hitem. cbn [bind_result].
    now rewrite Htruthy, Hmap.
  - eapply map_result_ids; eauto. intros. eapply one_more_id; eauto.
Qed.

(** X18. removeFromCart of a string id, and updateQuantity of it with the
    quantity 0 or -0, when the backend accepts the request, on a cart
    whose items have ids: the one request sent is the DELETE of that id,
    the cart holds no item of that id afterwards, and the other items are
    unchanged and in their order. *)
Theorem removal_removes (a : Action) (pid path : string) (pg : Page State)
    (items : list value) (ids : list string) (response : value) :
  a = RemoveFromCart (VStr pid)
  \/ (exists sign, a = UpdateQuantity (VStr pid) (VNum (S754_zero sign))) ->
  cart (store pg) = VArr items ->
  ids_of_items items = Some ids ->
  ToString (VStr pid) = inr path ->
  answer (sent pg) {| method := "DELETE"; url := "/cart/" ++ path;
                      payload := VUndef |}
  = inr response ->
  exists kept,
    cart (store (snd (run a pg))) = VArr kept
    /\ sent_between pg (snd (run a pg))
         [{| method := "DELETE"; url := "/cart/" ++ path; payload := VUndef |}]
    /\ ids_of_items kept = Some (filter (fun id => negb (String.eqb id pid)) ids)
    /\ item_with pid kept = None
    /\ forall id, id <> pid -> item_with id kept = item_with id items.
Proof.
  intros Ha Hcart Hids Hpath Hanswer.
  assert (Hrun : run a pg = removeFromCart (VStr pid) pg).
  { destruct Ha as [-> | [sign ->]]; [reflexivity |].
    simpl. unfold updateQuantity. now destruct sign. }
  rewrite Hrun.
  destruct (removed_items pid items ids Hids)
    as (kept & Hfilter & Hkept & Hgone & Hothers).
  exists kept.
  assert (Hremoved : removed (VStr pid) (cart (store pg)) = inr (VArr kept)).
  { rewrite Hcart. unfold removed. cbn [as_array bind_result].
    now rewrite Hfilter. }
  destruct (removeFromCart_accepted _ _ _ _ _ Hpath Hanswer Hremoved)
    as [Hc Hs].
  auto.
Qed.

(** X19. updateQuantity of a string id with a quantity that is not
    [=== 0], when the backend accepts the request, on a cart whose items
    have ids: the ids of the cart and their order are unchanged, the first
    item of that id has the new quantity and its other properties
    unchanged, and the items of other ids are unchanged. *)
Theorem updateQuantity_sets_quantity (pid path : string) (quantity : value)
    (pg : Page State) (items : list value) (ids : list string) (response : value) :
  strict_equal quantity (VNum zero) = false ->
  cart (store pg) = VArr items ->
  ids_of_items items = Some ids ->
  ToString (VStr pid) = inr path ->
  answer (sent pg) {| method := "PUT"; url := "/cart/" ++ path;
                      payload := VObj [("quantity", quantity)] |}
  = inr response ->
  exists items',
    cart (store (snd (updateQuantity (VStr pid) quantity pg))) = VArr items'
    /\ ids_of_items items' = Some ids
    /\ (forall id, id <> pid -> item_with id items' = item_with id items)
    /\ (forall item,
           item_with pid items = Some item ->
           exists item',
             item_with pid items' = Some item'
             /\ with_quantity quantity item item').
Proof.
  intros Hq Hcart Hids Hpath Hanswer.
  destruct (requantified_items pid quantity items ids Hids)
    as (items' & Hmap & Hothers & Hsame).
  exists items'. split; [| split; [| auto]].
  - apply (updateQuantity_accepted _ _ _ _ _ _ Hq Hpath Hanswer).
    rewrite Hcart. unfold updated. cbn [as_array bind_result].
    now rewrite Hmap.
  - eapply map_result_ids; eauto. intros. eapply requantified_id; eauto.
Qed.

(** *** Failures, totals and the loading flag *)

Lemma loud (base l shown : list Toast) (text : value) :
  (base ++ l)%list = (base ++ shown)%list ->
  In (ToastError text) l ->
  Forall is_success shown ->
  False.
Proof.
  intros Heq Hin Hall. apply app_inv_head in Heq. subst shown.
  rewrite Forall_forall in Hall. exact (Hall _ Hin).
Qed.

Ltac not_quiet :=
  match goal with
  | Hshown : (?base ++ [ToastError ?t])%list = (?base ++ ?shown)%list,
    Hall : Forall is_success ?shown |- _ =>
      exfalso; apply (loud base [ToastError t] shown t Hshown);
      [now left | exact Hall]
  | Hshown : ((?base ++ [?s]) ++ [ToastError ?t])%list = (?base ++ ?shown)%list,
    Hall : Forall is_success ?shown |- _ =>
      exfalso; rewrite <- app_assoc in Hshown;
      apply (loud base ([s] ++ [ToastError t])%list shown t Hshown);
      [right; now left | exact Hall]
  end.

(** X20. While the backend rejects every request, an action of the cart
    store that calls it returns normally, shows one error toast, clears
    the loading flag and leaves the rest of the state as it was; the only
    exception is getCartItems, which also empties the cart and leaves the
    totals as they were. *)
Theorem rejected_request_keeps_state (a : Action) (pg : Page State) :
  backend_down pg ->
  (mutation a || fetch a)%bool = true ->
  fst (run a pg) = inr tt
  /\ store (snd (run a pg)) = after_rejection a (store pg)
  /\ exists text, toasts (snd (run a pg)) = (toasts pg ++ [ToastError text])%list.
Proof.
  intros Hdown Hcalls.
  destruct a as [| code | | | | product | productId | productId quantity |]; try discriminate; clear Hcalls.
  - run_action.
    destruct (Hdown {| method := "GET"; url := "/coupon"; payload := VUndef |})
      as [error ->].
    cbn. eauto.
  - run_action.
    destruct (Hdown {| method := "POST"; url := "/coupon/validate";
                       payload := VObj [("code", code)] |}) as [error ->].
    cbn. eauto.
  - run_action.
    destruct (Hdown {| method := "GET"; url := "/cart"; payload := VUndef |})
      as [error ->].
    cbn. eauto.
  - run_action. destruct (get product "_id") as [e | productId]; cbn; eauto.
    destruct (Hdown {| method := "POST"; url := "/cart";
                       payload := VObj [("productId", productId)] |})
      as [error ->].
    cbn. eauto.
  - run_action. destruct (ToString productId) as [e | path]; cbn -[append]; eauto.
    destruct (Hdown {| method := "DELETE"; url := "/cart/" ++ path;
                       payload := VUndef |}) as [error ->].
    cbn. eauto.
  - simpl run. unfold updateQuantity.
    destruct (strict_equal quantity (VNum zero)).
    + run_action.
      destruct (ToString productId) as [e | path]; cbn -[append]; eauto.
      destruct (Hdown {| method := "DELETE"; url := "/cart/" ++ path;
                         payload := VUndef |}) as [error ->].
      cbn. eauto.
    + run_action.
      destruct (ToString productId) as [e | path]; cbn -[append]; eauto.
      destruct (Hdown {| method := "PUT"; url := "/cart/" ++ path;
                         payload := VObj [("quantity", quantity)] |})
        as [error ->].
      cbn. eauto.
Qed.

(** X21. Every action of the cart store but getMyCoupon that returns
    without having shown an error toast leaves the subtotal and the total
    that calculateTotals computes for the cart and the coupon of the
    state. *)
Theorem totals_match_after (a : Action) (pg : Page State) :
  a <> GetMyCoupon ->
  fst (run a pg) = inr tt ->
  quiet pg (snd (run a pg)) ->
  totals_match (store (snd (run a pg))).
Proof.
  intros Hne Hret (shown & Hshown & Hall). unfold totals_match.
  destruct a as [| code | | | | product | productId | productId quantity |];
    [congruence | | | | | | | |]; clear Hne;
    revert Hret Hshown.
  - run_action. destruct (answer _ _) as [e | r]; cbn; intros; [not_quiet |].
    revert Hret Hshown.
    destruct (get r "data") as [e | d]; cbn; intros; [not_quiet |].
    revert Hret Hshown.
    destruct (get d "coupon") as [e | c]; cbn; intros; [not_quiet |].
    revert Hret Hshown.
    destruct (totals_of _ _) as [e | [sub tot]] eqn:Htot; cbn; intros;
      [not_quiet | exact Htot].
  - run_action.
    destruct (totals_of _ _) as [e | [sub tot]] eqn:Htot; cbn; intros;
      [discriminate | exact Htot].
  - run_action. destruct (answer _ _) as [e | r]; cbn; intros; [not_quiet |].
    revert Hret Hshown.
    destruct (get r "data") as [e | d]; cbn; intros; [not_quiet |].
    revert Hret Hshown.
    destruct (totals_of _ _) as [e | [sub tot]] eqn:Htot; cbn; intros;
      [not_quiet | exact Htot].
  - run_action. reflexivity.
  - run_action. destruct (get product "_id") as [e | productId]; cbn; intros;
      [not_quiet |].
    revert Hret Hshown.
    destruct (answer _ _) as [e | r]; cbn; intros; [not_quiet |].
    revert Hret Hshown.
    destruct (added product _) as [e | c]; cbn; intros; [not_quiet |].
    revert Hret Hshown.
    destruct (totals_of _ _) as [e | [sub tot]] eqn:Htot; cbn; intros;
      [not_quiet | exact Htot].
  - run_action. destruct (ToString productId) as [e | path]; cbn -[append];
      intros; [not_quiet |].
    revert Hret Hshown.
    destruct (answer _ _) as [e | r]; cbn; intros; [not_quiet |].
    revert Hret Hshown.
    destruct (removed productId _) as [e | c]; cbn; intros; [not_quiet |].
    revert Hret Hshown.
    destruct (totals_of _ _) as [e | [sub tot]] eqn:Htot; cbn; intros;
      [not_quiet | exact Htot].
  - simpl run. unfold updateQuantity.
    destruct (strict_equal quantity (VNum zero)).
    + run_action. destruct (ToString productId) as [e | path]; cbn -[append];
        intros; [not_quiet |].
      revert Hret Hshown.
      destruct (answer _ _) as [e | r]; cbn; intros; [not_quiet |].
      revert Hret Hshown.
      destruct (removed productId _) as [e | c]; cbn; intros; [not_quiet |].
      revert Hret Hshown.
      destruct (totals_of _ _) as [e | [sub tot]] eqn:Htot; cbn; intros;
        [not_quiet | exact Htot].
    + run_action. destruct (ToString productId) as [e | path]; cbn -[append];
        intros; [not_quiet |].
      revert Hret Hshown.
      destruct (answer _ _) as [e | r]; cbn; intros; [not_quiet |].
      revert Hret Hshown.
      destruct (updated productId quantity _) as [e | c]; cbn; intros; [not_quiet |].
      revert Hret Hshown.
      destruct (totals_of _ _) as [e | [sub tot]] eqn:Htot; cbn; intros;
        [not_quiet | exact Htot].
  - run_action.
    destruct (totals_of _ _) as [e | [sub tot]] eqn:Htot; cbn; intros;
      [discriminate | exact Htot].
Qed.

Ltac succeeded :=
  split;
  [ intros _; eexists; split; [reflexivity | repeat constructor]
  | reflexivity ].

Ltac failed :=
  split;
  [ discriminate
  | intros (shown & Hshown & Hall); cbn [toasts] in Hshown; not_quiet ].

(** X22. The loading flag after an action of the cart store.  After
    addToCart, removeFromCart and updateQuantity it is set exactly when no
    error toast was shown, so a change that succeeds leaves the store
    loading; after getMyCoupon, applyCoupon and getCartItems it is clear;
    the other actions leave it as it was. *)
Theorem loading_after (a : Action) (pg : Page State) :
  (mutation a = true ->
   (loading (store (snd (run a pg))) = true <-> quiet pg (snd (run a pg))))
  /\ (fetch a = true -> loading (store (snd (run a pg))) = false)
  /\ (mutation a = false -> fetch a = false ->
      loading (store (snd (run a pg))) = loading (store pg)).
Proof.
  unfold quiet.
  destruct a as [| code | | | | product | productId | productId quantity |];
    (split; [| split]); try discriminate; intros _; try intros _.
  - run_action. destruct (answer _ _) as [e | r]; cbn; auto.
    destruct (get r "data"); reflexivity.
  - run_action. destruct (answer _ _) as [e | r]; cbn; auto.
    destruct (get r "data") as [e | d]; cbn; auto.
    destruct (get d "coupon"); cbn; auto.
    destruct (totals_of _ _) as [e | [sub tot]]; reflexivity.
  - run_action. destruct (totals_of _ _) as [e | [sub tot]]; reflexivity.
  - run_action. destruct (answer _ _) as [e | r]; cbn; auto.
    destruct (get r "data") as [e | d]; cbn; auto.
    destruct (totals_of _ _) as [e | [sub tot]]; reflexivity.
  - reflexivity.
  - run_action. destruct (get product "_id") as [e | productId]; cbn; [failed |].
    destruct (answer _ _) as [e | r]; cbn; [failed |].
    destruct (added product _) as [e | c]; cbn; [failed |].
    destruct (totals_of _ _) as [e | [sub tot]]; cbn; [failed | succeeded].
  - run_action.
    destruct (ToString productId) as [e | path]; cbn -[append]; [failed |].
    destruct (answer _ _) as [e | r]; cbn; [failed |].
    destruct (removed productId _) as [e | c]; cbn; [failed |].
    destruct (totals_of _ _) as [e | [sub tot]]; cbn; [failed | succeeded].
  - simpl run. unfold updateQuantity.
    destruct (strict_equal quantity (VNum zero)).
    + run_action.
      destruct (ToString productId) as [e | path]; cbn -[append]; [failed |].
      destruct (answer _ _) as [e | r]; cbn; [failed |].
      destruct (removed productId _) as [e | c]; cbn; [failed |].
      destruct (totals_of _ _) as [e | [sub tot]]; cbn; [failed | succeeded].
    + run_action.
      destruct (ToString productId) as [e | path]; cbn -[append]; [failed |].
      destruct (answer _ _) as [e | r]; cbn; [failed |].
      destruct (updated productId quantity _) as [e | c]; cbn; [failed |].
      destruct (totals_of _ _) as [e | [sub tot]]; cbn; [failed | succeeded].
  - run_action. destruct (totals_of _ _) as [e | [sub tot]]; reflexivity.
Qed.

(** X26. removeCoupon undoes applyCoupon.  On a store without a coupon,
    not loading, whose totals are those of its cart: after applyCoupon
    and then removeCoupon the state is the one before, whether the backend
    accepted the code or not and whatever coupon it answered with. *)
Theorem removeCoupon_undoes_applyCoupon (code : value) (pg : Page State) :
  coupon (store pg) = VNull ->
  isCouponApplied (store pg) = false ->
  loading (store pg) = false ->
  totals_match (store pg) ->
  store (snd (removeCoupon (snd (applyCoupon code pg)))) = store pg.
Proof.
  destruct pg as [[c cp t s f l] ts sn]. unfold totals_match. simpl.
  intros -> -> -> Htotals.
  run_action. cbn.
  destruct (answer _ _) as [e | r]; cbn.
  - rewrite Htotals. reflexivity.
  - destruct (get r "data") as [e | d]; cbn.
    + rewrite Htotals. reflexivity.
    + destruct (get d "coupon") as [e | c']; cbn.
      * rewrite Htotals. reflexivity.
      * destruct (totals_of c c') as [e | [sub tot]]; cbn;
          rewrite Htotals; reflexivity.
Qed.

End CartProperties.

(** ** The user store *)

Section UserProperties.

Import Browser.
Import UserStore.

Context `{Browser}.

Ltac run_action :=
  unfold run, signup, login, logout, checkAuth, report,
         and_then, attempt, set_state, of_result, request, toast, get_state,
         raise, done;
  cbn [fst snd store toasts sent].

Ltac path :=
  match goal with
  | |- context [match get ?v ?k with _ => _ end] =>
      destruct (get v k) as [? | ?]
  | |- context [match get_optional ?v ?k with _ => _ end] =>
      destruct (get_optional v k) as [? | ?]
  | |- context [match answer ?h ?c with _ => _ end] =>
      destruct (answer h c) as [? | ?]
  | |- context [strict_equal ?a ?b] =>
      destruct (strict_equal a b)
  end;
  cbn.

Ltac no_refresh :=
  split;
  [ assumption
  | first
      [ exists []; split; [unfold sent_between; now rewrite app_nil_r | constructor]
      | eexists; split;
        [ unfold sent_between; reflexivity
        | repeat constructor; unfold refreshes; simpl; discriminate ] ] ].

Lemma run_keeps_checkingAuth (a : Action) (pg : Page State) :
  checkingAuth (store pg) = true ->
  checkingAuth (store (snd (run a pg))) = true
  /\ exists calls,
       sent_between pg (snd (run a pg)) calls
       /\ Forall (fun c => ~ refreshes c) calls.
Proof.
  intros Hstuck. destruct a.
  - run_action. repeat path; no_refresh.
  - run_action. repeat path; no_refresh.
  - run_action. repeat path; no_refresh.
  - run_action. rewrite Hstuck. cbn. no_refresh.
Qed.

(** X23. checkAuth does nothing while the flag checkingAuth is set, and
    no action of the user store clears a set flag.  So whatever sequence
    of signup, login, logout and checkAuth runs on a store whose flag is
    set, as it is on the store as created, the flag is still set
    afterwards and no request for a token refresh has been sent. *)
Theorem checkingAuth_stays_set (actions : list Action) (pg : Page State) :
  checkingAuth (store pg) = true ->
  checkingAuth (store (run_all actions pg)) = true
  /\ exists calls,
       sent_between pg (run_all actions pg) calls
       /\ Forall (fun c => ~ refreshes c) calls.
Proof.
  revert pg. induction actions as [| a rest IH]; intros pg Hstuck.
  - split; [exact Hstuck |]. exists []. split; [| constructor].
    unfold sent_between. simpl. now rewrite app_nil_r.
  - destruct (run_keeps_checkingAuth a pg Hstuck) as (Hstuck' & calls & Hcalls & Hnone).
    destruct (IH _ Hstuck') as (Hend & calls' & Hcalls' & Hnone').
    split; [exact Hend |]. exists (calls ++ calls')%list. split.
    + unfold sent_between in *. simpl. rewrite Hcalls', Hcalls.
      now rewrite app_assoc.
    + apply Forall_app. auto.
Qed.

(** X24. signup and login, called with a form that is neither undefined
    nor null, leave the loading flag clear on every path: when the backend
    accepts, when it rejects, when the passwords differ, and when the
    handler of the rejection throws itself. *)
Theorem signup_and_login_clear_loading (form : value) (pg : Page State) :
  form <> VUndef ->
  form <> VNull ->
  loading (store (snd (signup form pg))) = false
  /\ loading (store (snd (login form pg))) = false.
Proof.
  intros Hundef Hnull.
  assert (Hget : forall k, exists v, get form k = inr v).
  { intros k. destruct form; try congruence; simpl; eauto. }
  split.
  - run_action.
    destruct (Hget "name") as [name ->].
    destruct (Hget "email") as [email ->].
    destruct (Hget "password") as [password ->].
    destruct (Hget "confirmPassword") as [confirmPassword ->].
    cbn. repeat path; reflexivity.
  - run_action.
    destruct (Hget "email") as [email ->].
    destruct (Hget "password") as [password ->].
    cbn. repeat path; reflexivity.
Qed.

(** X25. signup sends its request exactly when the password and its
    confirmation are strictly equal; when they are not, it shows the toast
    of the mismatch, clears the loading flag and leaves the user as it
    was. *)
Theorem signup_sends_iff_passwords_match (form name email password confirmPassword : value)
    (pg : Page State) :
  get form "name" = inr name ->
  get form "email" = inr email ->
  get form "password" = inr password ->
  get form "confirmPassword" = inr confirmPassword ->
  sent_between pg (snd (signup form pg))
    (if strict_equal password confirmPassword
     then [{| method := "POST"; url := "/auth/signup";
              payload := VObj [("name", name); ("email", email);
                               ("password", password);
                               ("confirmPassword", confirmPassword)] |}]
     else [])
  /\ (strict_equal password confirmPassword = false ->
      store (snd (signup form pg)) = with_loading false (store pg)
      /\ toasts (snd (signup form pg))
         = (toasts pg ++ [ToastError (VStr "Passwords do not match")])%list).
Proof.
  intros Hname Hemail Hpassword Hconfirm. unfold sent_between.
  run_action. rewrite Hname, Hemail, Hpassword, Hconfirm. cbn.
  destruct (strict_equal password confirmPassword); cbn.
  - split; [| discriminate]. repeat path; reflexivity.
  - split; [now rewrite app_nil_r | auto].
Qed.

End UserProperties.

(** ** The product store *)

Section ProductProperties.

Import Browser.
Import ProductStore.

Context `{Browser}.

Ltac run_action :=
  unfold getProducts, fetchProductsByCategory, fetchFeaturedProducts, load,
         keep, fetch_failed, addProduct, toggleFeaturedProduct,
         and_then, attempt, set_state, of_result, request, toast, get_state,
         raise, done;
  cbn [fst snd store toasts sent].

Lemma set_prop_restore (k : string) (v v' : value) (props : list (string * value)) :
  lookup k props = Some v ->
  set_prop k v (set_prop k v' props) = props.
Proof.
  induction props as [| [a b] rest IH]; simpl; [discriminate |].
  destruct (String.eqb k a) eqn:E; simpl; rewrite E.
  - intros Heq. injection Heq as <-. reflexivity.
  - intros Hrest. now rewrite IH.
Qed.

Lemma toggled_twice (id item : value) :
  flagged id item ->
  exists item', toggled id item = inr item' /\ toggled id item' = inr item.
Proof.
  intros (props & -> & Hflag). unfold toggled at 1. cbn [get bind_result].
  destruct (strict_equal (field props "id") id) eqn:Hid.
  - destruct (Hflag eq_refl) as [b Hb].
    eexists. split; [reflexivity |].
    unfold toggled. cbn [get bind_result own_props].
    unfold field at 1. rewrite lookup_set_prop_other by discriminate.
    fold (field props "id"). rewrite Hid.
    unfold field. rewrite lookup_set_prop_same, Hb. cbn [ToBoolean].
    rewrite Bool.negb_involutive.
    now rewrite (set_prop_restore _ _ _ _ Hb).
  - eexists. split; [reflexivity |].
    unfold toggled. cbn [get bind_result]. now rewrite Hid.
Qed.

Lemma map_toggled_twice (id : value) (items : list value) :
  Forall (flagged id) items ->
  exists items',
    map_result (toggled id) items = inr items'
    /\ map_result (toggled id) items' = inr items.
Proof.
  induction 1 as [| item items Hitem Hitems (items' & Hmap & Hback)].
  - exists []. split; reflexivity.
  - destruct (toggled_twice id item Hitem) as (item' & Hone & Htwo).
    exists (item' :: items'). simpl. rewrite Hone, Hmap. simpl.
    rewrite Htwo, Hback. split; reflexivity.
Qed.

Lemma toggleFeaturedProduct_accepted (id : value) (path : string) (pg : Page State)
    (response : value) (items items' : list value) :
  ToString id = inr path ->
  answer (sent pg) {| method := "PATCH"; url := "/products/" ++ path;
                      payload := VUndef |} = inr response ->
  ok_200 response ->
  products (store pg) = VArr items ->
  map_result (toggled id) items = inr items' ->
  snd (toggleFeaturedProduct id pg)
  = {| store := with_products (VArr items') (store pg);
       toasts := toasts pg;
       sent := sent pg ++ [{| method := "PATCH"; url := "/products/" ++ path;
                              payload := VUndef |}] |}.
Proof.
  intros Hpath Hanswer Hok Hproducts Hmap. unfold ok_200 in Hok.
  run_action. rewrite Hpath. cbn -[append]. rewrite Hanswer. cbn -[append].
  rewrite Hok. cbn -[append]. rewrite Hproducts. cbn -[append].
  rewrite Hmap. reflexivity.
Qed.

(** X27. Toggling a product twice restores the store.  When the backend
    answers both PATCH requests with the status 200, and every product of
    the store is an object whose isFeatured is a boolean if its id is the
    one toggled, the state after two toggleFeaturedProduct of the same id
    is the state before. *)
Theorem toggleFeaturedProduct_twice (id : value) (path : string) (pg : Page State)
    (items : list value) (first second : value) :
  products (store pg) = VArr items ->
  Forall (flagged id) items ->
  ToString id = inr path ->
  answer (sent pg) {| method := "PATCH"; url := "/products/" ++ path;
                      payload := VUndef |} = inr first ->
  ok_200 first ->
  answer (sent pg ++ [{| method := "PATCH"; url := "/products/" ++ path;
                         payload := VUndef |}])
         {| method := "PATCH"; url := "/products/" ++ path;
            payload := VUndef |} = inr second ->
  ok_200 second ->
  store (snd (toggleFeaturedProduct id (snd (toggleFeaturedProduct id pg))))
  = store pg.
Proof.
  intros Hproducts Hflagged Hpath Hfirst Hok1 Hsecond Hok2.
  destruct (map_toggled_twice id items Hflagged) as (items' & Hmap & Hback).
  rewrite (toggleFeaturedProduct_accepted _ _ _ _ _ _
             Hpath Hfirst Hok1 Hproducts Hmap).
  rewrite (toggleFeaturedProduct_accepted id path
             {| store := with_products (VArr items') (store pg);
                toasts := toasts pg;
                sent := sent pg ++ [{| method := "PATCH";
                                       url := "/products/" ++ path;
                                       payload := VUndef |}] |}
             second items' items Hpath Hsecond Hok2 eq_refl Hback).
  cbn [store]. rewrite <- Hproducts. now destruct (store pg).
Qed.

Ltac path :=
  match goal with
  | |- context [get ?v ?k] => is_var v; destruct (get v k) as [? | ?]
  | |- context [match answer ?h ?c with _ => _ end] =>
      destruct (answer h c) as [? | ?]
  end;
  cbn.

Lemma load_clears_loading (path : result string) (pg : Page State) :
  loading (store (snd (load path pg))) = false.
Proof.
  run_action. unfold reason.
  destruct path as [e | address]; cbn; repeat path; reflexivity.
Qed.

(** An awaited [getProducts] is the call followed by the rest. *)
Lemma getProducts_in_two_parts (pg : Page State) :
  getProducts pg
  = (let! settled := getProducts_called in getProducts_resumed settled) pg.
Proof.
  unfold getProducts, load, getProducts_called, getProducts_resumed,
    and_then, attempt, set_state, of_result, request, done.
  cbn [fst snd store toasts sent].
  destruct (answer _ _) as [error | response]; reflexivity.
Qed.

Lemma getProducts_resumed_clears_loading (settled : value + value) (pg : Page State) :
  loading (store (snd (getProducts_resumed settled pg))) = false.
Proof.
  unfold getProducts_resumed. run_action. unfold keep, fetch_failed, reason.
  run_action. destruct settled as [error | response]; cbn;
    repeat path; reflexivity.
Qed.

(** X28. deleteProduct returns with the store loading on every path.
    When the backend rejects the deletion, the handler shows the toast and
    does not clear the flag, and getProducts is not called.  When the
    backend accepts it, getProducts is called and not awaited: it has set
    the flag again and made its request, GET /products, when
    deleteProduct returns; only the rest of getProducts, whenever it runs,
    clears the flag. *)
Theorem deleteProduct_loading (id : value) (pg : Page State) :
  loading (store (snd (deleteProduct id pg))) = true
  /\ (forall path,
         ToString id = inr path ->
         forall error,
           answer (sent pg) {| method := "DELETE"; url := "/products/" ++ path;
                               payload := VUndef |} = inl error ->
           (fst (deleteProduct id pg) = inr None
            \/ exists thrown_value, fst (deleteProduct id pg) = inl thrown_value)
           /\ sent_between pg (snd (deleteProduct id pg))
                [{| method := "DELETE"; url := "/products/" ++ path;
                    payload := VUndef |}])
  /\ (forall path,
         ToString id = inr path ->
         forall response,
           answer (sent pg) {| method := "DELETE"; url := "/products/" ++ path;
                               payload := VUndef |} = inr response ->
           exists settled,
             fst (deleteProduct id pg) = inr (Some settled)
             /\ sent_between pg (snd (deleteProduct id pg))
                  [{| method := "DELETE"; url := "/products/" ++ path;
                      payload := VUndef |};
                   {| method := "GET"; url := "/products"; payload := VUndef |}]
             /\ forall later,
                  loading (store (snd (getProducts_resumed settled later)))
                  = false).
Proof.
  split; [| split].
  - unfold deleteProduct, getProducts_called, reason. run_action.
    destruct (ToString id) as [e | path]; cbn -[append]; [reflexivity |].
    destruct (answer _ _) as [error | response]; cbn -[append];
      [| reflexivity].
    repeat path; reflexivity.
  - intros path Hpath error Hanswer. unfold sent_between.
    unfold deleteProduct, getProducts_called, reason. run_action.
    rewrite Hpath. cbn -[append]. rewrite Hanswer. cbn -[append].
    repeat path; split; eauto.
  - intros path Hpath response Hanswer. unfold sent_between.
    unfold deleteProduct, getProducts_called. run_action.
    rewrite Hpath. cbn -[append]. rewrite Hanswer. cbn -[append].
    eexists. split; [reflexivity |]. split.
    + now rewrite <- app_assoc.
    + intros later. apply getProducts_resumed_clears_loading.
Qed.

End ProductProperties.

(** ** The statements on the concrete runtime, gateway and world *)

#[local] Existing Instance Demo.runtime.
#[local] Existing Instance Demo.gateway.

(** C7 on a request whose products array is empty. *)
Lemma createCheckoutSession_invalid_products_witness :
  invalid_products (field (body Demo.empty_cart) "products")
  /\ createCheckoutSession Demo.empty_cart Demo.world =
       (Some {| status := 400;
                json := VObj [("error", VStr "Invalid or empty products array")] |},
        Demo.world).
Proof.
  assert (Hinvalid : invalid_products (field (body Demo.empty_cart) "products")).
  { right. reflexivity. }
  split; [exact Hinvalid |].
  exact (createCheckoutSession_invalid_products Demo.empty_cart Demo.world Hinvalid).
Defined.

(** C8 on the session of the cart before its payment. *)
Lemma checkoutSuccess_not_paid_witness :
  field (body Demo.success_request) "sessionId" = VStr "cs_1"
  /\ holds_session Demo.after_checkout "cs_1" Demo.open_session
  /\ payment_status Demo.open_session <> "paid"
  /\ checkoutSuccess Demo.success_request Demo.after_checkout =
       (None, log_call (SessionsRetrieve (VStr "cs_1")) Demo.after_checkout)
  /\ orders (snd (checkoutSuccess Demo.success_request Demo.after_checkout)) =
       orders Demo.after_checkout
  /\ coupons (snd (checkoutSuccess Demo.success_request Demo.after_checkout)) =
       coupons Demo.after_checkout.
Proof.
  assert (Hid : field (body Demo.success_request) "sessionId" = VStr "cs_1")
    by reflexivity.
  assert (Hs : holds_session Demo.after_checkout "cs_1" Demo.open_session)
    by (vm_compute; reflexivity).
  assert (Hstatus : payment_status Demo.open_session <> "paid")
    by (simpl; discriminate).
  split; [exact Hid |]. split; [exact Hs |]. split; [exact Hstatus |].
  exact (checkoutSuccess_not_paid Demo.success_request Demo.after_checkout
           "cs_1" Demo.open_session Hid Hs Hstatus).
Defined.

(** C1 on the session of the cart once paid. *)
Lemma checkoutSuccess_paid_with_coupon_witness :
  holds_session Demo.paid_world "cs_1" Demo.paid_session
  /\ parse (meta Demo.paid_session "products") = inr (VArr Demo.entries)
  /\ Forall readable Demo.entries
  /\ exists (lines : list OrderLine) (newOrder : Order),
       Forall2 reads_line Demo.entries lines
       /\ newOrder =
            {| order_id := ObjectId_of_nat (created Demo.paid_world);
               user := VStr "u1";
               products := lines;
               totalAmount := Number.div (Number.of_Z 10000) num_100;
               stripeSessionId := VStr "cs_1" |}
       /\ fst (checkoutSuccess Demo.success_request Demo.paid_world) =
            Some (order_created (order_id newOrder))
       /\ orders (snd (checkoutSuccess Demo.success_request Demo.paid_world)) =
            (orders Demo.paid_world ++ [newOrder])%list
       /\ coupons (snd (checkoutSuccess Demo.success_request Demo.paid_world)) =
            update_first (of_code_and_user (VStr "GIFTABC123") (VStr "u1")) false
              (coupons Demo.paid_world)
       /\ (forall c : Coupon,
              find (matches (of_code_and_user (VStr "GIFTABC123") (VStr "u1")))
                   (coupons Demo.paid_world) = Some c ->
              find (matches (of_code_and_user (VStr "GIFTABC123") (VStr "u1")))
                   (coupons (snd (checkoutSuccess Demo.success_request Demo.paid_world)))
                = Some (set_isActive false c)).
Proof.
  assert (Hs : holds_session Demo.paid_world "cs_1" Demo.paid_session)
    by (vm_compute; reflexivity).
  assert (Hparse : parse (meta Demo.paid_session "products") = inr (VArr Demo.entries))
    by (vm_compute; reflexivity).
  assert (Hread : Forall readable Demo.entries).
  { constructor; [split; discriminate | constructor]. }
  split; [exact Hs |]. split; [exact Hparse |]. split; [exact Hread |].
  apply (checkoutSuccess_paid_with_coupon Demo.success_request Demo.paid_world
           "cs_1" Demo.paid_session "GIFTABC123" "u1" Demo.entries
           (Number.of_Z 10000));
    try reflexivity; try assumption.
  discriminate.
Defined.

(** C2 on the session of the cart once paid. *)
Lemma checkoutSuccess_twice_two_orders_witness :
  holds_session Demo.paid_world "cs_1" Demo.paid_session
  /\ parse (meta Demo.paid_session "products") = inr (VArr Demo.entries)
  /\ Forall readable Demo.entries
  /\ exists o1 o2 : Order,
       orders (snd (checkoutSuccess Demo.success_request
                      (snd (checkoutSuccess Demo.success_request Demo.paid_world)))) =
         (orders Demo.paid_world ++ [o1; o2])%list
       /\ stripeSessionId o1 = VStr "cs_1"
       /\ stripeSessionId o2 = VStr "cs_1"
       /\ order_id o1 <> order_id o2
       /\ fst (checkoutSuccess Demo.success_request Demo.paid_world) =
            Some (order_created (order_id o1))
       /\ fst (checkoutSuccess Demo.success_request
                 (snd (checkoutSuccess Demo.success_request Demo.paid_world))) =
            Some (order_created (order_id o2)).
Proof.
  assert (Hs : holds_session Demo.paid_world "cs_1" Demo.paid_session)
    by (vm_compute; reflexivity).
  assert (Hparse : parse (meta Demo.paid_session "products") = inr (VArr Demo.entries))
    by (vm_compute; reflexivity).
  assert (Hread : Forall readable Demo.entries).
  { constructor; [split; discriminate | constructor]. }
  split; [exact Hs |]. split; [exact Hparse |]. split; [exact Hread |].
  apply (checkoutSuccess_twice_two_orders Demo.success_request Demo.paid_world
           "cs_1" Demo.paid_session Demo.entries (Number.of_Z 10000));
    try reflexivity; assumption.
Defined.

(** The ledger of the concrete world meets the hypotheses on ledgers. *)
Lemma finite_discounts_demo : finite_discounts (coupons Demo.world).
Proof.
  constructor; [reflexivity | constructor].
Defined.

(** C3 on the checkout of the cart. *)
Lemma createCheckoutSession_total_is_zero_witness :
  finite_discounts (coupons Demo.world)
  /\ apply_coupon Demo.cart (field (body Demo.cart) "couponCode") zero Demo.world =
       (inr (coupon_found Demo.cart Demo.world, zero), Demo.world)
  /\ (forall r : Response,
        fst (createCheckoutSession Demo.cart Demo.world) = Some r ->
        status r = 200 ->
        get (json r) "totalAmount" = inr (VNum zero)).
Proof.
  split; [exact finite_discounts_demo |].
  exact (createCheckoutSession_total_is_zero Demo.cart Demo.world
           finite_discounts_demo).
Defined.

(** C4 on the checkout of the cart. *)
Lemma createCheckoutSession_never_rewards_witness :
  finite_discounts (coupons Demo.world)
  /\ Number.le (total_after_discount (coupon_found Demo.cart Demo.world)) zero = true
  /\ Number.ge (total_after_discount (coupon_found Demo.cart Demo.world)) num_20000
     = false
  /\ coupons (snd (createCheckoutSession Demo.cart Demo.world)) = coupons Demo.world.
Proof.
  split; [exact finite_discounts_demo |].
  destruct (createCheckoutSession_never_rewards Demo.cart Demo.world)
    as [_ [Hle [Hge [_ [Hcoupons _]]]]].
  split; [exact (Hle finite_discounts_demo) |].
  split; [exact Hge | exact Hcoupons].
Defined.

Lemma one_coupon_per_user_demo : one_coupon_per_user (coupons Demo.world).
Proof.
  intros u. unfold owned_by, Demo.world, coupons, filter.
  destruct (String.eqb (userId Demo.gift) u); simpl; lia.
Defined.

(** C5 on a reward check given the total 20000. *)
Lemma reward_iff_threshold_one_coupon_per_user_witness :
  one_coupon_per_user (coupons Demo.world)
  /\ Number.ge num_20000 num_20000 = true
  /\ created (snd (reward Demo.cart num_20000 Demo.world)) = S (created Demo.world)
  /\ owned_by "u1" (coupons (snd (reward Demo.cart num_20000 Demo.world))) =
       [minted "u1" Demo.world]
  /\ one_coupon_per_user (coupons (snd (reward Demo.cart num_20000 Demo.world))).
Proof.
  split; [exact one_coupon_per_user_demo |].
  destruct (reward_iff_threshold_one_coupon_per_user Demo.cart num_20000 Demo.world
              one_coupon_per_user_demo) as [Hiff [Hmint [_ [Hinv _]]]].
  assert (Hge : Number.ge num_20000 num_20000 = true) by reflexivity.
  split; [exact Hge |].
  split; [exact (proj1 Hiff Hge) |].
  split; [exact (proj2 (Hmint Hge)) | exact Hinv].
Defined.

Lemma cart_line_items_demo : Forall cart_line_item [Demo.item].
Proof.
  constructor; [| constructor].
  eexists. eexists. split; [reflexivity |]. split; [reflexivity |].
  right. eexists. split; reflexivity.
Defined.

(** C6 on the checkout of the cart. *)
Lemma createCheckoutSession_line_items_witness :
  field (body Demo.cart) "products" = VArr [Demo.item]
  /\ Forall cart_line_item [Demo.item]
  /\ exists (lineItems : list LineItem) (made : list GatewayCall),
       map_result lineItem [Demo.item] = inr lineItems
       /\ List.length lineItems = List.length [Demo.item]
       /\ Forall2 descriptor_of [Demo.item] lineItems
       /\ calls (snd (createCheckoutSession Demo.cart Demo.world)) =
            (calls Demo.world ++ made)%list
       /\ (forall params,
             In (SessionsCreate params) made -> line_items params = lineItems)
       /\ ((exists params,
               In (SessionsCreate params)
                  (calls (snd (createCheckoutSession Demo.cart Demo.world)))
               /\ line_items params = lineItems)
           \/ (exists c e,
                  coupon_found Demo.cart Demo.world = Some c
                  /\ coupons_create (calls Demo.world) (discountPercentage c) "once"
                     = inl e))
       /\ (forall r,
             fst (createCheckoutSession Demo.cart Demo.world) = Some r ->
             status r = 200 ->
             exists params, In (SessionsCreate params) made).
Proof.
  split; [reflexivity |]. split; [exact cart_line_items_demo |].
  apply (createCheckoutSession_line_items Demo.cart Demo.world [Demo.item]).
  - reflexivity.
  - discriminate.
  - exact cart_line_items_demo.
Defined.

(** C9 on the world whose next draw is 0.5. *)
Lemma createNewCoupon_short_code_witness :
  random Demo.half_world (drawn Demo.half_world) = one_half
  /\ toString36 one_half = "0.i"
  /\ exists c : Coupon,
       fst (createNewCoupon "u1" Demo.half_world) = inr c
       /\ code c = "GIFTI"
       /\ String.length (code c) <> (4 + 6)%nat
       /\ userId c = "u1"
       /\ discountPercentage c = Number.of_Z 10
       /\ expirationDate c = now Demo.half_world + 2592000000.
Proof.
  split; [reflexivity |]. split; [reflexivity |].
  apply (createNewCoupon_short_code "u1" Demo.half_world); reflexivity.
Defined.

(** C10 on the checkout of the cart and the reconciliation of its session. *)
Lemma order_products_reference_submitted_ids_witness :
  field (body Demo.cart) "products" = VArr [Demo.item]
  /\ map_result lineItem [Demo.item] = inr [Demo.descriptor]
  /\ holds_session Demo.paid_world "cs_1" Demo.paid_session
  /\ meta Demo.paid_session "products" = VStr (JSON_stringify (VArr Demo.entries))
  /\ JSON_parse (JSON_stringify (VArr Demo.entries)) = inr (VArr Demo.entries)
  /\ Forall2 id_survives Demo.entries Demo.entries
  /\ exists o : Order,
       orders (snd (checkoutSuccess Demo.success_request Demo.paid_world)) =
         (orders Demo.paid_world ++ [o])%list
       /\ Forall2 references_id [Demo.item] (products o).
Proof.
  assert (Hproducts : field (body Demo.cart) "products" = VArr [Demo.item])
    by reflexivity.
  assert (Hlines : map_result lineItem [Demo.item] = inr [Demo.descriptor])
    by (vm_compute; reflexivity).
  assert (Hs : holds_session Demo.paid_world "cs_1" Demo.paid_session)
    by (vm_compute; reflexivity).
  assert (Hmeta : meta Demo.paid_session "products" =
                  VStr (JSON_stringify (VArr Demo.entries)))
    by (vm_compute; reflexivity).
  assert (Hjson : JSON_parse (JSON_stringify (VArr Demo.entries)) =
                  inr (VArr Demo.entries))
    by (vm_compute; reflexivity).
  assert (Hkeep : Forall2 id_survives Demo.entries Demo.entries).
  { constructor; [| constructor]. split; [split; discriminate | reflexivity]. }
  assert (Hne : [Demo.item] <> []) by discriminate.
  split; [exact Hproducts |]. split; [exact Hlines |]. split; [exact Hs |].
  split; [exact Hmeta |]. split; [exact Hjson |]. split; [exact Hkeep |].
  destruct (order_products_reference_submitted_ids Demo.cart Demo.world
              [Demo.item] [Demo.descriptor] Hproducts Hne Hlines)
    as [entries [made [Hentries [_ [_ [_ Horder]]]]]].
  assert (Heq : entries = Demo.entries).
  { vm_compute in Hentries. injection Hentries as <-. reflexivity. }
  subst entries.
  apply (Horder Demo.success_request Demo.paid_world "cs_1" Demo.paid_session
           Demo.entries (Number.of_Z 10000));
    try reflexivity; assumption.
Defined.

(** ** Runs on the concrete world *)

(** [Math.round] on the Numbers 2.5, -2.5 and on the prices 19.99 and 1.005
    in minor units; 1.005 * 100 is a Number just below 100.5. *)
Example round_half_up :
  Number.round (S754_finite false 5629499534213120 (-51)) = Number.of_Z 3
  /\ Number.round (S754_finite true 5629499534213120 (-51)) = Number.of_Z (-2)
  /\ Number.round (Number.mul Demo.price_19_99 num_100) = Number.of_Z 1999
  /\ Number.round (Number.mul Demo.price_1_005 num_100) = Number.of_Z 100.
Proof.
  repeat split; vm_compute; reflexivity.
Qed.

(** The checkout of the cart answers 200 with the session id and a total of
    0, after one coupon creation and one session creation at the gateway. *)
Example checkout_of_cart :
  fst (createCheckoutSession Demo.cart Demo.world) =
    Some {| status := 200;
            json := VObj [("id", VStr "cs_1"); ("totalAmount", VNum zero)] |}
  /\ map line_items
       (flat_map (fun c => match c with SessionsCreate p => [p] | _ => [] end)
                 (calls Demo.after_checkout)) = [[Demo.descriptor]]
  /\ sessions Demo.after_checkout = [Demo.open_session].
Proof.
  repeat split; vm_compute; reflexivity.
Qed.

(** The reconciliation of the paid session: an Order of 100.00 for the
    10000 minor units the gateway reports, with the line of the snapshot,
    and the coupon of the user deactivated. *)
Example reconciliation_of_cart :
  orders (snd (checkoutSuccess Demo.success_request Demo.paid_world)) =
    [{| order_id := "0";
        user := VStr "u1";
        products := [{| product := VStr "p1";
                        line_quantity := VNum (Number.of_Z 2);
                        line_price := VNum (Number.of_Z 50) |}];
        totalAmount := Number.of_Z 100;
        stripeSessionId := VStr "cs_1" |}]
  /\ coupons (snd (checkoutSuccess Demo.success_request Demo.paid_world)) =
       [set_isActive false Demo.gift].
Proof.
  split; vm_compute; reflexivity.
Qed.

(** An item sent with [id] and no [_id] yields an Order line without
    product id. *)
Example reconciliation_of_unlabelled_cart :
  map product
    (flat_map products
       (orders (snd (checkoutSuccess (Demo.success "cs_0")
                       Demo.unlabelled_paid_world)))) = [VUndef].
Proof.
  vm_compute. reflexivity.
Qed.

(** The coupon minted when [Math.random()] returns 1/4096, rendered
    [0.00be29] in base 36. *)
Example mint_of_tiny_draw :
  fst (createNewCoupon "u1" Demo.world) =
    inr {| coupon_id := "0";
           code := "GIFT00BE29";
           discountPercentage := Number.of_Z 10;
           expirationDate := 1735592000000;
           isActive := true;
           userId := "u1" |}.
Proof.
  vm_compute. reflexivity.
Qed.

(** ** The further statements on the concrete runtime, gateway and world *)

(** X2 on the checkout of the cart. *)
Lemma createCheckoutSession_coupon_requests_witness :
  field (body Demo.cart) "products" = VArr [Demo.item]
  /\ map_result lineItem [Demo.item] = inr [Demo.descriptor]
  /\ coupon_found Demo.cart Demo.world = Some Demo.gift
  /\ exists made : list GatewayCall,
       calls (snd (createCheckoutSession Demo.cart Demo.world)) =
         (calls Demo.world ++ made)%list
       /\ coupon_requests made =
            match coupon_found Demo.cart Demo.world with
            | Some c => [(discountPercentage c, "once")]
            | None => []
            end.
Proof.
  assert (Hlines : map_result lineItem [Demo.item] = inr [Demo.descriptor])
    by (vm_compute; reflexivity).
  assert (Hne : [Demo.item] <> []) by discriminate.
  split; [reflexivity |]. split; [exact Hlines |].
  split; [vm_compute; reflexivity |].
  exact (createCheckoutSession_coupon_requests Demo.cart Demo.world
           [Demo.item] [Demo.descriptor] eq_refl Hne Hlines).
Defined.

(** X3 on the cart whose second entry is [null]. *)
Lemma createCheckoutSession_unreadable_item_witness :
  field (body Cases.broken_cart) "products" = VArr [Demo.item; VNull]
  /\ Exists unreadable [Demo.item; VNull]
  /\ exists e : exn,
       createCheckoutSession Cases.broken_cart Demo.world =
         (Some {| status := 500;
                  json := VObj [("message", VStr "Error processing checkout");
                                ("error", VStr (message e))] |},
          Demo.world).
Proof.
  assert (Hex : Exists unreadable [Demo.item; VNull]).
  { apply Exists_cons_tl. apply Exists_cons_hd. left. reflexivity. }
  split; [reflexivity |]. split; [exact Hex |].
  exact (createCheckoutSession_unreadable_item Cases.broken_cart Demo.world
           [Demo.item; VNull] eq_refl Hex).
Defined.

(** X7 on a session id the gateway does not hold. *)
Lemma checkoutSuccess_unknown_session_witness :
  field (body Cases.unknown_request) "sessionId" = VStr "cs_404"
  /\ find (fun x => String.eqb (session_id x) "cs_404") (sessions Demo.after_checkout)
     = None
  /\ exists e : exn,
       fst (checkoutSuccess Cases.unknown_request Demo.after_checkout) =
         Some {| status := 500;
                 json := VObj [("message",
                                VStr "Error processing successful checkout");
                               ("error", VStr (message e))] |}
       /\ orders (snd (checkoutSuccess Cases.unknown_request Demo.after_checkout)) =
            orders Demo.after_checkout
       /\ coupons (snd (checkoutSuccess Cases.unknown_request Demo.after_checkout)) =
            coupons Demo.after_checkout.
Proof.
  assert (Hnone : find (fun x => String.eqb (session_id x) "cs_404")
                       (sessions Demo.after_checkout) = None)
    by (vm_compute; reflexivity).
  split; [reflexivity |]. split; [exact Hnone |].
  exact (checkoutSuccess_unknown_session Cases.unknown_request Demo.after_checkout
           "cs_404" eq_refl Hnone).
Defined.

(** X8 on the paid session without a snapshot text: the coupon of the user
    ends inactive and no Order exists. *)
Lemma checkoutSuccess_unreadable_snapshot_witness :
  holds_session Cases.damaged_world "cs_9" Cases.damaged_session
  /\ order_lines Cases.damaged_session = inl (SyntaxError "Unexpected token")
  /\ fst (checkoutSuccess Cases.damaged_request Cases.damaged_world) =
       Some (reconciliation_failed (SyntaxError "Unexpected token"))
  /\ orders (snd (checkoutSuccess Cases.damaged_request Cases.damaged_world)) = []
  /\ coupons (snd (checkoutSuccess Cases.damaged_request Cases.damaged_world)) =
       [set_isActive false Demo.gift].
Proof.
  assert (Hs : holds_session Cases.damaged_world "cs_9" Cases.damaged_session)
    by (vm_compute; reflexivity).
  assert (Hlines : order_lines Cases.damaged_session =
                   inl (SyntaxError "Unexpected token"))
    by (vm_compute; reflexivity).
  destruct (checkoutSuccess_unreadable_snapshot Cases.damaged_request
              Cases.damaged_world "cs_9" Cases.damaged_session
              (SyntaxError "Unexpected token") eq_refl Hs eq_refl Hlines)
    as [Hresponse [Horders [Hcoupons _]]].
  split; [exact Hs |]. split; [exact Hlines |]. split; [exact Hresponse |].
  split; [exact Horders | exact Hcoupons].
Defined.

Lemma one_coupon_per_user_paid : one_coupon_per_user (coupons Demo.paid_world).
Proof.
  exact one_coupon_per_user_demo.
Defined.

(** X11 on the session of the cart once paid, and a second checkout of the
    cart. *)
Lemma used_coupon_not_found_again_witness :
  holds_session Demo.paid_world "cs_1" Demo.paid_session
  /\ one_coupon_per_user (coupons Demo.paid_world)
  /\ field (body Demo.cart) "couponCode" = VStr "GIFTABC123"
  /\ apply_coupon Demo.cart (field (body Demo.cart) "couponCode") zero
                  (snd (checkoutSuccess Demo.success_request Demo.paid_world)) =
       (inr (None, zero), snd (checkoutSuccess Demo.success_request Demo.paid_world)).
Proof.
  assert (Hs : holds_session Demo.paid_world "cs_1" Demo.paid_session)
    by (vm_compute; reflexivity).
  assert (Hne : "GIFTABC123" <> "") by discriminate.
  split; [exact Hs |]. split; [exact one_coupon_per_user_paid |].
  split; [reflexivity |].
  exact (used_coupon_not_found_again Demo.success_request Demo.paid_world
           "cs_1" Demo.paid_session "GIFTABC123" "u1" Demo.cart
           eq_refl Hs eq_refl eq_refl Hne eq_refl one_coupon_per_user_paid
           eq_refl eq_refl).
Defined.

(** X12 on the coupon minted for [u1] in the concrete world. *)
Lemma minted_coupon_is_found_witness :
  one_coupon_per_user (coupons Demo.world)
  /\ code (minted "u1" Demo.world) = "GIFT00BE29"
  /\ apply_coupon Cases.minted_cart (field (body Cases.minted_cart) "couponCode") zero
                  (snd (createNewCoupon "u1" Demo.world)) =
       (inr (Some (minted "u1" Demo.world), zero),
        snd (createNewCoupon "u1" Demo.world)).
Proof.
  split; [exact one_coupon_per_user_demo |]. split; [reflexivity |].
  exact (minted_coupon_is_found "u1" Demo.world Cases.minted_cart
           one_coupon_per_user_demo eq_refl eq_refl).
Defined.

(** X13 on the coupons of another user. *)
Lemma createNewCoupon_frame_witness :
  "u2" <> "u1"
  /\ owned_by "u1" (coupons (snd (createNewCoupon "u2" Demo.world))) = [Demo.gift]
  /\ calls (snd (createNewCoupon "u2" Demo.world)) = calls Demo.world.
Proof.
  assert (Hne : "u2" <> "u1") by discriminate.
  destruct (createNewCoupon_frame "u2" "u1" Demo.world Hne)
    as [Hothers [_ [_ [Hcalls _]]]].
  split; [exact Hne |]. split; [| exact Hcalls].
  rewrite Hothers. reflexivity.
Defined.

Lemma cart_items_free : Forall cart_item [VObj Demo.free_item].
Proof.
  constructor; [| constructor].
  eexists. eexists. split; reflexivity.
Defined.

(** X14 on the cart whose item has the quantity 0. *)
Lemma charged_quantity_and_snapshot_witness :
  field (body Demo.free_cart) "products" = VArr [VObj Demo.free_item]
  /\ Forall cart_item [VObj Demo.free_item]
  /\ exists (lineItems : list LineItem) (entries : list value)
            (made : list GatewayCall),
       calls (snd (createCheckoutSession Demo.free_cart Demo.world)) =
         (calls Demo.world ++ made)%list
       /\ (forall params,
             In (SessionsCreate params) made ->
             line_items params = lineItems
             /\ meta_products (metadata params) = JSON_stringify (VArr entries))
       /\ Forall2 (fun p de => charged_and_recorded p (fst de) (snd de))
                  [VObj Demo.free_item] (combine lineItems entries).
Proof.
  assert (Hne : [VObj Demo.free_item] <> []) by discriminate.
  split; [reflexivity |]. split; [exact cart_items_free |].
  exact (charged_quantity_and_snapshot Demo.free_cart Demo.world
           [VObj Demo.free_item] eq_refl Hne cart_items_free).
Defined.

(** ** The statements on the stores, on the concrete browser *)

Lemma unique_ids_page : unique_ids (CartStore.cart (Browser.store Shop.page)).
Proof.
  exists ["p1"]. split; [reflexivity |].
  constructor; [simpl; tauto | constructor].
Defined.

(** X15 on four changes of the cart of the concrete page. *)
Lemma cart_ids_stay_unique_witness :
  Forall local_action
    [CartStore.AddToCart Shop.pen; CartStore.AddToCart Demo.item;
     CartStore.UpdateQuantity (VStr "p2") (VNum (Number.of_Z 5));
     CartStore.RemoveFromCart (VStr "p1")]
  /\ unique_ids (CartStore.cart (Browser.store Shop.page))
  /\ unique_ids
       (CartStore.cart
          (Browser.store
             (@CartStore.run_all Demo.runtime Shop.online
                [CartStore.AddToCart Shop.pen; CartStore.AddToCart Demo.item;
                 CartStore.UpdateQuantity (VStr "p2") (VNum (Number.of_Z 5));
                 CartStore.RemoveFromCart (VStr "p1")]
                Shop.page))).
Proof.
  assert (Hlocal : Forall local_action
            [CartStore.AddToCart Shop.pen; CartStore.AddToCart Demo.item;
             CartStore.UpdateQuantity (VStr "p2") (VNum (Number.of_Z 5));
             CartStore.RemoveFromCart (VStr "p1")]).
  { repeat constructor; simpl; discriminate. }
  split; [exact Hlocal |]. split; [exact unique_ids_page |].
  exact (@cart_ids_stay_unique Demo.runtime Shop.online _ Shop.page
           Hlocal unique_ids_page).
Defined.

Lemma pen_is_new : ~ In "p2" ["p1"].
Proof. intros [Heq | []]. discriminate. Defined.

(** X16 on the pen, which the cart of the concrete page does not hold. *)
Lemma addToCart_new_product_witness :
  ~ In "p2" ["p1"]
  /\ exists item,
       CartStore.cart
         (Browser.store
            (snd (@CartStore.addToCart Demo.runtime Shop.online Shop.pen Shop.page)))
       = VArr ([Demo.item] ++ [item])
       /\ id_of item = Some "p2"
       /\ with_quantity (VNum num_1) Shop.pen item.
Proof.
  split; [exact pen_is_new |].
  exact (@addToCart_new_product Demo.runtime Shop.online Shop.pen "p2" Shop.page
           [Demo.item] ["p1"] Shop.accepted
           eq_refl eq_refl eq_refl pen_is_new eq_refl).
Defined.

Lemma one_id : NoDup ["p1"].
Proof. constructor; [simpl; tauto | constructor]. Defined.

(** X17 on the mug, which the cart of the concrete page holds twice
    over. *)
Lemma addToCart_existing_product_witness :
  NoDup ["p1"]
  /\ exists items' item',
       CartStore.cart
         (Browser.store
            (snd (@CartStore.addToCart Demo.runtime Shop.online Demo.item Shop.page)))
       = VArr items'
       /\ ids_of_items items' = Some ["p1"]
       /\ item_with "p1" items' = Some item'
       /\ with_quantity (VNum (Browser.add (Number.of_Z 2) num_1)) Demo.item item'
       /\ forall id, id <> "p1" -> item_with id items' = item_with id [Demo.item].
Proof.
  split; [exact one_id |].
  exact (@addToCart_existing_product Demo.runtime Shop.online Demo.item "p1"
           Shop.page [Demo.item] ["p1"] Demo.item (Number.of_Z 2) Shop.accepted
           eq_refl eq_refl one_id eq_refl eq_refl eq_refl eq_refl).
Defined.

(** X18 on the removal of the mug. *)
Lemma removal_removes_witness :
  @Browser.ToString Shop.online (VStr "p1") = inr "p1"
  /\ exists kept,
       CartStore.cart
         (Browser.store
            (snd (@CartStore.run Demo.runtime Shop.online
                    (CartStore.RemoveFromCart (VStr "p1")) Shop.page)))
       = VArr kept
       /\ sent_between Shop.page
            (snd (@CartStore.run Demo.runtime Shop.online
                    (CartStore.RemoveFromCart (VStr "p1")) Shop.page))
            [{| Browser.method := "DELETE"; Browser.url := "/cart/" ++ "p1";
                Browser.payload := VUndef |}]
       /\ ids_of_items kept
          = Some (filter (fun id => negb (String.eqb id "p1")) ["p1"])
       /\ item_with "p1" kept = None
       /\ forall id, id <> "p1" -> item_with id kept = item_with id [Demo.item].
Proof.
  split; [reflexivity |].
  exact (@removal_removes Demo.runtime Shop.online
           (CartStore.RemoveFromCart (VStr "p1")) "p1" "p1" Shop.page
           [Demo.item] ["p1"] Shop.accepted
           (or_introl eq_refl) eq_refl eq_refl eq_refl eq_refl).
Defined.

(** X19 on five mugs. *)
Lemma updateQuantity_sets_quantity_witness :
  @Browser.strict_equal Shop.online (VNum (Number.of_Z 5)) (VNum zero) = false
  /\ exists items',
       CartStore.cart
         (Browser.store
            (snd (@CartStore.updateQuantity Demo.runtime Shop.online
                    (VStr "p1") (VNum (Number.of_Z 5)) Shop.page)))
       = VArr items'
       /\ ids_of_items items' = Some ["p1"]
       /\ (forall id, id <> "p1" -> item_with id items' = item_with id [Demo.item])
       /\ (forall item,
              item_with "p1" [Demo.item] = Some item ->
              exists item',
                item_with "p1" items' = Some item'
                /\ with_quantity (VNum (Number.of_Z 5)) item item').
Proof.
  split; [reflexivity |].
  exact (@updateQuantity_sets_quantity Demo.runtime Shop.online "p1" "p1"
           (VNum (Number.of_Z 5)) Shop.page [Demo.item] ["p1"] Shop.accepted
           eq_refl eq_refl eq_refl eq_refl eq_refl).
Defined.

Lemma backend_down_offline : @backend_down Shop.offline _ Shop.page.
Proof. intros c. exists Shop.rejected. reflexivity. Defined.

(** X20 on the pen, while the backend is down. *)
Lemma rejected_request_keeps_state_witness :
  @backend_down Shop.offline _ Shop.page
  /\ fst (@CartStore.run Demo.runtime Shop.offline
            (CartStore.AddToCart Shop.pen) Shop.page) = inr tt
  /\ Browser.store
       (snd (@CartStore.run Demo.runtime Shop.offline
               (CartStore.AddToCart Shop.pen) Shop.page))
     = after_rejection (CartStore.AddToCart Shop.pen) (Browser.store Shop.page)
  /\ exists text,
       Browser.toasts
         (snd (@CartStore.run Demo.runtime Shop.offline
                 (CartStore.AddToCart Shop.pen) Shop.page))
       = (Browser.toasts Shop.page ++ [Browser.ToastError text])%list.
Proof.
  split; [exact backend_down_offline |].
  exact (@rejected_request_keeps_state Demo.runtime Shop.offline
           (CartStore.AddToCart Shop.pen) Shop.page
           backend_down_offline eq_refl).
Defined.

Lemma quiet_addition :
  quiet Shop.page
    (snd (@CartStore.run Demo.runtime Shop.online
            (CartStore.AddToCart Shop.pen) Shop.page)).
Proof.
  exists [Browser.ToastSuccess (VStr "Product added to cart")].
  split; [reflexivity |]. constructor; [exact I | constructor].
Defined.

(** X21 on the addition of the pen. *)
Lemma totals_match_after_witness :
  CartStore.AddToCart Shop.pen <> CartStore.GetMyCoupon
  /\ quiet Shop.page
       (snd (@CartStore.run Demo.runtime Shop.online
               (CartStore.AddToCart Shop.pen) Shop.page))
  /\ totals_match
       (Browser.store
          (snd (@CartStore.run Demo.runtime Shop.online
                  (CartStore.AddToCart Shop.pen) Shop.page))).
Proof.
  assert (Hne : CartStore.AddToCart Shop.pen <> CartStore.GetMyCoupon)
    by discriminate.
  split; [exact Hne |]. split; [exact quiet_addition |].
  exact (@totals_match_after Demo.runtime Shop.online
           (CartStore.AddToCart Shop.pen) Shop.page
           Hne eq_refl quiet_addition).
Defined.

(** X23 on the store as created. *)
Lemma checkingAuth_stays_set_witness :
  UserStore.checkingAuth (Browser.store Shop.start) = true
  /\ UserStore.checkingAuth
       (Browser.store
          (@UserStore.run_all Shop.online
             [UserStore.CheckAuth; UserStore.Login Shop.mistyped;
              UserStore.CheckAuth]
             Shop.start)) = true
  /\ exists calls,
       sent_between Shop.start
         (@UserStore.run_all Shop.online
            [UserStore.CheckAuth; UserStore.Login Shop.mistyped;
             UserStore.CheckAuth]
            Shop.start)
         calls
       /\ Forall (fun c => ~ refreshes c) calls.
Proof.
  split; [reflexivity |].
  exact (@checkingAuth_stays_set Shop.online
           [UserStore.CheckAuth; UserStore.Login Shop.mistyped;
            UserStore.CheckAuth]
           Shop.start eq_refl).
Defined.

(** X24 on the form with the mistyped confirmation, while the backend is
    down. *)
Lemma signup_and_login_clear_loading_witness :
  Shop.mistyped <> VUndef
  /\ Shop.mistyped <> VNull
  /\ UserStore.loading
       (Browser.store (snd (@UserStore.signup Shop.offline Shop.mistyped Shop.start)))
     = false
  /\ UserStore.loading
       (Browser.store (snd (@UserStore.login Shop.offline Shop.mistyped Shop.start)))
     = false.
Proof.
  assert (Hundef : Shop.mistyped <> VUndef) by discriminate.
  assert (Hnull : Shop.mistyped <> VNull) by discriminate.
  split; [exact Hundef |]. split; [exact Hnull |].
  exact (@signup_and_login_clear_loading Shop.offline Shop.mistyped Shop.start
           Hundef Hnull).
Defined.

(** X25 on the form with the mistyped confirmation. *)
Lemma signup_sends_iff_passwords_match_witness :
  get Shop.mistyped "password" = inr (VStr "secret")
  /\ get Shop.mistyped "confirmPassword" = inr (VStr "secert")
  /\ sent_between Shop.start
       (snd (@UserStore.signup Shop.online Shop.mistyped Shop.start)) [].
Proof.
  split; [reflexivity |]. split; [reflexivity |].
  exact (proj1 (@signup_sends_iff_passwords_match Shop.online Shop.mistyped
                  (VStr "Ann") (VStr "ann@example.com")
                  (VStr "secret") (VStr "secert") Shop.start
                  eq_refl eq_refl eq_refl eq_refl)).
Defined.

Lemma totals_match_page : @totals_match Demo.runtime (Browser.store Shop.page).
Proof. reflexivity. Defined.

(** X26 on the concrete page and the code of the concrete coupon. *)
Lemma removeCoupon_undoes_applyCoupon_witness :
  CartStore.coupon (Browser.store Shop.page) = VNull
  /\ CartStore.isCouponApplied (Browser.store Shop.page) = false
  /\ CartStore.loading (Browser.store Shop.page) = false
  /\ @totals_match Demo.runtime (Browser.store Shop.page)
  /\ Browser.store
       (snd (@CartStore.removeCoupon Demo.runtime Shop.online
               (snd (@CartStore.applyCoupon Demo.runtime Shop.online
                       (VStr "GIFTABC123") Shop.page))))
     = Browser.store Shop.page.
Proof.
  split; [reflexivity |]. split; [reflexivity |]. split; [reflexivity |].
  split; [exact totals_match_page |].
  exact (@removeCoupon_undoes_applyCoupon Demo.runtime Shop.online
           (VStr "GIFTABC123") Shop.page eq_refl eq_refl eq_refl
           totals_match_page).
Defined.

Lemma flagged_shelf : Forall (@flagged Shop.online (VStr "p1")) [Shop.plain].
Proof.
  constructor; [| constructor].
  eexists. split; [reflexivity |]. intros _. exists false. reflexivity.
Defined.

(** X27 on the one product of the concrete shelf. *)
Lemma toggleFeaturedProduct_twice_witness :
  Forall (@flagged Shop.online (VStr "p1")) [Shop.plain]
  /\ ok_200 Shop.accepted
  /\ Browser.store
       (snd (@ProductStore.toggleFeaturedProduct Shop.online (VStr "p1")
               (snd (@ProductStore.toggleFeaturedProduct Shop.online
                       (VStr "p1") Shop.shelf))))
     = Browser.store Shop.shelf.
Proof.
  split; [exact flagged_shelf |]. split; [reflexivity |].
  exact (@toggleFeaturedProduct_twice Shop.online (VStr "p1") "p1" Shop.shelf
           [Shop.plain] Shop.accepted Shop.accepted
           eq_refl flagged_shelf eq_refl eq_refl eq_refl eq_refl eq_refl).
Defined.
